(** * sis-montaj: work-order tracker (app.py)

    A shallow embedding of the request handlers of [app.py] and the
    properties of its specification.

    Python strings are sequences of Unicode code points; the document
    store, the two upload directories, the random generator, the clock and
    the disk are an explicit [World] threaded through a state-and-exception
    monad.  Library routines whose tables are not part of the repository
    (Unicode upper-casing, werkzeug's [secure_filename], [str()] of
    non-string values, [strftime]) are the fields of the class [Lib]. *)

From Stdlib Require Import String Ascii.
From Stdlib Require Import List NArith ZArith Bool Lia Arith.
Import ListNotations.

Set Implicit Arguments.
Set Warnings "-register-all".

(** ** Python strings *)

(** A code point, and a [str] as the list of its code points. *)
Definition char := N.
Definition str := list char.

Fixpoint utf8_decode (bs : list N) : str :=
  match bs with
  | [] => []
  | b0 :: t =>
      if (b0 <? 128)%N then b0 :: utf8_decode t
      else if (b0 <? 224)%N then
        match t with
        | b1 :: t1 => ((b0 - 192) * 64 + (b1 - 128))%N :: utf8_decode t1
        | _ => []
        end
      else if (b0 <? 240)%N then
        match t with
        | b1 :: b2 :: t2 =>
            ((b0 - 224) * 4096 + (b1 - 128) * 64 + (b2 - 128))%N :: utf8_decode t2
        | _ => []
        end
      else
        match t with
        | b1 :: b2 :: b3 :: t3 =>
            ((b0 - 240) * 262144 + (b1 - 128) * 4096 + (b2 - 128) * 64 + (b3 - 128))%N
              :: utf8_decode t3
        | _ => []
        end
  end.

(** [u "..."] is the Python literal ['...'] (the file is UTF-8). *)
Definition u (s : string) : str :=
  utf8_decode (map (fun a => N_of_ascii a) (list_ascii_of_string s)).

Definition char_eqb (a b : char) : bool := (a =? b)%N.

Fixpoint str_eqb (a b : str) : bool :=
  match a, b with
  | [], [] => true
  | x :: a', y :: b' => char_eqb x y && str_eqb a' b'
  | _, _ => false
  end.

Definition str_empty (s : str) : bool :=
  match s with [] => true | _ => false end.

Definition str_in (s : str) (l : list str) : bool := existsb (str_eqb s) l.

(** [not l] for a list or a dict given by its items. *)
Definition is_empty {A : Type} (l : list A) : bool :=
  match l with [] => true | _ => false end.

(** [sep.join(parts)] *)
Fixpoint join (sep : str) (parts : list str) : str :=
  match parts with
  | [] => []
  | [p] => p
  | p :: rest => p ++ sep ++ join sep rest
  end.

Fixpoint starts_with (p s : str) : bool :=
  match p, s with
  | [], _ => true
  | x :: p', y :: s' => char_eqb x y && starts_with p' s'
  | _ :: _, [] => false
  end.

(** [p in s] for two strings: substring test. *)
Fixpoint substring_of (p s : str) : bool :=
  starts_with p s ||
  match s with
  | [] => false
  | _ :: s' => substring_of p s'
  end.

(** [str.isspace] of one code point: the white space that [str.strip]
    removes. *)
Definition isspace (c : char) : bool :=
  ((9 <=? c) && (c <=? 13) || (28 <=? c) && (c <=? 32)
   || (c =? 133) || (c =? 160) || (c =? 5760)
   || (8192 <=? c) && (c <=? 8202)
   || (c =? 8232) || (c =? 8233) || (c =? 8239) || (c =? 8287)
   || (c =? 12288))%N.

Fixpoint lstrip (s : str) : str :=
  match s with
  | [] => []
  | c :: t => if isspace c then lstrip t else s
  end.

Definition rstrip (s : str) : str := rev (lstrip (rev s)).

(** [s.strip()] *)
Definition strip (s : str) : str := rstrip (lstrip s).

(** [s.replace(c, '')] for a one-character [c]. *)
Definition remove_all (c : char) (s : str) : str :=
  filter (fun x => negb (char_eqb x c)) s.

(** ** JSON values, as [request.get_json] returns them

    Numbers are integers: the handlers only test a number for truth, and a
    fraction is as true as a non-zero integer. *)

Inductive json : Type :=
| JNull                              (* None *)
| JBool (b : bool)
| JInt (z : Z)
| JStr (s : str)
| JArr (l : list json)
| JObj (m : list (str * json)).

(** Python truthiness. *)
Definition truthy (v : json) : bool :=
  match v with
  | JNull => false
  | JBool b => b
  | JInt z => negb (z =? 0)%Z
  | JStr s => negb (str_empty s)
  | JArr l => match l with [] => false | _ => true end
  | JObj m => match m with [] => false | _ => true end
  end.

(** [a or b] *)
Definition py_or (a b : json) : json := if truthy a then a else b.

Fixpoint assoc_get {V : Type} (k : str) (m : list (str * V)) : option V :=
  match m with
  | [] => None
  | (k', v) :: m' => if str_eqb k k' then Some v else assoc_get k m'
  end.

(** [d.get(k)] on a dict given by its items: [None] when the key is absent. *)
Definition dict_get (m : list (str * json)) (k : str) : json :=
  match assoc_get k m with Some v => v | None => JNull end.

(** [k in d] *)
Definition dict_has (m : list (str * json)) (k : str) : bool :=
  match assoc_get k m with Some _ => true | None => false end.

(** ** Library routines *)

(** Naive UTC [datetime] values: seconds since the epoch. *)
Definition datetime := Z.

Class Lib : Type := {
  (** the full upper-case mapping of one code point ([str.upper] maps it
      over the string; a code point may expand to several) *)
  upper_char : char -> str;
  upper_char_nonempty : forall c, upper_char c <> [];
  upper_char_ascii : forall c, (c < 128)%N ->
    upper_char c = [if ((97 <=? c) && (c <=? 122))%N then (c - 32)%N else c];
  (** [werkzeug.utils.secure_filename] *)
  secure_filename : str -> str;
  (** [str(v)] for a value that is not a string *)
  repr : json -> str;
  (** [strftime('%Y%m%d%H%M%S')] *)
  strftime_stamp : datetime -> str;
  (** [astimezone(ISTANBUL_TZ).strftime('%d.%m.%Y %H:%M')] *)
  strftime_display : datetime -> str;
  (** [isoformat()] of a naive value, and of one made aware in UTC by
      [_ensure_datetime] *)
  isoformat : datetime -> str;
  isoformat_utc : datetime -> str;
  (** [int(s)] of a string: [None] when it raises [ValueError] *)
  py_int : str -> option Z
}.

Section Text.

Context {L : Lib}.

(** [s.upper()] *)
Definition upper (s : str) : str := flat_map upper_char s.

(** [str(v)] *)
Definition py_str (v : json) : str :=
  match v with
  | JStr s => s
  | _ => repr v
  end.

(** [normalize_text], lines 80-83. *)
Definition normalize_text (value : json) : str :=
  match value with
  | JNull => []
  | _ => upper (strip (py_str value))
  end.

(** [job_no_to_token], lines 252-254.  [job_no or ''] is [job_no] itself
    for a string. *)
Definition job_no_to_token (job_no : str) : str :=
  let normalized := normalize_text (py_or (JStr job_no) (JStr [])) in
  remove_all 45%N normalized.

(** [token_to_job_no], lines 257-267. *)
Definition token_to_job_no (token : str) : option str :=
  if str_empty token then None
  else
    let sanitized := normalize_text (JStr token) in
    if (length sanitized <? 3)%nat then None
    else
      let prefix := firstn 2 sanitized in
      let rest := skipn 2 sanitized in
      if str_empty prefix || str_empty rest then None
      else Some (prefix ++ u "-" ++ rest).

End Text.

(** ** Documents of the store *)

(** The dict kept for an invoice and for each photo. *)
Record FileEntry : Type := {
  original_name : str;
  stored_name : str;
  uploaded_at : datetime
}.

(** The [montaj_completion] sub-document. *)
Record Completion : Type := {
  mount_type : str;
  completion_note : str;
  photo_count : nat;
  completed_at : datetime
}.

(** An order document, with the keys [_build_order_document] gives it (the
    [_id] the store adds is not modelled). *)
Record Order : Type := {
  job_no : str;
  priority : str;
  name : str;
  model : str;
  phone : str;
  service : str;
  rnu : str;
  address : str;
  note : str;
  created_at : datetime;
  created_at_display : str;
  invoice : option FileEntry;
  photos : list FileEntry;
  montaj_completed : bool;
  montaj_completion : option Completion
}.

Record Technician : Type := {
  tech_name : str;
  username : str;
  password : str;
  level : Z;
  tech_created_at : datetime
}.

(** ** The world a request runs in *)

Inductive Dir : Type := UPLOAD_ROOT | PHOTOS_ROOT.

Record World : Type := {
  (** [orders_collection], in insertion order; [job_no] has a unique index *)
  orders : list Order;
  (** [technicians_collection]; [username] has a unique index *)
  technicians : list Technician;
  (** names of the files under uploads/invoices and uploads/photos *)
  invoices_dir : list str;
  photos_dir : list str;
  (** the pseudo-random generator: its [i]-th raw draw, and how many were
      taken *)
  rand : nat -> nat;
  rand_pos : nat;
  (** the clock: the value of the [i]-th call of [datetime.now] *)
  clock : nat -> datetime;
  clock_pos : nat;
  (** the disk: whether the [i]-th [save] raises [OSError], and with which
      message *)
  disk : nat -> option str;
  disk_pos : nat
}.

Definition with_orders (f : list Order -> list Order) (w : World) : World :=
  {| orders := f (orders w); technicians := technicians w;
     invoices_dir := invoices_dir w; photos_dir := photos_dir w;
     rand := rand w; rand_pos := rand_pos w;
     clock := clock w; clock_pos := clock_pos w;
     disk := disk w; disk_pos := disk_pos w |}.

Definition with_technicians (f : list Technician -> list Technician) (w : World) : World :=
  {| orders := orders w; technicians := f (technicians w);
     invoices_dir := invoices_dir w; photos_dir := photos_dir w;
     rand := rand w; rand_pos := rand_pos w;
     clock := clock w; clock_pos := clock_pos w;
     disk := disk w; disk_pos := disk_pos w |}.

Definition dir_of (d : Dir) (w : World) : list str :=
  match d with UPLOAD_ROOT => invoices_dir w | PHOTOS_ROOT => photos_dir w end.

Definition with_dir (d : Dir) (f : list str -> list str) (w : World) : World :=
  {| orders := orders w; technicians := technicians w;
     invoices_dir := match d with UPLOAD_ROOT => f (invoices_dir w) | _ => invoices_dir w end;
     photos_dir := match d with PHOTOS_ROOT => f (photos_dir w) | _ => photos_dir w end;
     rand := rand w; rand_pos := rand_pos w;
     clock := clock w; clock_pos := clock_pos w;
     disk := disk w; disk_pos := disk_pos w |}.

Definition tick_rand (w : World) : World :=
  {| orders := orders w; technicians := technicians w;
     invoices_dir := invoices_dir w; photos_dir := photos_dir w;
     rand := rand w; rand_pos := S (rand_pos w);
     clock := clock w; clock_pos := clock_pos w;
     disk := disk w; disk_pos := disk_pos w |}.

Definition tick_clock (w : World) : World :=
  {| orders := orders w; technicians := technicians w;
     invoices_dir := invoices_dir w; photos_dir := photos_dir w;
     rand := rand w; rand_pos := rand_pos w;
     clock := clock w; clock_pos := S (clock_pos w);
     disk := disk w; disk_pos := disk_pos w |}.

Definition tick_disk (w : World) : World :=
  {| orders := orders w; technicians := technicians w;
     invoices_dir := invoices_dir w; photos_dir := photos_dir w;
     rand := rand w; rand_pos := rand_pos w;
     clock := clock w; clock_pos := clock_pos w;
     disk := disk w; disk_pos := S (disk_pos w) |}.

(** ** State and exceptions *)

Inductive exn : Type :=
| ValueError (msg : str)
| OSError (msg : str)
| AttributeError
| TypeError
| DuplicateKeyError
| NonTermination.        (* the fuel of a [while True] loop ran out *)

Inductive result (A : Type) : Type :=
| Ok (a : A)
| Raise (e : exn).

Arguments Ok {A} a.
Arguments Raise {A} e.

Definition M (A : Type) : Type := World -> result A * World.

Definition ret {A} (a : A) : M A := fun w => (Ok a, w).

Definition raise {A} (e : exn) : M A := fun w => (Raise e, w).

Definition bind {A B} (m : M A) (k : A -> M B) : M B :=
  fun w =>
    match m w with
    | (Ok a, w') => k a w'
    | (Raise e, w') => (Raise e, w')
    end.

(** The outcome of a [try] body, handed to the [except] clauses. *)
Definition attempt {A} (m : M A) : M (result A) :=
  fun w => match m w with (r, w') => (Ok r, w') end.

Declare Scope monad_scope.
Delimit Scope monad_scope with monad.
Notation "x <- c ;; k" := (bind c (fun x => k))
  (at level 61, c at next level, right associativity) : monad_scope.
Notation "c ;;; k" := (bind c (fun _ => k))
  (at level 61, right associativity) : monad_scope.
Open Scope monad_scope.

(** [DuplicateKeyError] is the one [PyMongoError] the store of the model
    raises. *)
Definition is_pymongo_error (e : exn) : bool :=
  match e with DuplicateKeyError => true | _ => false end.

(** ** The store, the directories, the generator and the clock *)

Definition has_job (j : str) (o : Order) : bool := str_eqb (job_no o) j.

(** [orders_collection.find_one({'job_no': j})] *)
Definition find_one (j : str) : M (option Order) :=
  fun w => (Ok (find (has_job j) (orders w)), w).

Fixpoint update_first (j : str) (f : Order -> Order) (l : list Order) : list Order :=
  match l with
  | [] => []
  | o :: l' => if has_job j o then f o :: l' else o :: update_first j f l'
  end.

(** [orders_collection.update_one({'job_no': j}, {'$set': ...})], the
    [$set] document given as the function it applies. *)
Definition update_one (j : str) (f : Order -> Order) : M unit :=
  fun w => (Ok tt, with_orders (update_first j f) w).

(** [orders_collection.insert_one(doc)] under the unique index. *)
Definition insert_one (doc : Order) : M unit :=
  fun w =>
    if existsb (has_job (job_no doc)) (orders w)
    then (Raise DuplicateKeyError, w)
    else (Ok tt, with_orders (fun l => l ++ [doc]) w).

Fixpoint delete_first (j : str) (l : list Order) : list Order :=
  match l with
  | [] => []
  | o :: l' => if has_job j o then l' else o :: delete_first j l'
  end.

(** [orders_collection.delete_one({'job_no': j})] *)
Definition delete_one (j : str) : M unit :=
  fun w => (Ok tt, with_orders (delete_first j) w).

Fixpoint insert_desc (o : Order) (l : list Order) : list Order :=
  match l with
  | [] => [o]
  | x :: l' =>
      if (created_at x <? created_at o)%Z then o :: l else x :: insert_desc o l'
  end.

(** [orders_collection.find().sort('created_at', DESCENDING)] *)
Definition find_sorted : M (list Order) :=
  fun w => (Ok (fold_right insert_desc [] (orders w)), w).

(** [technicians_collection.insert_one(doc)] under the unique index. *)
Definition insert_technician (t : Technician) : M unit :=
  fun w =>
    if existsb (fun x => str_eqb (username x) (username t)) (technicians w)
    then (Raise DuplicateKeyError, w)
    else (Ok tt, with_technicians (fun l => l ++ [t]) w).

(** [has_admin_user], lines 96-100. *)
Definition has_admin_user (w : World) : bool :=
  existsb (fun t => (level t =? 1)%Z) (technicians w).

(** [datetime.now(UTC_TZ)] *)
Definition now : M datetime :=
  fun w => (Ok (clock w (clock_pos w)), tick_clock w).

(** One element of [random.choices(population, k=...)]. *)
Definition choice (population : str) : M char :=
  fun w =>
    (Ok (nth (rand w (rand_pos w) mod length population) population 0%N),
     tick_rand w).

(** [''.join(random.choices(population, k=k))] *)
Fixpoint choices (population : str) (k : nat) : M str :=
  match k with
  | O => ret []
  | S k' =>
      c <- choice population ;;
      rest <- choices population k' ;;
      ret (c :: rest)
  end.

Definition digits : str := u "0123456789".
Definition ascii_uppercase : str := u "ABCDEFGHIJKLMNOPQRSTUVWXYZ".

Definition dir_has (n : str) (l : list str) : bool := existsb (str_eqb n) l.

Definition dir_add (n : str) (l : list str) : list str :=
  if dir_has n l then l else n :: l.

Definition dir_remove (n : str) (l : list str) : list str :=
  filter (fun x => negb (str_eqb x n)) l.

(** [file_storage.save(root / n)]: fails when the disk says so. *)
Definition save (d : Dir) (n : str) : M unit :=
  fun w =>
    match disk w (disk_pos w) with
    | Some msg => (Raise (OSError msg), tick_disk w)
    | None => (Ok tt, with_dir d (dir_add n) (tick_disk w))
    end.

(** [(root / n).exists()] *)
Definition file_exists (d : Dir) (n : str) : M bool :=
  fun w => (Ok (dir_has n (dir_of d w)), w).

(** [(root / n).unlink(missing_ok=True)]; removing a file is taken to
    succeed. *)
Definition unlink (d : Dir) (n : str) : M unit :=
  fun w => (Ok tt, with_dir d (dir_remove n) w).

(** [if p.exists(): p.unlink(...)] *)
Definition unlink_if_exists (d : Dir) (n : str) : M unit :=
  present <- file_exists d n ;;
  if present then unlink d n else ret tt.

(** [p.unlink()] of lines 617 and 629: raises [OSError] when the disk says
    so, and then leaves the file. *)
Definition unlink_file (d : Dir) (n : str) : M unit :=
  fun w =>
    match disk w (disk_pos w) with
    | Some msg => (Raise (OSError msg), tick_disk w)
    | None => (Ok tt, with_dir d (dir_remove n) (tick_disk w))
    end.

(** Lines 615-619 and 627-631:
    [try: if p.exists(): p.unlink() except OSError: app.logger.warning(...)] *)
Definition unlink_logged (d : Dir) (n : str) : M unit :=
  removed <- attempt (present <- file_exists d n ;;
                      if present then unlink_file d n else ret tt) ;;
  match removed with
  | Ok _ => ret tt
  | Raise (OSError _) => ret tt
  | Raise e => raise e
  end.

(** ** Requests and responses *)

Record Session : Type := {
  logged_in : bool;                 (* session.get('logged_in') *)
  technician_level : option Z
}.

Record FileStorage : Type := {
  filename : str
}.

Inductive Method : Type := GET | POST | PUT | DELETE.

Record Request : Type := {
  session : Session;
  method : Method;
  (** [request.get_json(silent=True)]: [JNull] when there is no JSON body *)
  json_body : json;
  (** [request.form] and [request.files], as lists of fields *)
  form : list (str * str);
  files : list (str * FileStorage)
}.

(** [request.form.get(k)] *)
Definition form_get (rq : Request) (k : str) : json :=
  match assoc_get k (form rq) with Some s => JStr s | None => JNull end.

(** [request.files.get(k)] *)
Definition files_get (rq : Request) (k : str) : option FileStorage :=
  assoc_get k (files rq).

(** [request.files.getlist(k)] *)
Definition files_getlist (rq : Request) (k : str) : list FileStorage :=
  map snd (filter (fun p => str_eqb k (fst p)) (files rq)).

(** Truthiness of an optional [FileStorage] and of its file name:
    [file_storage and file_storage.filename]. *)
Definition has_filename (f : option FileStorage) : bool :=
  match f with
  | Some fs => negb (str_empty (filename fs))
  | None => false
  end.

(** What [_build_photo_entry] returns. *)
Record PhotoJson : Type := {
  pj_original_name : str;
  pj_stored_name : str;
  pj_uploaded_at : str;
  pj_url : str
}.

Record InvoiceJson : Type := {
  ij_original_name : str;
  ij_stored_name : str;
  ij_uploaded_at : str
}.

Record CompletionJson : Type := {
  cj_mount_type : str;
  cj_note : str;
  cj_completed_at : str;
  cj_photo_count : nat
}.

(** What [format_order] returns (without the ['id'] key). *)
Record OrderJson : Type := {
  oj_job_no : str;
  oj_priority : str;
  oj_name : str;
  oj_model : str;
  oj_phone : str;
  oj_service : str;
  oj_rnu : str;
  oj_address : str;
  oj_note : str;
  oj_created_at : str;
  oj_created_at_display : str;
  oj_invoice_uploaded : bool;
  oj_invoice_url : str;
  oj_invoice : option InvoiceJson;
  oj_photos : list PhotoJson;
  oj_montaj_completed : bool;
  oj_montaj_completion : option CompletionJson
}.

Inductive Body : Type :=
| Message (msg : str)                                 (* {'message': msg} *)
| OrderBody (o : OrderJson) (msg : option str)        (* {'order': o, ...} *)
| OrderList (l : list OrderJson)
| TechnicianBody (t_name t_username : str) (t_level : Z) (msg : str)
| ZipFile (download_name : str) (members : list str)
| Redirect (target : str)
| Template (error message : option str) (order : option OrderJson)
| ServerError.                                        (* an uncaught exception *)

Record Response : Type := {
  status : nat;
  body : Body
}.

Definition json_message (code : nat) (msg : str) : Response :=
  {| status := code; body := Message msg |}.

Section Handlers.

Context {L : Lib}.

(** [normalize_text] of a string. *)
Definition normalize_str (s : str) : str := normalize_text (JStr s).

(** [_unauthorized_json], lines 86-87. *)
Definition _unauthorized_json : Response :=
  json_message 401 (u "Oturum açılmadı.").

(** [generate_job_no], lines 64-69; [fuel] bounds the iterations of the
    [while True] loop. *)
Fixpoint generate_job_no (fuel : nat) : M str :=
  match fuel with
  | O => raise NonTermination
  | S fuel' =>
      suffix <- choices digits 4 ;;
      let job_no := u "TE-" ++ suffix in
      found <- find_one job_no ;;
      match found with
      | None => ret job_no
      | Some _ => generate_job_no fuel'
      end
  end.

(** [_build_photo_entry], lines 114-123, on a non-empty entry. *)
Definition _build_photo_entry (entry : FileEntry) : PhotoJson :=
  {| pj_original_name := original_name entry;
     pj_stored_name := stored_name entry;
     pj_uploaded_at := isoformat (uploaded_at entry);
     pj_url := if str_empty (stored_name entry) then []
               else u "/photos/" ++ stored_name entry |}.

(** [format_order], lines 322-370. *)
Definition format_order (document : Order) : OrderJson :=
  let has_invoice :=
    match invoice document with
    | Some i => negb (str_empty (stored_name i))
    | None => false
    end in
  {| oj_job_no := job_no document;
     oj_priority :=
       (let p := normalize_str (priority document) in
        if str_empty p then u "DÜŞÜK" else p);
     oj_name := normalize_str (name document);
     oj_model := normalize_str (model document);
     oj_phone := normalize_str (phone document);
     oj_service := normalize_str (service document);
     oj_rnu := normalize_str (rnu document);
     oj_address := normalize_str (address document);
     oj_note := note document;
     oj_created_at := isoformat_utc (created_at document);
     oj_created_at_display :=
       (if str_empty (created_at_display document)
        then strftime_display (created_at document)
        else created_at_display document);
     oj_invoice_uploaded := has_invoice;
     oj_invoice_url :=
       match invoice document with
       | Some i => if has_invoice then u "/invoices/" ++ stored_name i else []
       | None => []
       end;
     oj_invoice :=
       match invoice document with
       | Some i => Some {| ij_original_name := original_name i;
                           ij_stored_name := stored_name i;
                           ij_uploaded_at := isoformat (uploaded_at i) |}
       | None => None
       end;
     oj_photos := map _build_photo_entry (photos document);
     oj_montaj_completed := montaj_completed document;
     oj_montaj_completion :=
       match montaj_completion document with
       | Some c => Some {| cj_mount_type := normalize_str (mount_type c);
                           cj_note := completion_note c;
                           cj_completed_at := isoformat (completed_at c);
                           cj_photo_count := photo_count c |}
       | None => None
       end |}.

(** [format_order] of what [find_one] gave: [None] has no [get]. *)
Definition format_found (found : option Order) : M OrderJson :=
  match found with
  | Some document => ret (format_order document)
  | None => raise AttributeError
  end.

(** [_save_photo], lines 126-139. *)
Definition _save_photo (job_no : str) (file_storage : FileStorage) : M FileEntry :=
  let filename := secure_filename (filename file_storage) in
  if str_empty filename then raise (ValueError (u "Geçersiz dosya adı."))
  else
    timestamp <- now ;;
    random_part <- choices (ascii_uppercase ++ digits) 4 ;;
    let stored_name :=
      job_no ++ u "-" ++ strftime_stamp timestamp ++ u "-" ++ random_part
             ++ u "-" ++ filename in
    save PHOTOS_ROOT stored_name ;;;
    uploaded <- now ;;
    ret {| original_name := filename;
           stored_name := stored_name;
           uploaded_at := uploaded |}.

Definition set_invoice (i : FileEntry) (o : Order) : Order :=
  {| job_no := job_no o; priority := priority o; name := name o;
     model := model o; phone := phone o; service := service o; rnu := rnu o;
     address := address o; note := note o; created_at := created_at o;
     created_at_display := created_at_display o;
     invoice := Some i; photos := photos o;
     montaj_completed := montaj_completed o;
     montaj_completion := montaj_completion o |}.

(** [_store_invoice], lines 218-249.  The store of the model raises nothing
    in [update_one] and [find_one], so the clean-up of lines 245-248 is
    never entered. *)
Definition _store_invoice (job_no : str) (file_storage : option FileStorage)
  : M (option Order) :=
  match file_storage with
  | None => raise (ValueError (u "Fatura dosyası seçilmedi."))
  | Some fs =>
      if str_empty (filename fs) then raise (ValueError (u "Fatura dosyası seçilmedi."))
      else
        let filename := secure_filename (filename fs) in
        if str_empty filename then raise (ValueError (u "Geçersiz dosya adı."))
        else
          timestamp <- now ;;
          let stored_name := job_no ++ u "-" ++ strftime_stamp timestamp ++ u "-" ++ filename in
          saved <- attempt (save UPLOAD_ROOT stored_name) ;;
          match saved with
          | Raise (OSError _) => raise (ValueError (u "Fatura kaydedilemedi."))
          | Raise e => raise e
          | Ok _ =>
              upload_time <- now ;;
              update_one job_no
                (set_invoice {| original_name := filename;
                                stored_name := stored_name;
                                uploaded_at := upload_time |}) ;;;
              find_one job_no
          end
  end.

(** [data.get(k)] on the request payload: only a dict has [get]. *)
Definition data_get (data : json) (k : str) : M json :=
  match data with
  | JObj m => ret (dict_get m k)
  | _ => raise AttributeError
  end.

(** [(v or default).strip()]: only a string has [strip]. *)
Definition or_strip (v : json) (default : str) : M str :=
  match py_or v (JStr default) with
  | JStr s => ret (strip s)
  | _ => raise AttributeError
  end.

(** [[field for field in fields if not (data.get(field) or '').strip()]] *)
Fixpoint missing_fields (data : json) (fields : list str) : M (list str) :=
  match fields with
  | [] => ret []
  | field :: fields' =>
      v <- data_get data field ;;
      s <- or_strip v [] ;;
      rest <- missing_fields data fields' ;;
      ret (if str_empty s then field :: rest else rest)
  end.

Definition required_fields : list str :=
  [u "priority"; u "name"; u "model"; u "phone"; u "service"; u "address"].

Definition valid_priorities : list str := [u "YÜKSEK"; u "ORTA"; u "DÜŞÜK"].

(** [if p not in {...}: p = 'DÜŞÜK'] *)
Definition priority_or_default (p : str) : str :=
  if str_in p valid_priorities then p else u "DÜŞÜK".

(** [_build_order_document], lines 270-309. *)
Definition _build_order_document (fuel : nat) (data : json) : M Order :=
  missing <- missing_fields data required_fields ;;
  if negb (is_empty missing)
  then raise (ValueError (u "Eksik alanlar: " ++ join (u ", ") missing))
  else
    priority_value <- data_get data (u "priority") ;;
    priority_input <- or_strip priority_value (u "DÜŞÜK") ;;
    let priority := priority_or_default (normalize_str priority_input) in
    name_value <- data_get data (u "name") ;;
    model_value <- data_get data (u "model") ;;
    phone_value <- data_get data (u "phone") ;;
    service_value <- data_get data (u "service") ;;
    rnu_value <- data_get data (u "rnu") ;;
    address_value <- data_get data (u "address") ;;
    note_value <- data_get data (u "note") ;;
    note <- or_strip note_value [] ;;
    job_no <- generate_job_no fuel ;;
    created_at <- now ;;
    ret {| job_no := job_no;
           priority := priority;
           name := normalize_text name_value;
           model := normalize_text model_value;
           phone := normalize_text phone_value;
           service := normalize_text service_value;
           rnu := normalize_text rnu_value;
           address := normalize_text address_value;
           note := note;
           created_at := created_at;
           created_at_display := strftime_display created_at;
           invoice := None;
           photos := [];
           montaj_completed := false;
           montaj_completion := None |}.

(** [create_order_from_payload], lines 312-319. *)
Definition create_order_from_payload (fuel : nat) (data : json) : M OrderJson :=
  document <- _build_order_document fuel data ;;
  inserted <- attempt (insert_one document) ;;
  match inserted with
  | Raise DuplicateKeyError =>
      raise (ValueError (u "İşemri numarası çakıştı, lütfen tekrar deneyin."))
  | Raise e => raise e
  | Ok _ => ret (format_order document)
  end.

(** [request.get_json(silent=True) or {}] *)
Definition payload (rq : Request) : json := py_or (json_body rq) (JObj []).

(** [create_order], lines 471-486.  [_notify_new_order] sends an SMS and
    swallows every exception; it touches neither the store nor the
    response and is left out. *)
Definition create_order (fuel : nat) (rq : Request) : M Response :=
  if negb (logged_in (session rq)) then ret _unauthorized_json
  else
    let data := payload rq in
    created <- attempt (create_order_from_payload fuel data) ;;
    match created with
    | Raise (ValueError msg) => ret (json_message 400 msg)
    | Raise e =>
        if is_pymongo_error e || match e with AttributeError => true | _ => false end
        then ret (json_message 500 (u "Kayıt kaydedilemedi."))
        else raise e
    | Ok created_order =>
        ret {| status := 201; body := OrderBody created_order None |}
    end.

(** [list_orders], lines 458-468. *)
Definition list_orders (rq : Request) : M Response :=
  if negb (logged_in (session rq)) then ret _unauthorized_json
  else
    found <- attempt find_sorted ;;
    match found with
    | Ok documents =>
        ret {| status := 200; body := OrderList (map format_order documents) |}
    | Raise e =>
        if is_pymongo_error e || match e with AttributeError => true | _ => false end
        then ret (json_message 500 (u "Kayıtlar alınamadı."))
        else raise e
    end.

(** [upload_invoice], lines 489-508. *)
Definition upload_invoice (job_no : str) (rq : Request) : M Response :=
  if negb (logged_in (session rq)) then ret _unauthorized_json
  else
    order <- find_one job_no ;;
    match order with
    | None => ret (json_message 404 (u "İşemri bulunamadı."))
    | Some _ =>
        match files_get rq (u "invoice") with
        | None => ret (json_message 400 (u "Fatura dosyası bulunamadı."))
        | Some file =>
            stored <- attempt (_store_invoice job_no (Some file)) ;;
            match stored with
            | Raise (ValueError msg) => ret (json_message 400 msg)
            | Raise e =>
                if is_pymongo_error e || match e with AttributeError => true | _ => false end
                then ret (json_message 500 (u "Fatura yüklenemedi."))
                else raise e
            | Ok updated =>
                formatted <- format_found updated ;;
                ret {| status := 201;
                       body := OrderBody formatted (Some (u "Fatura başarıyla yüklendi.")) |}
            end
        end
    end.

(** The [try] body of lines 528-530: the photos saved so far, and the
    [ValueError] or [OSError] that stopped the loop, if one did. *)
Fixpoint save_photos (job_no : str) (files : list FileStorage)
    (saved_entries : list FileEntry) : M (list FileEntry * option exn) :=
  match files with
  | [] => ret (saved_entries, None)
  | file_storage :: files' =>
      if has_filename (Some file_storage) then
        saved <- attempt (_save_photo job_no file_storage) ;;
        match saved with
        | Ok entry => save_photos job_no files' (saved_entries ++ [entry])
        | Raise (ValueError msg) => ret (saved_entries, Some (ValueError msg))
        | Raise (OSError msg) => ret (saved_entries, Some (OSError msg))
        | Raise e => raise e
        end
      else save_photos job_no files' saved_entries
  end.

(** Lines 532-535: remove the files of the entries saved so far. *)
Fixpoint remove_saved (saved_entries : list FileEntry) : M unit :=
  match saved_entries with
  | [] => ret tt
  | entry :: rest =>
      unlink_if_exists PHOTOS_ROOT (stored_name entry) ;;;
      remove_saved rest
  end.

(** [str(exc)] *)
Definition exn_message (e : exn) : str :=
  match e with
  | ValueError msg => msg
  | OSError msg => msg
  | _ => []
  end.

Definition valid_mount_types : list str := [u "DUVAR"; u "SEHPA"; u "DIGER"; []].

(** The [$set] document of lines 544-555: the completion flag and record,
    and the ['photos'] key when it was given. *)
Definition set_completion (c : Completion) (new_photos : option (list FileEntry))
    (o : Order) : Order :=
  {| job_no := job_no o; priority := priority o; name := name o;
     model := model o; phone := phone o; service := service o; rnu := rnu o;
     address := address o; note := note o; created_at := created_at o;
     created_at_display := created_at_display o;
     invoice := invoice o;
     photos := match new_photos with Some l => l | None => photos o end;
     montaj_completed := true;
     montaj_completion := Some c |}.

(** [complete_order], lines 511-564. *)
Definition complete_order (job_no : str) (rq : Request) : M Response :=
  if negb (logged_in (session rq)) then ret _unauthorized_json
  else
    found <- find_one job_no ;;
    match found with
    | None => ret (json_message 404 (u "İşemri bulunamadı."))
    | Some order =>
        let mount_type := normalize_text (py_or (form_get rq (u "mount_type")) (JStr [])) in
        if negb (str_in mount_type valid_mount_types)
        then ret (json_message 400 (u "Geçersiz montaj türü."))
        else
          note <- or_strip (form_get rq (u "note")) [] ;;
          let files := files_getlist rq (u "photos") in
          outcome <- save_photos job_no files [] ;;
          match outcome with
          | (saved_entries, Some exc) =>
              remove_saved saved_entries ;;;
              ret (json_message 400 (exn_message exc))
          | (saved_entries, None) =>
              if is_empty saved_entries
              then ret (json_message 400 (u "Lütfen en az bir fotoğraf yükleyin."))
              else
                let existing_photos := photos order in
                let total_photos := (length existing_photos + length saved_entries)%nat in
                completed <- now ;;
                update_one job_no
                  (set_completion {| mount_type := mount_type;
                                     completion_note := note;
                                     photo_count := total_photos;
                                     completed_at := completed |}
                                  (if is_empty saved_entries then None
                                   else Some (existing_photos ++ saved_entries))) ;;;
                updated_order <- find_one job_no ;;
                formatted <- format_found updated_order ;;
                ret {| status := 200; body := OrderBody formatted None |}
          end
    end.

(** [k in data] on the request payload: a dict has the key, a list has the
    element, a string has the substring; a number or a boolean is not
    iterable. *)
Definition data_contains (data : json) (k : str) : M bool :=
  match data with
  | JObj m => ret (dict_has m k)
  | JArr l =>
      ret (existsb (fun v => match v with JStr s => str_eqb s k | _ => false end) l)
  | JStr s => ret (substring_of k s)
  | _ => raise TypeError
  end.

(** The keys of [allowed_fields] and [text_fields], lines 576 and 586.  The
    source iterates over sets; the order chosen here does not show in the
    resulting dict, nor in the status of the answer when a value raises. *)
Definition allowed_fields : list str :=
  [u "priority"; u "name"; u "model"; u "phone"; u "service"; u "rnu"; u "address"].

Definition text_fields : list str :=
  [u "name"; u "model"; u "phone"; u "service"; u "rnu"; u "address"].

(** [{key: (data.get(key) or '').strip() for key in keys if key in data}] *)
Fixpoint collect_fields (data : json) (keys : list str) : M (list (str * str)) :=
  match keys with
  | [] => ret []
  | key :: keys' =>
      present <- data_contains data key ;;
      if present then
        v <- data_get data key ;;
        s <- or_strip v [] ;;
        rest <- collect_fields data keys' ;;
        ret ((key, s) :: rest)
      else collect_fields data keys'
  end.

(** Lines 579-589, for one entry of [update_doc]. *)
Definition normalize_entry (e : str * str) : str * str :=
  let (key, value) := e in
  if str_eqb key (u "priority")
  then (key, priority_or_default (normalize_str value))
  else if str_in key text_fields then (key, normalize_str value)
  else (key, value).

(** The new value of the field [k] under [$set: {key: value}]. *)
Definition pick_field (key value : str) (k : string) (old : str) : str :=
  if str_eqb key (u k) then value else old.

Definition set_field (e : str * str) (o : Order) : Order :=
  let (key, value) := e in
  {| job_no := job_no o;
     priority := pick_field key value "priority" (priority o);
     name := pick_field key value "name" (name o);
     model := pick_field key value "model" (model o);
     phone := pick_field key value "phone" (phone o);
     service := pick_field key value "service" (service o);
     rnu := pick_field key value "rnu" (rnu o);
     address := pick_field key value "address" (address o);
     note := note o; created_at := created_at o;
     created_at_display := created_at_display o;
     invoice := invoice o; photos := photos o;
     montaj_completed := montaj_completed o;
     montaj_completion := montaj_completion o |}.

(** [{'$set': update_doc}] *)
Definition apply_update (update_doc : list (str * str)) (o : Order) : Order :=
  fold_left (fun acc e => set_field e acc) update_doc o.

(** [update_order], lines 567-601. *)
Definition update_order (job_no : str) (rq : Request) : M Response :=
  if negb (logged_in (session rq)) then ret _unauthorized_json
  else
    order <- find_one job_no ;;
    match order with
    | None => ret (json_message 404 (u "İşemri bulunamadı."))
    | Some _ =>
        let data := payload rq in
        collected <- collect_fields data allowed_fields ;;
        let update_doc := map normalize_entry collected in
        if is_empty update_doc
        then ret (json_message 400 (u "Güncellenecek alan bulunamadı."))
        else
          update_one job_no (apply_update update_doc) ;;;
          updated <- find_one job_no ;;
          formatted <- format_found updated ;;
          ret {| status := 200; body := OrderBody formatted None |}
    end.

(** Lines 622-631: remove the stored photo files of an order. *)
Fixpoint remove_photos (l : list FileEntry) : M unit :=
  match l with
  | [] => ret tt
  | photo :: rest =>
      (if str_empty (stored_name photo) then ret tt
       else unlink_logged PHOTOS_ROOT (stored_name photo)) ;;;
      remove_photos rest
  end.

(** [delete_order], lines 604-639. *)
Definition delete_order (job_no : str) (rq : Request) : M Response :=
  if negb (logged_in (session rq)) then ret _unauthorized_json
  else
    found <- find_one job_no ;;
    match found with
    | None => ret (json_message 404 (u "İşemri bulunamadı."))
    | Some order =>
        (match invoice order with
         | Some i =>
             if str_empty (stored_name i) then ret tt
             else unlink_logged UPLOAD_ROOT (stored_name i)
         | None => ret tt
         end) ;;;
        remove_photos (photos order) ;;;
        deleted <- attempt (delete_one job_no) ;;
        match deleted with
        | Ok _ => ret (json_message 200 (u "Kayıt silindi."))
        | Raise e =>
            if is_pymongo_error e || match e with AttributeError => true | _ => false end
            then ret (json_message 500 (u "Kayıt silinemedi."))
            else raise e
        end
    end.

(** Lines 746-752: the member names of the archive. *)
Fixpoint zip_members (valid_photos : list FileEntry) : M (list str) :=
  match valid_photos with
  | [] => ret []
  | photo :: rest =>
      let original := if str_empty (original_name photo) then stored_name photo
                      else original_name photo in
      present <- file_exists PHOTOS_ROOT (stored_name photo) ;;
      names <- zip_members rest ;;
      if present then
        let safe_name := if str_empty (secure_filename original) then stored_name photo
                         else secure_filename original in
        ret (safe_name :: names)
      else ret names
  end.

(** [download_photos], lines 730-756. *)
Definition download_photos (job_no : str) (rq : Request) : M Response :=
  if negb (logged_in (session rq)) then ret _unauthorized_json
  else
    found <- find_one job_no ;;
    match found with
    | None => ret (json_message 404 (u "İşemri bulunamadı."))
    | Some order =>
        let valid_photos :=
          filter (fun photo => negb (str_empty (stored_name photo))) (photos order) in
        if is_empty valid_photos
        then ret (json_message 404 (u "Kaydedilmiş fotoğraf bulunamadı."))
        else
          members <- zip_members valid_photos ;;
          ret {| status := 200;
                 body := ZipFile (job_no ++ u "-RESIMLER.zip") members |}
    end.

Definition technician_fields : list str :=
  [u "name"; u "username"; u "password"; u "level"].

(** [create_technician], lines 651-693.  [_normalize_password] is the same
    function as [normalize_text]. *)
Definition create_technician (rq : Request) : M Response :=
  if negb (logged_in (session rq)) then ret _unauthorized_json
  else
    let data := payload rq in
    missing <- missing_fields data technician_fields ;;
    if negb (is_empty missing)
    then ret (json_message 400 (u "Eksik alanlar: " ++ join (u ", ") missing))
    else
      name_value <- data_get data (u "name") ;;
      username_value <- data_get data (u "username") ;;
      password_value <- data_get data (u "password") ;;
      level_value <- data_get data (u "level") ;;
      let level := match level_value with
                   | JStr s => py_int s
                   | _ => None
                   end in
      match level with
      | Some lv =>
          if ((lv =? 3) || (lv =? 4) || (lv =? 5))%Z then
            created <- now ;;
            let document := {| tech_name := normalize_text name_value;
                               username := normalize_text username_value;
                               password := normalize_text password_value;
                               level := lv;
                               tech_created_at := created |} in
            inserted <- attempt (insert_technician document) ;;
            match inserted with
            | Raise DuplicateKeyError =>
                ret (json_message 409 (u "Kullanıcı adı zaten kayıtlı."))
            | Raise AttributeError =>
                ret (json_message 500 (u "Teknisyen kaydedilemedi."))
            | Raise e => raise e
            | Ok _ =>
                ret {| status := 201;
                       body := TechnicianBody (normalize_str (tech_name document))
                                 (normalize_str (username document)) lv
                                 (u "Teknisyen oluşturuldu.") |}
            end
          else ret (json_message 400 (u "Seçilen seviye geçersiz."))
      | None => ret (json_message 400 (u "Seçilen seviye geçersiz."))
      end.

(** [upload_invoice_form], lines 759-782: the public form behind the short
    link. *)
Definition upload_invoice_form (token : str) (rq : Request) : M Response :=
  match token_to_job_no token with
  | None => ret {| status := 400;
                   body := Template (Some (u "Geçersiz bağlantı.")) None None |}
  | Some job_no =>
      found <- find_one job_no ;;
      match found with
      | None => ret {| status := 404;
                       body := Template (Some (u "Kayıt bulunamadı.")) None None |}
      | Some order =>
          match method rq with
          | POST =>
              stored <- attempt (_store_invoice job_no (files_get rq (u "invoice"))) ;;
              match stored with
              | Ok updated =>
                  shown <- match updated with
                           | Some o => ret (Some o)
                           | None => find_one job_no
                           end ;;
                  formatted <- format_found shown ;;
                  ret {| status := 200;
                         body := Template None
                                   (Some (u "Faturanız yüklendi. Teşekkür ederiz."))
                                   (Some formatted) |}
              | Raise (ValueError msg) =>
                  ret {| status := 200;
                         body := Template (Some msg) None (Some (format_order order)) |}
              | Raise e =>
                  if is_pymongo_error e || match e with AttributeError => true | _ => false end
                  then ret {| status := 200;
                              body := Template
                                        (Some (u "Fatura yüklenemedi, lütfen tekrar deneyin."))
                                        None (Some (format_order order)) |}
                  else raise e
              end
          | _ =>
              ret {| status := 200;
                     body := Template None None (Some (format_order order)) |}
          end
      end
  end.

(** Lines 803-805: the first key other than ['rnu'] whose value is empty. *)
Fixpoint first_empty (items : list (str * str)) : option str :=
  match items with
  | [] => None
  | (key, value) :: rest =>
      if negb (str_eqb key (u "rnu")) && str_empty value then Some key
      else first_empty rest
  end.

(** [_create_order_from_bayi], lines 793-807. *)
Definition _create_order_from_bayi (rq : Request) : M json :=
  let service := normalize_text (form_get rq (u "service")) in
  let payload :=
    [ (u "priority", u "ORTA");
      (u "name", normalize_text (form_get rq (u "name")));
      (u "phone", normalize_text (form_get rq (u "phone")));
      (u "model", normalize_text (form_get rq (u "model")));
      (u "service", if str_empty service then u "TV KURULUM" else service);
      (u "address", normalize_text (form_get rq (u "address")));
      (u "rnu", []) ] in
  match first_empty payload with
  | Some key => raise (ValueError (u "Eksik alan: " ++ key))
  | None =>
      note <- or_strip (form_get rq (u "note")) [] ;;
      ret (JObj (map (fun kv => (fst kv, JStr (snd kv))) (payload ++ [(u "note", note)])))
  end.

(** [bayi_create_order], lines 815-830: the dealer form.  It does not read
    the session. *)
Definition bayi_create_order (fuel : nat) (rq : Request) : M Response :=
  done <- attempt (
    data <- _create_order_from_bayi rq ;;
    let invoice_file := files_get rq (u "invoice") in
    if negb (has_filename invoice_file)
    then ret (json_message 400 (u "Fatura dosyası zorunludur."))
    else
      created_order <- create_order_from_payload fuel data ;;
      updated <- _store_invoice (oj_job_no created_order) invoice_file ;;
      formatted <- format_found updated ;;
      ret {| status := 200; body := OrderBody formatted None |}) ;;
  match done with
  | Ok response => ret response
  | Raise (ValueError msg) => ret (json_message 400 msg)
  | Raise e =>
      if is_pymongo_error e || match e with AttributeError => true | _ => false end
      then ret (json_message 500 (u "Kayıt oluşturulamadı."))
      else raise e
  end.

(** ** Routing *)

Inductive Endpoint : Type :=
| list_orders_ep
| create_order_ep
| upload_invoice_ep (job_no : str)
| complete_order_ep (job_no : str)
| update_order_ep (job_no : str)
| delete_order_ep (job_no : str)
| create_technician_ep
| download_photos_ep (job_no : str)
| upload_invoice_form_ep (token : str)
| bayi_create_order_ep.

Definition view (fuel : nat) (ep : Endpoint) (rq : Request) : M Response :=
  match ep with
  | list_orders_ep => list_orders rq
  | create_order_ep => create_order fuel rq
  | upload_invoice_ep j => upload_invoice j rq
  | complete_order_ep j => complete_order j rq
  | update_order_ep j => update_order j rq
  | delete_order_ep j => delete_order j rq
  | create_technician_ep => create_technician rq
  | download_photos_ep j => download_photos j rq
  | upload_invoice_form_ep t => upload_invoice_form t rq
  | bayi_create_order_ep => bayi_create_order fuel rq
  end.

(** [enforce_initial_setup], lines 103-111: none of the endpoints above is
    ['setup_admin'] or static. *)
Definition enforce_initial_setup : M (option Response) :=
  fun w =>
    if has_admin_user w then (Ok None, w)
    else (Ok (Some {| status := 302; body := Redirect (u "/setup") |}), w).

(** A request, through the [before_request] hook and its view. *)
Definition handle_request (fuel : nat) (ep : Endpoint) (rq : Request) : M Response :=
  early <- enforce_initial_setup ;;
  match early with
  | Some response => ret response
  | None => view fuel ep rq
  end.

(** What the client gets: an exception no handler caught is a 500 page;
    [None] when the fuel did not suffice. *)
Definition serve (m : M Response) (w : World) : option Response * World :=
  match m w with
  | (Ok response, w') => (Some response, w')
  | (Raise NonTermination, w') => (None, w')
  | (Raise _, w') => (Some {| status := 500; body := ServerError |}, w')
  end.

(** The endpoints behind the login gate. *)
Definition gated (ep : Endpoint) : bool :=
  match ep with
  | upload_invoice_form_ep _ | bayi_create_order_ep => false
  | _ => true
  end.

End Handlers.

(** ** Pages and the session

    The views below answer with a page or a redirect, and some of them
    write the session. *)

(** What a view does to the session: nothing, [session.clear()], or the
    four keys ['logged_in'], ['username'], ['technician_name'] and
    ['technician_level'] of lines 399-402 and 443-446. *)
Inductive SessionWrite : Type :=
| KeepSession
| ClearSession
| SignIn (s_username s_technician_name : str) (s_technician_level : Z).

(** The session the next request carries, as the handlers read it. *)
Definition write_session (sw : SessionWrite) (s : Session) : Session :=
  match sw with
  | KeepSession => s
  | ClearSession => {| logged_in := false; technician_level := None |}
  | SignIn _ _ lv => {| logged_in := true; technician_level := Some lv |}
  end.

Inductive Page : Type :=
| RedirectTo (endpoint : string)                  (* redirect(url_for(endpoint)) *)
| IndexPage                                       (* index.html *)
| LoginPage (error : option str) (last_username : str)
| SetupPage (error : option str) (last_name last_username : str)
| MontajPage (listed : list OrderJson).           (* montaj.html *)

(** [request.form.get(k) or ''] and [request.form.get(k, '')] *)
Definition form_text (rq : Request) (k : str) : str :=
  match assoc_get k (form rq) with Some s => s | None => [] end.

(** [technicians_collection.find_one({'username': n})] *)
Definition find_technician (n : str) : M (option Technician) :=
  fun w => (Ok (find (fun t => str_eqb (username t) n) (technicians w)), w).

(** String order of the store: code point by code point. *)
Fixpoint str_leb (a b : str) : bool :=
  match a, b with
  | [], _ => true
  | _ :: _, [] => false
  | x :: a', y :: b' => (x <? y)%N || ((x =? y)%N && str_leb a' b')
  end.

(** [sort([('priority', DESCENDING), ('created_at', DESCENDING)])]: [a]
    may stand before [b]. *)
Definition montaj_before (a b : Order) : bool :=
  if str_eqb (priority a) (priority b)
  then (created_at b <=? created_at a)%Z
  else str_leb (priority b) (priority a).

Fixpoint insert_montaj (o : Order) (l : list Order) : list Order :=
  match l with
  | [] => [o]
  | x :: l' => if montaj_before o x then o :: l else x :: insert_montaj o l'
  end.

Section Pages.

Context {L : Lib}.

(** [{'$regex': pattern, '$options': 'i'}] on a string field. *)
Variable regex_i : str -> str -> bool.

(** [index], lines 373-379. *)
Definition index (rq : Request) : Page :=
  if negb (logged_in (session rq)) then RedirectTo "login"
  else
    match technician_level (session rq) with
    | Some 3%Z => RedirectTo "montaj_kapama"
    | _ => IndexPage
    end.

(** [login], lines 382-413.  [_normalize_password] of a string is
    [normalize_text] of it. *)
Definition login (rq : Request) : M (Page * SessionWrite) :=
  if logged_in (session rq) then ret (RedirectTo "index", KeepSession)
  else
    match method rq with
    | POST =>
        let username_input := form_text rq (u "username") in
        let password_input := form_text rq (u "password") in
        let username_value := normalize_str username_input in
        let password_value := normalize_str password_input in
        technician <- (if str_empty username_value then ret None
                       else find_technician username_value) ;;
        let failed :=
          ret (LoginPage (Some (u "Kullanıcı adı veya şifre hatalı.")) username_input,
               KeepSession) in
        match technician with
        | Some t =>
            if str_eqb (password t) password_value then
              ret (RedirectTo (if (level t =? 3)%Z then "montaj_kapama" else "index"),
                   SignIn (username t) (tech_name t) (level t))
            else failed
        | None => failed
        end
    | _ => ret (LoginPage None [], KeepSession)
    end.

(** [logout], lines 416-419. *)
Definition logout (rq : Request) : Page * SessionWrite :=
  (RedirectTo "login", ClearSession).


(** The query of lines 714-720: the service matches ['KURULUM'] whatever
    the case, and [montaj_completed] is missing or not [True]. *)
Definition open_installation (o : Order) : bool :=
  regex_i (u "KURULUM") (service o) && negb (montaj_completed o).

(** Whether the driver raises a [PyMongoError] on the query of line 722. *)
Variable query_fails : World -> bool.

(** [orders_collection.find(query).sort(...)] of line 722: the documents,
    or [None] when the driver raises. *)
Definition find_open_installations (w : World) : option (list Order) :=
  if query_fails w then None
  else Some (fold_right insert_montaj [] (filter open_installation (orders w))).

(** [montaj_kapama], lines 710-727. *)
Definition montaj_kapama (rq : Request) : M Page :=
  if negb (logged_in (session rq)) then ret (RedirectTo "login")
  else
    fun w =>
      let listed :=
        match find_open_installations w with
        | Some documents => map format_order documents
        | None => []                          (* lines 724-726 *)
        end in
      (Ok (MontajPage listed), w).

End Pages.

(** ** Text messages *)

(** The settings [SMS_API_URL], [SMS_USER], [SMS_PASS] and [SMS_SENDER]. *)
Record SmsSettings : Type := {
  SMS_API_URL : str;
  SMS_USER : str;
  SMS_PASS : str;
  SMS_SENDER : str
}.

(** The fields of the posted payload that are not constants. *)
Record SmsPayload : Type := {
  sms_content : str;
  sms_number : str;
  sms_sender : str;
  sms_customID : option str
}.

Section Sms.

(** [str.isdigit] of one character. *)
Variable isdigit : char -> bool.

(** Lines 147-153, for the trimmed phone number. *)
Definition formatted_number (phone : str) : str :=
  if starts_with (u "+") phone then phone
  else
    let digits := filter isdigit phone in
    let digits := if starts_with (u "0") digits then tl digits else digits in
    if negb (starts_with (u "9") digits) then u "+90" ++ digits else u "+" ++ digits.

(** [_send_sms], lines 142-183: what is posted, if anything.  The answer of
    the gateway and every exception are only logged. *)
Definition _send_sms (settings : SmsSettings) (phone content custom_id : str)
  : option SmsPayload :=
  let phone := strip phone in
  let content := strip content in
  if str_empty (SMS_USER settings) || str_empty (SMS_PASS settings)
     || str_empty (SMS_SENDER settings) || str_empty phone || str_empty content
     || str_empty (SMS_API_URL settings)
  then None
  else Some {| sms_content := content;
               sms_number := formatted_number phone;
               sms_sender := SMS_SENDER settings;
               sms_customID := if str_empty custom_id then None
                               else Some (firstn 64 custom_id) |}.

End Sms.

(** * The vocabulary of the properties *)

(** The shape the specification gives a job number: two characters, the
    separator, and a non-empty rest; the separator occurs once. *)
Definition job_no_shape (j : str) : Prop :=
  exists p1 p2 rest,
    j = p1 :: p2 :: 45%N :: rest /\ rest <> [] /\ ~ In 45%N (p1 :: p2 :: rest).

(** One of ['0'] to ['9']. *)
Definition is_decimal_digit (c : char) : bool := ((48 <=? c) && (c <=? 57))%N.

(** ['TE-'] followed by exactly four decimal digits. *)
Definition te_four_digits (j : str) : Prop :=
  exists d1 d2 d3 d4,
    j = u "TE-" ++ [d1; d2; d3; d4] /\
    forallb is_decimal_digit [d1; d2; d3; d4] = true.

(** The world after [n] more draws of the generator. *)
Definition advance_rand (n : nat) (w : World) : World := Nat.iter n tick_rand w.

(** The next [k] elements [random.choices] takes from [population]. *)
Definition draws (population : str) (k : nat) (w : World) : str :=
  map (fun i => nth (rand w (rand_pos w + i) mod length population) population 0%N)
      (seq 0 k).

(** The job number the loop of [generate_job_no] tries in its round [i]. *)
Definition candidate (w : World) (i : nat) : str :=
  u "TE-" ++ draws digits 4 (advance_rand (4 * i) w).

(** The string [(v or default)] is, when it is one. *)
Definition text_or (v : json) (default : str) : option str :=
  match py_or v (JStr default) with
  | JStr s => Some s
  | _ => None
  end.

(** [v] is missing, falsy or a string: [(v or '').strip()] does not raise. *)
Definition textual (v : json) : bool :=
  match text_or v [] with Some _ => true | None => false end.

(** [not (v or '').strip()], for a textual [v]. *)
Definition blank (v : json) : bool :=
  match text_or v [] with Some s => str_empty (strip s) | None => false end.

(** [missing_fields] on a dict, as a function of the dict alone. *)
Fixpoint missing_of (m : list (str * json)) (fields : list str) : result (list str) :=
  match fields with
  | [] => Ok []
  | field :: fields' =>
      match text_or (dict_get m field) [] with
      | Some s =>
          match missing_of m fields' with
          | Ok rest => Ok (if str_empty (strip s) then field :: rest else rest)
          | Raise e => Raise e
          end
      | None => Raise AttributeError
      end
  end.

(** [k in data], as a function of the payload alone. *)
Definition contains_of (data : json) (k : str) : result bool :=
  match data with
  | JObj m => Ok (dict_has m k)
  | JArr l => Ok (existsb (fun v => match v with JStr s => str_eqb s k | _ => false end) l)
  | JStr s => Ok (substring_of k s)
  | _ => Raise TypeError
  end.

(** [collect_fields], as a function of the payload alone. *)
Fixpoint collect_of (data : json) (keys : list str) : result (list (str * str)) :=
  match keys with
  | [] => Ok []
  | key :: keys' =>
      match contains_of data key with
      | Raise e => Raise e
      | Ok false => collect_of data keys'
      | Ok true =>
          match data with
          | JObj m =>
              match text_or (dict_get m key) [] with
              | Some s =>
                  match collect_of data keys' with
                  | Ok rest => Ok ((key, strip s) :: rest)
                  | Raise e => Raise e
                  end
              | None => Raise AttributeError
              end
          | _ => Raise AttributeError
          end
      end
  end.

(** The fields an update never writes. *)
Definition same_frame (o o' : Order) : Prop :=
  job_no o' = job_no o /\
  note o' = note o /\
  created_at o' = created_at o /\
  created_at_display o' = created_at_display o /\
  invoice o' = invoice o /\
  photos o' = photos o /\
  montaj_completed o' = montaj_completed o /\
  montaj_completion o' = montaj_completion o.

(** The same request under another session. *)
Definition with_session (s : Session) (rq : Request) : Request :=
  {| session := s; method := method rq; json_body := json_body rq;
     form := form rq; files := files rq |}.

(** The job number an order-scoped endpoint of the login gate looks up. *)
Definition order_scoped (ep : Endpoint) : option str :=
  match ep with
  | upload_invoice_ep j | complete_order_ep j | update_order_ep j
  | delete_order_ep j | download_photos_ep j => Some j
  | _ => None
  end.

(** The fields the dealer's form must fill in. *)
Definition dealer_fields : list string := ["name"; "phone"; "model"; "address"]%string.

Section Vocabulary.

Context {L : Lib}.

(** The value stored under a key is the trimmed, upper-cased string of the
    payload. *)
Definition stored_upper (m : list (str * json)) (k : string) (value : str) : Prop :=
  exists s, dict_get m (u k) = JStr s /\ value = upper (strip s).

(** The value stored under a key is the trimmed string of the payload (the
    empty string for a missing or falsy value). *)
Definition stored_trimmed (m : list (str * json)) (k : string) (value : str) : Prop :=
  exists s, text_or (dict_get m (u k)) [] = Some s /\ value = strip s.

(** [normalize_text(request.form.get('mount_type') or '')] *)
Definition requested_mount_type (rq : Request) : str :=
  normalize_text (py_or (form_get rq (u "mount_type")) (JStr [])).

(** The completion record that line 546 builds. *)
Definition completion_of (rq : Request) (order : Order) (saved : list FileEntry)
    (t : datetime) : Completion :=
  {| mount_type := requested_mount_type rq;
     completion_note :=
       match text_or (form_get rq (u "note")) [] with
       | Some s => strip s
       | None => []
       end;
     photo_count := length (photos order) + length saved;
     completed_at := t |}.

End Vocabulary.

(** A computation keeps a relation between the world it starts in and the
    world it leaves, whatever it returns or raises. *)
Definition keeps {A : Type} (P : World -> World -> Prop) (m : M A) : Prop :=
  forall w r w', m w = (r, w') -> P w w'.

(** The job numbers of the stored orders, and the user names of the stored
    technicians. *)
Definition job_nos (w : World) : list str := map job_no (orders w).

Definition usernames (w : World) : list str := map username (technicians w).

(** Nothing at all happened. *)
Definition unchanged (w w' : World) : Prop := w' = w.

(** The two collections are as they were. *)
Definition same_store (w w' : World) : Prop :=
  orders w' = orders w /\ technicians w' = technicians w.

(** The collections and the two directories are as they were. *)
Definition same_data (w w' : World) : Prop :=
  orders w' = orders w /\ technicians w' = technicians w /\
  invoices_dir w' = invoices_dir w /\ photos_dir w' = photos_dir w.

(** Job numbers that were pairwise distinct still are. *)
Definition unique_job_nos_kept (w w' : World) : Prop :=
  NoDup (job_nos w) -> NoDup (job_nos w').

(** User names that were pairwise distinct still are, and an administrator
    that existed still does. *)
Definition technicians_kept (w w' : World) : Prop :=
  (NoDup (usernames w) -> NoDup (usernames w')) /\
  (has_admin_user w = true -> has_admin_user w' = true).

(** The invariants of the store: distinct job numbers, distinct user names
    and an existing administrator are kept. *)
Definition invariants_kept (w w' : World) : Prop :=
  unique_job_nos_kept w w' /\ technicians_kept w w'.

(** The endpoints that only read: the order list, the photo archive, and
    the invoice form when it is not posted. *)
Definition reads_only (ep : Endpoint) (rq : Request) : bool :=
  match ep with
  | list_orders_ep | download_photos_ep _ => true
  | upload_invoice_form_ep _ => match method rq with POST => false | _ => true end
  | _ => false
  end.

(** A photo entry that names a stored file. *)
Definition has_stored_name (photo : FileEntry) : bool :=
  negb (str_empty (stored_name photo)).

Section ArchiveVocabulary.

Context {L : Lib}.

(** The name a photo gets in the archive, lines 747-751. *)
Definition member_name (photo : FileEntry) : str :=
  let original := if str_empty (original_name photo) then stored_name photo
                  else original_name photo in
  if str_empty (secure_filename original) then stored_name photo
  else secure_filename original.

(** The members of the archive of an order in a world: one for each photo
    that names a stored file which is in the photos directory. *)
Definition archive_members (order : Order) (w : World) : list str :=
  map member_name
    (filter (fun photo => dir_has (stored_name photo) (photos_dir w))
       (filter has_stored_name (photos order))).

End ArchiveVocabulary.

Section InvoiceVocabulary.

Context {L : Lib}.

(** The invoice record [_store_invoice] writes for a file, in the world it
    starts in: the clock is read once for the name and once for the upload
    time. *)
Definition invoice_entry (j : str) (f : FileStorage) (w : World) : FileEntry :=
  {| original_name := secure_filename (filename f);
     stored_name := j ++ u "-" ++ strftime_stamp (clock w (clock_pos w)) ++ u "-"
                      ++ secure_filename (filename f);
     uploaded_at := clock w (S (clock_pos w)) |}.

End InvoiceVocabulary.

From Stdlib Require Import Permutation Sorted.

(** The orders from the newest to the oldest. *)
Definition newest_first (l : list Order) : Prop :=
  StronglySorted (fun a b => (created_at b <= created_at a)%Z) l.

(** Only the photos directory may differ. *)
Definition photos_only (w w' : World) : Prop :=
  orders w' = orders w /\ technicians w' = technicians w /\
  invoices_dir w' = invoices_dir w.

(** [n] is the stored name of one of the entries. *)
Definition names_file (n : str) (l : list FileEntry) : bool :=
  existsb (fun e => str_eqb n (stored_name e)) l.

(** The fields of an order a completion never writes. *)
Definition same_order_data (o o' : Order) : Prop :=
  job_no o' = job_no o /\ priority o' = priority o /\ name o' = name o /\
  model o' = model o /\ phone o' = phone o /\ service o' = service o /\
  rnu o' = rnu o /\ address o' = address o /\ note o' = note o /\
  created_at o' = created_at o /\
  created_at_display o' = created_at_display o /\
  invoice o' = invoice o.

(** The stored value of the text field [k] of an order. *)
Definition order_field (k : str) (o : Order) : str :=
  if str_eqb k (u "name") then name o
  else if str_eqb k (u "model") then model o
  else if str_eqb k (u "phone") then phone o
  else if str_eqb k (u "service") then service o
  else if str_eqb k (u "rnu") then rnu o
  else if str_eqb k (u "address") then address o
  else [].

(** The rank of a priority of the allow-list. *)
Definition priority_rank (p : str) : option nat :=
  if str_eqb p (u "YÜKSEK") then Some 3
  else if str_eqb p (u "ORTA") then Some 2
  else if str_eqb p (u "DÜŞÜK") then Some 1
  else None.

(** [a] may be listed before [b]: when both carry a priority of the
    allow-list [a] is at least as urgent, and of two equally urgent orders
    [a] is not the older one. *)
Definition urgent_first (a b : Order) : Prop :=
  forall ra rb,
    priority_rank (priority a) = Some ra ->
    priority_rank (priority b) = Some rb ->
    rb <= ra /\ (rb = ra -> (created_at b <= created_at a)%Z).

(** ** A library instance and a world to run the handlers on

    The instance agrees with Python on the Basic Latin, Latin-1 and Latin
    Extended-A blocks (which hold the Turkish alphabet), on ASCII file
    names and on plain ASCII decimal numerals; it serves to evaluate the
    model on concrete requests. *)
Module Sample.

Definition latin_upper_char (c : char) : str :=
  (if c <? 128 then [if (97 <=? c) && (c <=? 122) then c - 32 else c]
   else if c =? 181 then [924]
   else if c =? 223 then [83; 83]
   else if (224 <=? c) && (c <=? 254) && negb (c =? 247) then [c - 32]
   else if c =? 255 then [376]
   else if c =? 305 then [73]
   else if c =? 329 then [700; 78]
   else if c =? 383 then [83]
   else if ((256 <=? c) && (c <=? 311) || (330 <=? c) && (c <=? 375)) && N.odd c
        then [c - 1]
   else if ((313 <=? c) && (c <=? 328) || (377 <=? c) && (c <=? 382)) && N.even c
        then [c - 1]
   else [c])%N.

Lemma latin_upper_char_nonempty (c : char) : latin_upper_char c <> [].
Proof.
  unfold latin_upper_char.
  repeat match goal with |- context [if ?b then _ else _] => destruct b end;
    discriminate.
Qed.

Lemma latin_upper_char_ascii (c : char) :
  (c < 128)%N ->
  latin_upper_char c = [if ((97 <=? c) && (c <=? 122))%N then (c - 32)%N else c].
Proof.
  intros H. unfold latin_upper_char.
  apply N.ltb_lt in H. now rewrite H.
Qed.

Definition filename_char (c : char) : bool :=
  ((48 <=? c) && (c <=? 57) || (65 <=? c) && (c <=? 90) || (97 <=? c) && (c <=? 122)
   || (c =? 95) || (c =? 46) || (c =? 45))%N.

Definition dot_or_underscore (c : char) : bool := ((c =? 46) || (c =? 95))%N.

Fixpoint drop_while (p : char -> bool) (s : str) : str :=
  match s with
  | [] => []
  | c :: t => if p c then drop_while p t else s
  end.

(** Words of an ASCII string, for [split()]. *)
Fixpoint split_words (s : str) (word : str) : list str :=
  match s with
  | [] => match word with [] => [] | _ => [rev word] end
  | c :: t =>
      if isspace c || (c =? 47)%N
      then match word with [] => split_words t [] | _ => rev word :: split_words t [] end
      else split_words t (c :: word)
  end.

Definition ascii_secure_filename (s : str) : str :=
  let ascii := filter (fun c => (c <? 128)%N) s in
  let joined := join (u "_") (split_words ascii []) in
  let kept := filter filename_char joined in
  rev (drop_while dot_or_underscore (rev (drop_while dot_or_underscore kept))).

Fixpoint digits_of (fuel : nat) (n : N) (acc : str) : str :=
  match fuel with
  | O => acc
  | S fuel' =>
      let acc' := (48 + n mod 10)%N :: acc in
      if (n <? 10)%N then acc' else digits_of fuel' (n / 10)%N acc'
  end.

Definition decimal (z : Z) : str :=
  let n := Z.to_N (Z.abs z) in
  (if (z <? 0)%Z then u "-" else []) ++ digits_of (S (N.to_nat (N.log2 n))) n [].

Fixpoint repr_json (v : json) : str :=
  match v with
  | JNull => u "None"
  | JBool true => u "True"
  | JBool false => u "False"
  | JInt z => decimal z
  | JStr s => u "'" ++ s ++ u "'"
  | JArr l => u "[" ++ join (u ", ") (map repr_json l) ++ u "]"
  | JObj m =>
      u "{" ++ join (u ", ")
                 (map (fun kv => u "'" ++ fst kv ++ u "': " ++ repr_json (snd kv)) m)
        ++ u "}"
  end.

Definition pad (width : nat) (n : Z) : str :=
  let d := decimal n in
  repeat 48%N (width - length d) ++ d.

(** Year, month and day of a count of days since 1970-01-01. *)
Definition civil (days : Z) : Z * Z * Z :=
  (let z := days + 719468 in
   let era := z / 146097 in
   let doe := z - era * 146097 in
   let yoe := (doe - doe / 1460 + doe / 36524 - doe / 146096) / 365 in
   let doy := doe - (365 * yoe + yoe / 4 - yoe / 100) in
   let mp := (5 * doy + 2) / 153 in
   let d := doy - (153 * mp + 2) / 5 + 1 in
   let m := if mp <? 10 then mp + 3 else mp - 9 in
   let y := yoe + era * 400 + (if m <=? 2 then 1 else 0) in
   (y, m, d))%Z.

Definition stamp (t : datetime) : str :=
  let '(y, m, d) := civil (t / 86400)%Z in
  let s := (t mod 86400)%Z in
  pad 4 y ++ pad 2 m ++ pad 2 d
    ++ pad 2 (s / 3600)%Z ++ pad 2 (s mod 3600 / 60)%Z ++ pad 2 (s mod 60)%Z.

(** Istanbul has been at UTC+3 all year since 2016. *)
Definition display (t : datetime) : str :=
  let local := (t + 3 * 3600)%Z in
  let '(y, m, d) := civil (local / 86400)%Z in
  let s := (local mod 86400)%Z in
  pad 2 d ++ u "." ++ pad 2 m ++ u "." ++ pad 4 y ++ u " "
    ++ pad 2 (s / 3600)%Z ++ u ":" ++ pad 2 (s mod 3600 / 60)%Z.

Definition iso (t : datetime) : str :=
  let '(y, m, d) := civil (t / 86400)%Z in
  let s := (t mod 86400)%Z in
  pad 4 y ++ u "-" ++ pad 2 m ++ u "-" ++ pad 2 d ++ u "T"
    ++ pad 2 (s / 3600)%Z ++ u ":" ++ pad 2 (s mod 3600 / 60)%Z ++ u ":"
    ++ pad 2 (s mod 60)%Z.

Definition is_digit (c : char) : bool := ((48 <=? c) && (c <=? 57))%N.

Definition parse_int (s : str) : option Z :=
  let t := strip s in
  let '(negative, ds) :=
    match t with
    | 45%N :: r => (true, r)
    | 43%N :: r => (false, r)
    | _ => (false, t)
    end in
  if is_empty ds || negb (forallb is_digit ds) then None
  else
    let n := fold_left (fun acc c => (acc * 10 + Z.of_N (c - 48))%Z) ds 0%Z in
    Some (if negative then (- n)%Z else n).

Definition lib : Lib :=
  {| upper_char := latin_upper_char;
     upper_char_nonempty := latin_upper_char_nonempty;
     upper_char_ascii := latin_upper_char_ascii;
     secure_filename := ascii_secure_filename;
     repr := repr_json;
     strftime_stamp := stamp;
     strftime_display := display;
     isoformat := iso;
     isoformat_utc := fun t => iso t ++ u "+00:00";
     py_int := parse_int |}.

(** A store with one administrator and no order; the generator counts up,
    the clock starts on 2023-11-14 22:13:20 UTC and advances one second a
    call, and the disk never fails. *)
Definition admin : Technician :=
  {| tech_name := u "ADMIN"; username := u "ADMIN"; password := u "SECRET";
     level := 1%Z; tech_created_at := 1690000000%Z |}.

Definition empty_world : World :=
  {| orders := []; technicians := [admin];
     invoices_dir := []; photos_dir := [];
     rand := fun i => i; rand_pos := 0;
     clock := fun i => (Z.of_nat i + 1700000000)%Z; clock_pos := 0;
     disk := fun _ => None; disk_pos := 0 |}.

Definition anonymous : Session := {| logged_in := false; technician_level := None |}.
Definition technician : Session := {| logged_in := true; technician_level := Some 1%Z |}.

Definition json_request (s : Session) (m : Method) (data : json) : Request :=
  {| session := s; method := m; json_body := data; form := []; files := [] |}.

Definition form_request (s : Session) (m : Method)
    (fields : list (str * str)) (uploads : list (str * FileStorage)) : Request :=
  {| session := s; method := m; json_body := JNull; form := fields; files := uploads |}.

(** An open order and a completed one. *)
Definition open_order : Order :=
  {| job_no := u "TE-0123"; priority := u "YÜKSEK"; name := u "AYŞE YILMAZ";
     model := u "LG 55"; phone := u "05321234567"; service := u "TV KURULUM";
     rnu := []; address := u "ANKARA"; note := u "Kapıda ara";
     created_at := 1699990000%Z; created_at_display := u "14.11.2023 22:26";
     invoice := None; photos := [];
     montaj_completed := false; montaj_completion := None |}.

Definition old_photo : FileEntry :=
  {| original_name := u "on.jpg";
     stored_name := u "TE-0123-20231114230000-ABCD-on.jpg";
     uploaded_at := 1699995600%Z |}.

Definition completed_order : Order :=
  {| job_no := u "TE-0123"; priority := u "YÜKSEK"; name := u "AYŞE YILMAZ";
     model := u "LG 55"; phone := u "05321234567"; service := u "TV KURULUM";
     rnu := []; address := u "ANKARA"; note := u "Kapıda ara";
     created_at := 1699990000%Z; created_at_display := u "14.11.2023 22:26";
     invoice := None; photos := [old_photo];
     montaj_completed := true;
     montaj_completion := Some {| mount_type := u "DUVAR"; completion_note := [];
                                  photo_count := 1; completed_at := 1699995601%Z |} |}.

Definition with_store (l : list Order) (files : list str) : World :=
  {| orders := l; technicians := [admin];
     invoices_dir := []; photos_dir := files;
     rand := fun i => i; rand_pos := 0;
     clock := fun i => (Z.of_nat i + 1700000000)%Z; clock_pos := 0;
     disk := fun _ => None; disk_pos := 0 |}.

Definition open_world : World := with_store [open_order] [].
Definition completed_world : World := with_store [completed_order] [stored_name old_photo].

Definition text_fields_of (fields : list (string * string)) : list (str * json) :=
  map (fun kv => (u (fst kv), JStr (u (snd kv)))) fields.

Definition form_fields_of (fields : list (string * string)) : list (str * str) :=
  map (fun kv => (u (fst kv), u (snd kv))) fields.

Definition upload (field name : string) : str * FileStorage :=
  (u field, {| filename := u name |}).

(** What a run answered, and the status of the answer. *)
Definition status_of (run : result Response * World) : option nat :=
  match fst run with Ok r => Some (status r) | Raise _ => None end.

Definition message_of (run : result Response * World) : option str :=
  match fst run with
  | Ok {| body := Message msg |} => Some msg
  | _ => None
  end.

End Sample.

Module SampleCreation.
Import Sample.

(** A technician's payload, in lower case and with spaces around the
    name. *)
Definition payload : json :=
  JObj (text_fields_of
          [("priority", "orta"); ("name", " ali veli "); ("model", "lg 55");
           ("phone", "0532 111 22 33"); ("service", "tv kurulum");
           ("address", "izmir"); ("note", "kapida ara")]%string).

Definition request : Request := json_request technician POST payload.

End SampleCreation.

Module SampleDealer.
Import Sample.

(** The dealer's form, sent without a session and without a service. *)
Definition request : Request :=
  form_request anonymous POST
    (form_fields_of [("name", "ali veli"); ("phone", "0532 111 22 33");
                     ("model", "lg 55"); ("address", "izmir")]%string)
    [upload "invoice" "fatura.pdf"].

End SampleDealer.

Module SampleCompletion.
Import Sample.

(** Two photos and no mount type, for an order that is completed
    already. *)
Definition request : Request :=
  form_request technician POST
    (form_fields_of [("note", " tamamlandi ")]%string)
    [upload "photos" "a.jpg"; upload "photos" "b.jpg"].

(** A batch whose second file has no usable name. *)
Definition bad_batch : Request :=
  form_request technician POST []
    [upload "photos" "a.jpg"; upload "photos" "???"].

(** A form without any named file. *)
Definition no_photo : Request :=
  form_request technician POST [] [upload "photos" ""].

End SampleCompletion.

Module SampleUpdate.
Import Sample.

(** A new name and a priority outside the allow-list. *)
Definition request : Request :=
  json_request technician PUT
    (JObj (text_fields_of [("name", " ali veli "); ("priority", "acil")]%string)).

(** A new name only. *)
Definition name_only : Request :=
  json_request technician PUT (JObj (text_fields_of [("name", " ali veli ")]%string)).

(** A creation payload with an empty priority. *)
Definition empty_priority : Request :=
  json_request technician POST
    (JObj (text_fields_of
             [("priority", ""); ("name", "ali veli"); ("model", "lg 55");
              ("phone", "0532 111 22 33"); ("service", "tv kurulum");
              ("address", "izmir")]%string)).

End SampleUpdate.

Module SampleErrors.
Import Sample.

(** A deletion of an order that does not exist. *)
Definition unknown_order : Request := json_request technician DELETE JNull.

(** The dealer's form without a name. *)
Definition nameless : Request :=
  form_request anonymous POST
    (form_fields_of [("phone", "0532 111 22 33"); ("model", "lg 55");
                     ("address", "izmir"); ("service", "tv kurulum")]%string)
    [upload "invoice" "fatura.pdf"].

(** The dealer's form without a service, sent by a logged-in user. *)
Definition no_service : Request := with_session technician SampleDealer.request.

(** A creation payload whose priority is the number 1 and whose name is
    missing. *)
Definition numeric_priority : Request :=
  json_request technician POST
    (JObj ((u "priority", JInt 1)
           :: text_fields_of [("model", "lg 55"); ("phone", "0532 111 22 33");
                              ("service", "tv kurulum"); ("address", "izmir")]%string)).

(** An update whose name is the number 7. *)
Definition numeric_name : Request :=
  json_request technician PUT (JObj [(u "name", JInt 7)]).

End SampleErrors.

Module SampleTechnician.
Import Sample.

(** A new installer. *)
Definition request : Request :=
  json_request technician POST
    (JObj (text_fields_of [("name", "veli usta"); ("username", "veli");
                           ("password", "1234"); ("level", "3")]%string)).

(** The administrator's user name once more. *)
Definition duplicate : Request :=
  json_request technician POST
    (JObj (text_fields_of [("name", "baska"); ("username", " admin ");
                           ("password", "1234"); ("level", "4")]%string)).

(** A request for the administrator's level. *)
Definition level_one : Request :=
  json_request technician POST
    (JObj (text_fields_of [("name", "veli usta"); ("username", "veli");
                           ("password", "1234"); ("level", "1")]%string)).

End SampleTechnician.

Module SampleInvoice.
Import Sample.

(** An invoice for an order. *)
Definition request : Request :=
  form_request technician POST [] [upload "invoice" "fatura 1.pdf"].

(** An invoice whose name has no usable character. *)
Definition bad_name : Request :=
  form_request technician POST [] [upload "invoice" "???"].

End SampleInvoice.

Module SampleDealerInvoice.
Import Sample.

(** The dealer's form with an invoice whose name has no usable
    character. *)
Definition bad_invoice : Request :=
  form_request anonymous POST
    (form_fields_of [("name", "ali veli"); ("phone", "0532 111 22 33");
                     ("model", "lg 55"); ("address", "izmir");
                     ("priority", "yüksek")]%string)
    [upload "invoice" "???"].

(** The dealer's form asking for a high priority. *)
Definition urgent : Request :=
  form_request anonymous POST
    (form_fields_of [("name", "ali veli"); ("phone", "0532 111 22 33");
                     ("model", "lg 55"); ("address", "izmir");
                     ("priority", "yüksek")]%string)
    [upload "invoice" "fatura.pdf"].

End SampleDealerInvoice.

Module SampleListing.
Import Sample.

(** An order created after [open_order]. *)
Definition newer_order : Order :=
  {| job_no := u "TE-0456"; priority := u "ORTA"; name := u "ALI KAYA";
     model := u "SAMSUNG 65"; phone := u "05330000000"; service := u "MONTAJ";
     rnu := []; address := u "IZMIR"; note := [];
     created_at := 1699999000%Z; created_at_display := u "15.11.2023 00:56";
     invoice := None; photos := [];
     montaj_completed := false; montaj_completion := None |}.

Definition world : World := with_store [open_order; newer_order] [].

End SampleListing.

Module SampleNote.
Import Sample.

(** A payload with a key that is not updatable. *)
Definition note_only : Request :=
  json_request technician PUT (JObj (text_fields_of [("note", "yeni not")]%string)).

End SampleNote.

Module SampleLogin.
Import Sample.

(** A level-3 installer beside the administrator. *)
Definition installer : Technician :=
  {| tech_name := u "VELI USTA"; username := u "VELI"; password := u "GIZLI";
     level := 3%Z; tech_created_at := 1695000000%Z |}.

Definition world : World :=
  with_technicians (fun l => l ++ [installer]) open_world.

(** The installer's credentials, in lower case and with blanks around. *)
Definition request : Request :=
  form_request anonymous POST
    (form_fields_of [("username", " veli "); ("password", "gizli ")]%string) [].



End SampleLogin.

Module SampleClosing.
Import Sample.

(** Matching without regard to the case of the ASCII letters. *)
Definition ascii_upper (s : str) : str :=
  map (fun c => if ((97 <=? c) && (c <=? 122))%N then (c - 32)%N else c) s.

Definition regex_i (pattern s : str) : bool :=
  substring_of (ascii_upper pattern) (ascii_upper s).

(** A less urgent and newer installation beside [open_order]. *)
Definition later_order : Order :=
  {| job_no := u "TE-0456"; priority := u "ORTA"; name := u "ALI KAYA";
     model := u "SAMSUNG 65"; phone := u "05330000000"; service := u "TV KURULUM";
     rnu := []; address := u "IZMIR"; note := [];
     created_at := 1699999000%Z; created_at_display := u "15.11.2023 00:56";
     invoice := None; photos := [];
     montaj_completed := false; montaj_completion := None |}.

Definition world : World := with_store [later_order; open_order] [].

End SampleClosing.

(** * Properties *)

(** ** Strings *)

Lemma str_eqb_eq (a b : str) : str_eqb a b = true <-> a = b.
Proof.
  revert b; induction a as [|x a IH]; intros [|y b]; simpl; split;
    try congruence; try reflexivity.
  - intros H. apply andb_true_iff in H as [Hx Hab].
    apply N.eqb_eq in Hx. apply IH in Hab. congruence.
  - intros H. injection H as -> ->. apply andb_true_iff. split.
    + apply N.eqb_refl.
    + now apply IH.
Qed.

Lemma str_eqb_refl (a : str) : str_eqb a a = true.
Proof. now apply str_eqb_eq. Qed.

Lemma str_eqb_neq (a b : str) : str_eqb a b = false <-> a <> b.
Proof.
  split.
  - intros H E. apply str_eqb_eq in E. congruence.
  - intros H. destruct (str_eqb a b) eqn:E; [|reflexivity].
    apply str_eqb_eq in E. contradiction.
Qed.

Lemma lstrip_length (s : str) : (length (lstrip s) <= length s)%nat.
Proof.
  induction s as [|c t IH]; simpl; [lia|].
  destruct (isspace c); simpl; lia.
Qed.

Lemma lstrip_fixed (s : str) :
  lstrip s = s <-> match s with [] => True | c :: _ => isspace c = false end.
Proof.
  destruct s as [|c t]; simpl; [tauto|].
  destruct (isspace c) eqn:E; split; try congruence; try reflexivity.
  intros H. pose proof (lstrip_length t) as Hl. rewrite H in Hl. simpl in Hl. lia.
Qed.

Lemma rstrip_length (s : str) : (length (rstrip s) <= length s)%nat.
Proof.
  unfold rstrip. rewrite length_rev.
  pose proof (lstrip_length (rev s)) as H. now rewrite length_rev in H.
Qed.

Lemma rstrip_fixed (s : str) : rstrip s = s <-> lstrip (rev s) = rev s.
Proof.
  unfold rstrip. split; intros H.
  - rewrite <- H at 2. now rewrite rev_involutive.
  - rewrite H. apply rev_involutive.
Qed.

(** A string that [strip] leaves alone is left alone by both halves. *)
Lemma strip_fixed (s : str) : strip s = s -> lstrip s = s /\ rstrip s = s.
Proof.
  unfold strip. intros H.
  assert (Hl : lstrip s = s).
  { destruct s as [|c t]; [reflexivity|]. simpl in *.
    destruct (isspace c); [|reflexivity].
    pose proof (rstrip_length (lstrip t)) as H1.
    pose proof (lstrip_length t) as H2.
    rewrite H in H1. simpl in H1. lia. }
  split; [exact Hl|]. now rewrite Hl in H.
Qed.

Lemma strip_of_fixed (s : str) : lstrip s = s -> rstrip s = s -> strip s = s.
Proof. unfold strip. intros -> ->. reflexivity. Qed.

Lemma lstrip_idempotent (s : str) : lstrip (lstrip s) = lstrip s.
Proof.
  induction s as [|c t IH]; simpl; [reflexivity|].
  destruct (isspace c) eqn:E; [exact IH|]. simpl. now rewrite E.
Qed.

(** Dropping leading white space does not bring white space to the end. *)
Lemma lstrip_app_keep (a b : str) :
  lstrip b = b -> b <> [] -> lstrip (b ++ a) = b ++ a.
Proof.
  destruct b as [|c t]; [congruence|]. simpl.
  destruct (isspace c) eqn:E; [|reflexivity].
  intros H _. pose proof (lstrip_length t) as Hl. rewrite H in Hl. simpl in Hl. lia.
Qed.

Lemma lstrip_suffix (s : str) : exists p, s = p ++ lstrip s /\ forallb isspace p = true.
Proof.
  induction s as [|c t (p & Hp & Hs)]; simpl.
  - exists []. split; reflexivity.
  - destruct (isspace c) eqn:E.
    + exists (c :: p). simpl. rewrite E, Hs. split; [congruence|reflexivity].
    + exists []. split; reflexivity.
Qed.

Lemma strip_idempotent (s : str) : strip (strip s) = strip s.
Proof.
  unfold strip, rstrip.
  set (t := lstrip s).
  destruct (lstrip_suffix (rev t)) as (p & Hp & Hsp).
  set (r := lstrip (rev t)) in *.
  assert (Ht : t = rev r ++ rev p).
  { rewrite <- (rev_involutive t), Hp, rev_app_distr. reflexivity. }
  assert (Hr : lstrip (rev r) = rev r).
  { destruct (rev r) as [|c q] eqn:Eq; [reflexivity|].
    assert (Hc : lstrip t = t) by apply lstrip_idempotent.
    rewrite Ht in Hc. simpl in Hc. simpl.
    destruct (isspace c); [|reflexivity].
    pose proof (lstrip_length (q ++ rev p)) as Hl. rewrite Hc in Hl. simpl in Hl. lia. }
  rewrite Hr, rev_involutive.
  unfold r. now rewrite lstrip_idempotent.
Qed.

Section UpperFacts.

Context {L : Lib}.

Lemma upper_length (s : str) : (length s <= length (upper s))%nat.
Proof.
  induction s as [|c t IH]; simpl; [lia|].
  rewrite length_app.
  pose proof (upper_char_nonempty c) as Hc.
  destruct (upper_char c); [congruence|]. simpl. lia.
Qed.

(** [upper] leaves a string alone only when it leaves each of its
    characters alone. *)
Lemma upper_fixed_chars (s : str) :
  upper s = s -> Forall (fun c => upper_char c = [c]) s.
Proof.
  induction s as [|c t IH]; intros H; constructor.
  - simpl in H. pose proof (upper_char_nonempty c) as Hc.
    destruct (upper_char c) as [|x r]; [congruence|].
    simpl in H. injection H as -> Hr.
    pose proof (upper_length t) as Hl.
    assert (Hlen : (length (r ++ upper t) = length t)%nat) by now rewrite Hr.
    rewrite length_app in Hlen.
    destruct r; [reflexivity|]. simpl in Hlen. lia.
  - apply IH. simpl in H. pose proof (upper_char_nonempty c) as Hc.
    destruct (upper_char c) as [|x r]; [congruence|].
    simpl in H. injection H as -> Hr.
    pose proof (upper_length t) as Hl.
    assert (Hlen : (length (r ++ upper t) = length t)%nat) by now rewrite Hr.
    rewrite length_app in Hlen.
    destruct r; [exact Hr|]. simpl in Hlen. lia.
Qed.

Lemma upper_of_fixed (s : str) :
  Forall (fun c => upper_char c = [c]) s -> upper s = s.
Proof.
  induction 1 as [|c t Hc _ IH]; simpl; [reflexivity|].
  rewrite Hc, IH. reflexivity.
Qed.

Lemma normalize_str_eq (s : str) : normalize_str s = upper (strip s).
Proof. reflexivity. Qed.

(** A character below 128 that is no lower-case letter is its own upper
    case. *)
Lemma upper_char_ascii_fixed (c : char) :
  (c < 97)%N -> upper_char c = [c].
Proof.
  intros H. rewrite upper_char_ascii by lia.
  replace (97 <=? c)%N with false by (symmetry; apply N.leb_gt; lia).
  reflexivity.
Qed.

End UpperFacts.

Lemma remove_all_absent (c : char) (s : str) : ~ In c s -> remove_all c s = s.
Proof.
  induction s as [|x t IH]; simpl; [reflexivity|].
  intros H. destruct (char_eqb x c) eqn:E; simpl.
  - apply N.eqb_eq in E. exfalso. apply H. now left.
  - f_equal. apply IH. intros Hin. apply H. now right.
Qed.

Lemma isspace_printable_ascii (c : char) : (33 <= c <= 126)%N -> isspace c = false.
Proof.
  intros H. unfold isspace.
  rewrite (proj2 (N.leb_gt c 13)), (proj2 (N.leb_gt c 32)),
    (proj2 (N.leb_gt 8192 c)) by lia.
  rewrite !(proj2 (N.eqb_neq c _)) by lia.
  rewrite !andb_false_r. reflexivity.
Qed.

(** ** C1: the token round trip *)

Section TokenRoundTrip.

Context {L : Lib}.

Lemma job_no_to_token_eq (j : str) :
  job_no_to_token j = remove_all 45%N (upper (strip j)).
Proof.
  unfold job_no_to_token, py_or. simpl.
  destruct j; reflexivity.
Qed.

(** The token of a normalised job number of the stated shape is the job
    number without its separator. *)
Lemma token_of_job_no (p1 p2 : char) (rest : str) :
  ~ In 45%N (p1 :: p2 :: rest) ->
  upper (p1 :: p2 :: 45%N :: rest) = p1 :: p2 :: 45%N :: rest ->
  strip (p1 :: p2 :: 45%N :: rest) = p1 :: p2 :: 45%N :: rest ->
  job_no_to_token (p1 :: p2 :: 45%N :: rest) = p1 :: p2 :: rest.
Proof.
  intros Hdash Hup Hstrip.
  rewrite job_no_to_token_eq, Hstrip, Hup.
  change (p1 :: p2 :: 45%N :: rest) with ([p1; p2] ++ 45%N :: rest).
  unfold remove_all. rewrite filter_app. simpl.
  destruct (char_eqb p1 45%N) eqn:E1.
  { apply N.eqb_eq in E1. exfalso. apply Hdash. now left. }
  destruct (char_eqb p2 45%N) eqn:E2.
  { apply N.eqb_eq in E2. exfalso. apply Hdash. right. now left. }
  simpl. do 2 f_equal.
  apply remove_all_absent. intros Hin. apply Hdash. now do 2 right.
Qed.

(** Removing the separator keeps a string upper-case and trimmed. *)
Lemma token_normalized (p1 p2 : char) (rest : str) :
  rest <> [] ->
  upper (p1 :: p2 :: 45%N :: rest) = p1 :: p2 :: 45%N :: rest ->
  strip (p1 :: p2 :: 45%N :: rest) = p1 :: p2 :: 45%N :: rest ->
  upper (p1 :: p2 :: rest) = p1 :: p2 :: rest /\
  strip (p1 :: p2 :: rest) = p1 :: p2 :: rest.
Proof.
  intros Hrest Hup Hstrip. split.
  - apply upper_fixed_chars in Hup. apply upper_of_fixed.
    inversion Hup as [|? ? H1 Hup1]; subst.
    inversion Hup1 as [|? ? H2 Hup2]; subst.
    inversion Hup2 as [|? ? _ Hup3]; subst.
    repeat constructor; assumption.
  - apply strip_fixed in Hstrip as [Hl Hr].
    apply strip_of_fixed.
    + apply lstrip_fixed. apply lstrip_fixed in Hl. exact Hl.
    + apply rstrip_fixed. apply rstrip_fixed in Hr.
      change (p1 :: p2 :: 45%N :: rest) with ([p1; p2; 45%N] ++ rest) in Hr.
      change (p1 :: p2 :: rest) with ([p1; p2] ++ rest).
      rewrite rev_app_distr in *.
      apply lstrip_app_keep.
      * apply lstrip_fixed. apply lstrip_fixed in Hr.
        destruct (rev rest) as [|c q] eqn:Eq; [exact I|exact Hr].
      * intros Hnil. apply Hrest.
        rewrite <- (rev_involutive rest), Hnil. reflexivity.
Qed.

(** [token_to_job_no] on a normalised token of three characters or more. *)
Lemma job_no_of_token (p1 p2 : char) (rest : str) :
  rest <> [] ->
  upper (p1 :: p2 :: rest) = p1 :: p2 :: rest ->
  strip (p1 :: p2 :: rest) = p1 :: p2 :: rest ->
  token_to_job_no (p1 :: p2 :: rest) = Some (p1 :: p2 :: 45%N :: rest).
Proof.
  intros Hrest Hup Hstrip.
  unfold token_to_job_no. simpl str_empty. cbv iota.
  change (normalize_text (JStr (p1 :: p2 :: rest))) with (upper (strip (p1 :: p2 :: rest))).
  rewrite Hstrip, Hup.
  destruct rest as [|r rest']; [congruence|].
  reflexivity.
Qed.

(** C1, as the code has it: a job number that is already upper-case and
    trimmed, made of two characters, one ['-'] and a non-empty rest with no
    further ['-'], is recovered from its token. *)
Theorem token_round_trip (p1 p2 : char) (rest : str) :
  rest <> [] ->
  ~ In 45%N (p1 :: p2 :: rest) ->
  upper (p1 :: p2 :: 45%N :: rest) = p1 :: p2 :: 45%N :: rest ->
  strip (p1 :: p2 :: 45%N :: rest) = p1 :: p2 :: 45%N :: rest ->
  token_to_job_no (job_no_to_token (p1 :: p2 :: 45%N :: rest))
    = Some (p1 :: p2 :: 45%N :: rest).
Proof.
  intros Hrest Hdash Hup Hstrip.
  rewrite (token_of_job_no Hdash Hup Hstrip).
  destruct (token_normalized Hrest Hup Hstrip) as [Hup' Hstrip'].
  now apply job_no_of_token.
Qed.

(** Every number [generate_job_no] can produce is of that kind. *)
Lemma generated_job_no_round_trip (d1 d2 d3 d4 : char) :
  (48 <= d1 <= 57)%N -> (48 <= d2 <= 57)%N ->
  (48 <= d3 <= 57)%N -> (48 <= d4 <= 57)%N ->
  token_to_job_no (job_no_to_token (u "TE-" ++ [d1; d2; d3; d4]))
    = Some (u "TE-" ++ [d1; d2; d3; d4]).
Proof.
  intros H1 H2 H3 H4.
  change (u "TE-" ++ [d1; d2; d3; d4]) with (84 :: 69 :: 45 :: [d1; d2; d3; d4])%N.
  assert (Hrest : [d1; d2; d3; d4] <> []) by discriminate.
  assert (Hdash : ~ In 45%N (84 :: 69 :: [d1; d2; d3; d4])%N).
  { simpl. intros [H|[H|[H|[H|[H|[H|[]]]]]]]; lia. }
  assert (Hup : upper (84 :: 69 :: 45 :: [d1; d2; d3; d4])%N
                = (84 :: 69 :: 45 :: [d1; d2; d3; d4])%N).
  { unfold upper. simpl. rewrite !upper_char_ascii_fixed by lia. reflexivity. }
  assert (Hstrip : strip (84 :: 69 :: 45 :: [d1; d2; d3; d4])%N
                   = (84 :: 69 :: 45 :: [d1; d2; d3; d4])%N).
  { apply strip_of_fixed; [reflexivity|].
    apply rstrip_fixed. simpl.
    now rewrite (@isspace_printable_ascii d4) by lia. }
  pose proof (token_of_job_no Hdash Hup Hstrip) as Htoken.
  destruct (token_normalized Hrest Hup Hstrip) as [Hup' Hstrip'].
  pose proof (job_no_of_token Hrest Hup' Hstrip') as Hback.
  exact (eq_trans (f_equal token_to_job_no Htoken) Hback).
Qed.

End TokenRoundTrip.

(** The round trip at ['TE-1234']. *)
Lemma token_round_trip_witness :
  let j := (84 :: 69 :: 45 :: u "1234")%N in
  u "1234" <> [] /\
  ~ In 45%N (84 :: 69 :: u "1234")%N /\
  @upper Sample.lib j = j /\
  strip j = j /\
  @token_to_job_no Sample.lib (@job_no_to_token Sample.lib j) = Some j.
Proof.
  intros j.
  assert (H1 : u "1234" <> []) by (vm_compute; discriminate).
  assert (H2 : ~ In 45%N (84 :: 69 :: u "1234")%N).
  { vm_compute. intros [H|[H|[H|[H|[H|[H|[]]]]]]]; discriminate. }
  assert (H3 : @upper Sample.lib j = j) by (vm_compute; reflexivity).
  assert (H4 : strip j = j) by (vm_compute; reflexivity).
  split; [exact H1|]. split; [exact H2|]. split; [exact H3|]. split; [exact H4|].
  exact (@token_round_trip Sample.lib 84%N 69%N (u "1234") H1 H2 H3 H4).
Defined.

(** C1 as stated fails on a lower-case job number of the stated shape: the
    token comes back upper-cased. *)
Lemma token_round_trip_lower_case :
  job_no_shape (u "te-1234") /\
  @token_to_job_no Sample.lib (@job_no_to_token Sample.lib (u "te-1234"))
    = Some (u "TE-1234") /\
  @token_to_job_no Sample.lib (@job_no_to_token Sample.lib (u "te-1234"))
    <> Some (u "te-1234").
Proof.
  split; [|split].
  - exists 116%N, 101%N, (u "1234"). split; [reflexivity|]. split; [discriminate|].
    vm_compute. intros [H|[H|[H|[H|[H|[H|[]]]]]]]; discriminate.
  - vm_compute. reflexivity.
  - vm_compute. discriminate.
Qed.

(** A run that answered [a]. *)
Lemma run_ok {A} (x : result A * World) (a : A) : fst x = Ok a -> x = (Ok a, snd x).
Proof. destruct x as [r w]. simpl. now intros ->. Defined.

(** ** C2: job-number generation *)

Lemma advance_rand_orders (n : nat) (w : World) :
  orders (advance_rand n w) = orders w.
Proof. induction n; simpl; [reflexivity|exact IHn]. Qed.

Lemma advance_rand_add (n m : nat) (w : World) :
  advance_rand n (advance_rand m w) = advance_rand (n + m) w.
Proof. unfold advance_rand. now rewrite Nat.iter_add. Qed.

Lemma advance_rand_tick (n : nat) (w : World) :
  advance_rand n (tick_rand w) = advance_rand (S n) w.
Proof.
  unfold advance_rand. rewrite <- Nat.iter_succ_r. reflexivity.
Qed.

Lemma choices_eq (population : str) (k : nat) (w : World) :
  choices population k w = (Ok (draws population k w), advance_rand k w).
Proof.
  revert w. induction k as [|k IH]; intros w; [reflexivity|].
  simpl choices. unfold bind at 1. unfold choice at 1.
  unfold bind at 1. rewrite IH. unfold ret.
  rewrite advance_rand_tick. f_equal. f_equal.
  unfold draws. simpl seq. simpl map. rewrite Nat.add_0_r. f_equal.
  rewrite <- seq_shift, map_map.
  apply map_ext. intros i. simpl rand. simpl rand_pos.
  now rewrite Nat.add_succ_r.
Qed.

Lemma digits_eq : digits = [48; 49; 50; 51; 52; 53; 54; 55; 56; 57]%N.
Proof. vm_compute. reflexivity. Qed.

Lemma nth_digits (r : nat) : is_decimal_digit (nth (r mod 10) digits 0%N) = true.
Proof.
  rewrite digits_eq.
  assert (H : (r mod 10 < 10)%nat) by (apply Nat.mod_upper_bound; lia).
  destruct (r mod 10)%nat as [|[|[|[|[|[|[|[|[|[|n]]]]]]]]]]; try reflexivity; lia.
Qed.

Lemma draws_digits_form (w : World) : te_four_digits (u "TE-" ++ draws digits 4 w).
Proof.
  assert (Hlen : length digits = 10%nat) by (rewrite digits_eq; reflexivity).
  unfold draws. rewrite Hlen. cbn [seq map].
  do 4 eexists. split; [reflexivity|].
  cbn [forallb]. rewrite !nth_digits. reflexivity.
Qed.

Lemma find_none_no_collision (j : str) (l : list Order) :
  find (has_job j) l = None <-> forall o, In o l -> job_no o <> j.
Proof.
  split.
  - intros H o Hin E. apply (find_none _ _ H) in Hin.
    unfold has_job in Hin. rewrite E, str_eqb_refl in Hin. discriminate.
  - intros H. induction l as [|o l IH]; [reflexivity|]. simpl.
    destruct (has_job j o) eqn:E.
    + unfold has_job in E. apply str_eqb_eq in E. exfalso. apply (H o); [now left|exact E].
    + apply IH. intros o' Hin. apply H. now right.
Qed.

Section Generate.

Context {L : Lib}.

Lemma generate_job_no_step (fuel : nat) (w : World) :
  generate_job_no (S fuel) w =
  match find (has_job (candidate w 0)) (orders w) with
  | None => (Ok (candidate w 0), advance_rand 4 w)
  | Some _ => generate_job_no fuel (advance_rand 4 w)
  end.
Proof.
  cbn [generate_job_no]. unfold bind at 1. rewrite choices_eq.
  unfold bind, find_one. rewrite advance_rand_orders.
  unfold candidate. change (advance_rand (4 * 0) w) with w.
  destruct (find _ (orders w)); reflexivity.
Qed.

Lemma candidate_shift (w : World) (i : nat) :
  candidate (advance_rand 4 w) i = candidate w (S i).
Proof.
  unfold candidate. rewrite advance_rand_add. do 3 f_equal. lia.
Qed.

(** A job number that was returned is free and well formed. *)
Lemma generate_job_no_returned (fuel : nat) (w w' : World) (j : str) :
  generate_job_no fuel w = (Ok j, w') ->
  te_four_digits j /\
  (forall o, In o (orders w') -> job_no o <> j) /\
  orders w' = orders w.
Proof.
  revert w. induction fuel as [|fuel IH]; intros w H; [discriminate H|].
  rewrite generate_job_no_step in H.
  destruct (find (has_job (candidate w 0)) (orders w)) eqn:Hfind.
  - destruct (IH (advance_rand 4 w) H) as (Hform & Hfree & Hsame).
    rewrite advance_rand_orders in Hsame. auto.
  - assert (Hj : j = candidate w 0) by congruence.
    assert (Hw : w' = advance_rand 4 w) by congruence.
    subst j w'. rewrite advance_rand_orders.
    split; [apply draws_digits_form|].
    split; [|reflexivity].
    now apply find_none_no_collision.
Qed.

(** The loop ends at the first free number it draws. *)
Lemma generate_job_no_returns (fuel : nat) (w : World) (i : nat) :
  (i < fuel)%nat ->
  find (has_job (candidate w i)) (orders w) = None ->
  exists j w', generate_job_no fuel w = (Ok j, w').
Proof.
  revert w i. induction fuel as [|fuel IH]; intros w i Hi Hfree; [lia|].
  rewrite generate_job_no_step.
  destruct (find (has_job (candidate w 0)) (orders w)) eqn:Hfind.
  - destruct i as [|i]; [congruence|].
    apply (IH (advance_rand 4 w) i); [lia|].
    rewrite candidate_shift, advance_rand_orders. exact Hfree.
  - eauto.
Qed.

(** C2: whenever [generate_job_no] returns, the job number is ['TE-'] and
    four decimal digits, no stored order has it, and the store is as it
    was; and it does return once one of the numbers it draws is free (with
    fuel for that many rounds). *)
Theorem generate_job_no_spec (fuel : nat) (w : World) :
  (forall j w', generate_job_no fuel w = (Ok j, w') ->
     te_four_digits j /\
     (forall o, In o (orders w') -> job_no o <> j) /\
     orders w' = orders w) /\
  (forall i, (i < fuel)%nat ->
     find (has_job (candidate w i)) (orders w) = None ->
     exists j w', generate_job_no fuel w = (Ok j, w')).
Proof.
  split.
  - intros j w' H. now apply generate_job_no_returned with (fuel := fuel).
  - intros i Hi Hfree. now apply generate_job_no_returns with (i := i).
Qed.

End Generate.

(** With ['TE-0123'] taken, the second round of the loop returns
    ['TE-4567']. *)
Lemma generate_job_no_witness :
  exists j w',
    generate_job_no 2 Sample.open_world = (Ok j, w') /\
    j = u "TE-4567" /\
    (te_four_digits j /\
     (forall o, In o (orders w') -> job_no o <> j) /\
     orders w' = orders Sample.open_world) /\
    (1 < 2)%nat /\
    find (has_job (candidate Sample.open_world 1)) (orders Sample.open_world) = None /\
    exists j2 w2, generate_job_no 2 Sample.open_world = (Ok j2, w2).
Proof.
  assert (E : fst (generate_job_no 2 Sample.open_world) = Ok (u "TE-4567"))
    by (vm_compute; reflexivity).
  apply run_ok in E.
  assert (Hlt : (1 < 2)%nat) by lia.
  assert (Hfree : find (has_job (candidate Sample.open_world 1))
                    (orders Sample.open_world) = None) by (vm_compute; reflexivity).
  exists (u "TE-4567"). eexists.
  split; [exact E|]. split; [reflexivity|].
  split; [exact (proj1 (generate_job_no_spec 2 Sample.open_world) _ _ E)|].
  split; [exact Hlt|]. split; [exact Hfree|].
  exact (proj2 (generate_job_no_spec 2 Sample.open_world) 1%nat Hlt Hfree).
Defined.

(** ** The store *)


(** After [update_one], [find_one] gives the updated document, as long as
    the update keeps the job number. *)
Lemma find_update_first (j : str) (f : Order -> Order) (l : list Order) (o : Order) :
  find (has_job j) l = Some o ->
  job_no (f o) = job_no o ->
  find (has_job j) (update_first j f l) = Some (f o).
Proof.
  intros Hfind Hjob. induction l as [|x l IH]; [discriminate|].
  simpl in *. destruct (has_job j x) eqn:E.
  - injection Hfind as ->. simpl.
    unfold has_job in *. now rewrite Hjob, E.
  - simpl. rewrite E. now apply IH.
Qed.

Lemma update_first_job_nos (j : str) (f : Order -> Order) (l : list Order) :
  (forall o, job_no (f o) = job_no o) ->
  map job_no (update_first j f l) = map job_no l.
Proof.
  intros Hf. induction l as [|x l IH]; [reflexivity|]. simpl.
  destruct (has_job j x); simpl; [now rewrite Hf|now rewrite IH].
Qed.

Lemma dir_has_remove (n x : str) (l : list str) :
  dir_has n (dir_remove x l) = dir_has n l && negb (str_eqb n x).
Proof.
  unfold dir_has, dir_remove. induction l as [|y l IH]; [reflexivity|].
  simpl. destruct (str_eqb y x) eqn:Eyx; simpl.
  - apply str_eqb_eq in Eyx. subst y. rewrite IH.
    destruct (str_eqb n x); simpl; [now rewrite andb_false_r|reflexivity].
  - rewrite IH. destruct (str_eqb n y) eqn:Eny; simpl; [|reflexivity].
    apply str_eqb_eq in Eny. subst y. now rewrite Eyx.
Qed.

Lemma dir_remove_absent (x : str) (l : list str) :
  dir_has x l = false -> dir_remove x l = l.
Proof.
  unfold dir_has, dir_remove. induction l as [|y l IH]; [reflexivity|].
  simpl. intros H. apply orb_false_iff in H as [Hxy Hl].
  assert (Hyx : str_eqb y x = false).
  { apply str_eqb_neq. apply str_eqb_neq in Hxy. congruence. }
  rewrite Hyx. simpl. now rewrite IH.
Qed.

(** What [unlink_if_exists] does to the world. *)
Lemma unlink_if_exists_eq (d : Dir) (n : str) (w : World) :
  exists w',
    unlink_if_exists d n w = (Ok tt, w') /\
    orders w' = orders w /\ technicians w' = technicians w /\
    dir_of d w' = dir_remove n (dir_of d w).
Proof.
  unfold unlink_if_exists, bind, file_exists.
  destruct (dir_has n (dir_of d w)) eqn:E.
  - eexists. split; [reflexivity|]. destruct d; auto.
  - exists w. split; [reflexivity|]. rewrite dir_remove_absent by exact E. auto.
Qed.

(** What [unlink_logged] leaves of the world: the file is removed unless
    the removal failed, and on a disk without faults it does not fail. *)
Lemma unlink_logged_world (d : Dir) (n : str) (w : World) :
  exists (w' : World) (removed : bool),
    unlink_logged d n w = (Ok tt, w') /\
    orders w' = orders w /\ technicians w' = technicians w /\
    disk w' = disk w /\
    invoices_dir w' = match d with
                      | UPLOAD_ROOT => if removed then dir_remove n (invoices_dir w)
                                       else invoices_dir w
                      | PHOTOS_ROOT => invoices_dir w
                      end /\
    photos_dir w' = match d with
                    | PHOTOS_ROOT => if removed then dir_remove n (photos_dir w)
                                     else photos_dir w
                    | UPLOAD_ROOT => photos_dir w
                    end /\
    ((forall i, disk w i = None) -> removed = true).
Proof.
  unfold unlink_logged, bind, attempt, file_exists.
  destruct (dir_has n (dir_of d w)) eqn:E.
  - unfold unlink_file. destruct (disk w (disk_pos w)) as [msg|] eqn:D.
    + exists (tick_disk w), false. split; [reflexivity|].
      repeat (split; [destruct d; reflexivity|]).
      intros H. rewrite H in D. discriminate D.
    + exists (with_dir d (dir_remove n) (tick_disk w)), true.
      split; [reflexivity|]. repeat (split; [destruct d; reflexivity|]). auto.
  - exists w, true. split; [reflexivity|].
    destruct d; cbn [dir_of] in E; rewrite dir_remove_absent by exact E;
      repeat split.
Qed.

(** ** Reading the payload *)

Lemma or_strip_eq (v : json) (d : str) (w : World) :
  or_strip v d w =
  (match text_or v d with Some s => Ok (strip s) | None => Raise AttributeError end, w).
Proof.
  unfold or_strip, text_or. destruct (py_or v (JStr d)); reflexivity.
Qed.

Lemma data_get_obj (m : list (str * json)) (k : str) (w : World) :
  data_get (JObj m) k w = (Ok (dict_get m k), w).
Proof. reflexivity. Qed.

Lemma form_get_text (rq : Request) (k : str) (d : str) :
  exists s, text_or (form_get rq k) d = Some s.
Proof.
  unfold form_get, text_or, py_or.
  destruct (assoc_get k (form rq)) as [s|]; simpl.
  - destruct (str_empty s); simpl; eauto.
  - eauto.
Qed.

Lemma missing_fields_obj (m : list (str * json)) (fields : list str) (w : World) :
  missing_fields (JObj m) fields w = (missing_of m fields, w).
Proof.
  induction fields as [|f fields IH]; [reflexivity|].
  cbn [missing_fields missing_of]. unfold bind at 1. rewrite data_get_obj.
  unfold bind at 1. rewrite or_strip_eq.
  destruct (text_or (dict_get m f) []) as [s|]; [|reflexivity].
  unfold bind. rewrite IH.
  destruct (missing_of m fields); reflexivity.
Qed.

Lemma missing_of_textual (m : list (str * json)) (fields : list str) :
  (forall f, In f fields -> textual (dict_get m f) = true) ->
  missing_of m fields = Ok (filter (fun f => blank (dict_get m f)) fields).
Proof.
  induction fields as [|f fields IH]; intros H; [reflexivity|].
  cbn [missing_of filter].
  pose proof (H f (or_introl eq_refl)) as Hf.
  unfold textual in Hf. unfold blank.
  destruct (text_or (dict_get m f) []) as [s|]; [|discriminate].
  rewrite IH by (intros g Hg; apply H; now right).
  reflexivity.
Qed.

Lemma missing_of_ok (m : list (str * json)) (fields : list str) (l : list str) :
  missing_of m fields = Ok l ->
  l = filter (fun f => blank (dict_get m f)) fields /\
  (forall f, In f fields -> textual (dict_get m f) = true).
Proof.
  revert l. induction fields as [|f fields IH]; intros l H.
  - injection H as <-. split; [reflexivity|]. intros f [].
  - cbn [missing_of] in H. cbn [filter]. unfold blank, textual.
    destruct (text_or (dict_get m f) []) as [s|] eqn:Ef; [|discriminate].
    destruct (missing_of m fields) as [rest|e]; [|discriminate].
    destruct (IH rest eq_refl) as [-> Hall].
    injection H as <-. split; [reflexivity|].
    intros g [<-|Hg]; [now rewrite Ef|]. apply Hall in Hg.
    unfold textual in Hg. exact Hg.
Qed.

(** A required field that passed the check is a string with more than
    white space in it. *)
Lemma not_blank_string (v : json) :
  textual v = true -> blank v = false ->
  exists s, v = JStr s /\ strip s <> [].
Proof.
  unfold textual, blank, text_or, py_or.
  destruct (truthy v) eqn:Ht.
  - destruct v; try discriminate. intros _ Hb. exists s. split; [reflexivity|].
    intros E. now rewrite E in Hb.
  - simpl. discriminate.
Qed.

(** ** Building and inserting an order document *)

Section Creation.
Context {L : Lib}.
(** What a document that [_build_order_document] returned is made of. *)
Lemma _build_order_document_ok (fuel : nat) (data : json) (w w' : World) (doc : Order) :
  _build_order_document fuel data w = (Ok doc, w') ->
  exists m j w1 sp sn,
    data = JObj m /\
    missing_of m required_fields = Ok [] /\
    generate_job_no fuel w = (Ok j, w1) /\
    w' = tick_clock w1 /\
    text_or (dict_get m (u "priority")) (u "DÜŞÜK") = Some sp /\
    text_or (dict_get m (u "note")) [] = Some sn /\
    doc = {| job_no := j;
             priority := priority_or_default (normalize_str (strip sp));
             name := normalize_text (dict_get m (u "name"));
             model := normalize_text (dict_get m (u "model"));
             phone := normalize_text (dict_get m (u "phone"));
             service := normalize_text (dict_get m (u "service"));
             rnu := normalize_text (dict_get m (u "rnu"));
             address := normalize_text (dict_get m (u "address"));
             note := strip sn;
             created_at := clock w1 (clock_pos w1);
             created_at_display := strftime_display (clock w1 (clock_pos w1));
             invoice := None; photos := [];
             montaj_completed := false; montaj_completion := None |}.
Proof.
  unfold _build_order_document. intros H.
  destruct data as [| b | z | s | l | m];
    try (unfold required_fields in H; cbn [missing_fields bind data_get raise] in H;
         discriminate H).
  unfold bind at 1 in H. rewrite missing_fields_obj in H.
  destruct (missing_of m required_fields) as [missing|e] eqn:Hmiss; [|discriminate].
  destruct missing as [|x missing]; [|discriminate].
  cbn [is_empty negb] in H.
  unfold bind at 1 in H. rewrite data_get_obj in H.
  unfold bind at 1 in H. rewrite or_strip_eq in H.
  destruct (text_or (dict_get m (u "priority")) (u "DÜŞÜK")) as [sp|] eqn:Hsp; [|discriminate].
  do 7 (unfold bind at 1 in H; rewrite data_get_obj in H).
  unfold bind at 1 in H. rewrite or_strip_eq in H.
  destruct (text_or (dict_get m (u "note")) []) as [sn|] eqn:Hsn; [|discriminate].
  unfold bind at 1 in H.
  destruct (generate_job_no fuel w) as [[j|e] w1] eqn:Hgen; [|discriminate].
  unfold bind, now, ret in H.
  exists m, j, w1, sp, sn.
  injection H as <- <-. repeat split; assumption.
Qed.

Lemma create_order_from_payload_ok (fuel : nat) (data : json) (w w' : World) (oj : OrderJson) :
  create_order_from_payload fuel data w = (Ok oj, w') ->
  exists doc w1,
    _build_order_document fuel data w = (Ok doc, w1) /\
    w' = with_orders (fun l => l ++ [doc]) w1 /\
    oj = format_order doc.
Proof.
  unfold create_order_from_payload. intros H.
  unfold bind at 1 in H.
  destruct (_build_order_document fuel data w) as [[doc|e] w1] eqn:Hb; [|discriminate].
  unfold bind, attempt, insert_one in H.
  destruct (existsb (has_job (job_no doc)) (orders w1)); [discriminate|].
  unfold ret in H. injection H as <- <-. now exists doc, w1.
Qed.

Lemma filter_nil_false {A} (p : A -> bool) (l : list A) (x : A) :
  filter p l = [] -> In x l -> p x = false.
Proof.
  induction l as [|y l IH]; [intros _ []|].
  simpl. destruct (p y) eqn:E; [discriminate|].
  intros H [<-|Hin]; [exact E|now apply IH].
Qed.

(** A required field of a payload that passed the check. *)
Lemma required_field_string (m : list (str * json)) (f : str) :
  missing_of m required_fields = Ok [] ->
  In f required_fields ->
  exists s, dict_get m f = JStr s /\ strip s <> [].
Proof.
  intros H Hin. apply missing_of_ok in H as [Hnil Hall].
  apply not_blank_string.
  - now apply Hall.
  - symmetry in Hnil. exact (filter_nil_false _ _ _ Hnil Hin).
Qed.

Lemma required_stored_upper (m : list (str * json)) (k : string) :
  missing_of m required_fields = Ok [] ->
  In (u k) required_fields ->
  stored_upper m k (normalize_text (dict_get m (u k))).
Proof.
  intros H Hin. destruct (required_field_string m H Hin) as (s & Hs & _).
  exists s. split; [exact Hs|]. now rewrite Hs.
Qed.

(** The order an accepted payload inserts: the store grows by exactly the
    built document. *)
Lemma create_order_from_payload_store (fuel : nat) (data : json) (w w' : World)
    (oj : OrderJson) :
  create_order_from_payload fuel data w = (Ok oj, w') ->
  exists m doc sp sn,
    data = JObj m /\
    missing_of m required_fields = Ok [] /\
    orders w' = orders w ++ [doc] /\
    oj = format_order doc /\
    te_four_digits (job_no doc) /\
    (forall o, In o (orders w) -> job_no o <> job_no doc) /\
    text_or (dict_get m (u "priority")) (u "DÜŞÜK") = Some sp /\
    priority doc = priority_or_default (normalize_str (strip sp)) /\
    name doc = normalize_text (dict_get m (u "name")) /\
    model doc = normalize_text (dict_get m (u "model")) /\
    phone doc = normalize_text (dict_get m (u "phone")) /\
    service doc = normalize_text (dict_get m (u "service")) /\
    address doc = normalize_text (dict_get m (u "address")) /\
    text_or (dict_get m (u "note")) [] = Some sn /\
    note doc = strip sn /\
    invoice doc = None /\ photos doc = [] /\
    montaj_completed doc = false /\ montaj_completion doc = None.
Proof.
  intros H. apply create_order_from_payload_ok in H as (doc & w1 & Hb & -> & ->).
  apply _build_order_document_ok in Hb
    as (m & j & w0 & sp & sn & -> & Hmiss & Hgen & -> & Hsp & Hsn & ->).
  destruct (generate_job_no_returned fuel w Hgen) as (Hform & Hfree & Hsame).
  exists m. eexists. exists sp, sn.
  split; [reflexivity|]. split; [exact Hmiss|].
  split; [cbn; now rewrite Hsame|].
  split; [reflexivity|].
  split; [exact Hform|].
  split; [intros o Ho; apply Hfree; now rewrite Hsame|].
  split; [exact Hsp|].
  cbn. repeat split; assumption.
Qed.

End Creation.

(** ** C4: text normalisation of the free-text fields *)

Section TextNormalization.

Context {L : Lib}.

(** C4, as the code has it: an accepted order-creation payload is stored
    with its name, phone, model, service and address trimmed and
    upper-cased; the note is trimmed and keeps its case. *)
Theorem text_normalization (fuel : nat) (data : json) (w w' : World) (oj : OrderJson) :
  create_order_from_payload fuel data w = (Ok oj, w') ->
  exists m doc,
    data = JObj m /\
    orders w' = orders w ++ [doc] /\
    stored_upper m "name" (name doc) /\
    stored_upper m "phone" (phone doc) /\
    stored_upper m "model" (model doc) /\
    stored_upper m "service" (service doc) /\
    stored_upper m "address" (address doc) /\
    stored_trimmed m "note" (note doc).
Proof.
  intros H. apply create_order_from_payload_store in H
    as (m & doc & sp & sn & -> & Hmiss & Hstore & _ & _ & _ & _ & _
        & Hname & Hmodel & Hphone & Hservice & Haddress & Hsn & Hnote & _).
  exists m, doc. split; [reflexivity|]. split; [exact Hstore|].
  rewrite Hname, Hmodel, Hphone, Hservice, Haddress.
  repeat split;
    try (apply required_stored_upper; [exact Hmiss|];
         unfold required_fields; cbn [In]; auto 10).
  exists sn. split; [exact Hsn|exact Hnote].
Qed.

End TextNormalization.

Lemma text_normalization_witness :
  exists oj w',
    @create_order_from_payload Sample.lib 1 SampleCreation.payload Sample.empty_world
      = (Ok oj, w') /\
    exists m doc,
      SampleCreation.payload = JObj m /\
      orders w' = orders Sample.empty_world ++ [doc] /\
      @stored_upper Sample.lib m "name" (name doc) /\
      @stored_upper Sample.lib m "phone" (phone doc) /\
      @stored_upper Sample.lib m "model" (model doc) /\
      @stored_upper Sample.lib m "service" (service doc) /\
      @stored_upper Sample.lib m "address" (address doc) /\
      stored_trimmed m "note" (note doc).
Proof.
  assert (E : exists oj,
             fst (@create_order_from_payload Sample.lib 1 SampleCreation.payload
                    Sample.empty_world) = Ok oj).
  { vm_compute. eexists. reflexivity. }
  destruct E as (oj & E). apply run_ok in E. exists oj. eexists.
  exact (conj E (@text_normalization Sample.lib 1 _ _ _ _ E)).
Defined.

(** C4 as stated fails for the note: it is stored in the case it came
    in. *)
Lemma note_not_upper_cased :
  let run := @create_order Sample.lib 1 SampleCreation.request Sample.empty_world in
  Sample.status_of run = Some 201 /\
  map name (orders (snd run)) = [u "ALI VELI"] /\
  map note (orders (snd run)) = [u "kapida ara"] /\
  u "kapida ara" <> @normalize_text Sample.lib (JStr (u "kapida ara")).
Proof.
  vm_compute. repeat split; discriminate.
Qed.

(** ** C3: the login gate *)

Section LoginGate.

Context {L : Lib}.

(** A gated view answers a request without a session with 401. *)
Lemma unauthorized_view (fuel : nat) (ep : Endpoint) (rq : Request) (w : World) :
  gated ep = true -> logged_in (session rq) = false ->
  view fuel ep rq w = (Ok _unauthorized_json, w).
Proof.
  intros Hg Hs.
  destruct ep; try discriminate Hg; simpl;
    unfold list_orders, create_order, upload_invoice, complete_order,
      update_order, delete_order, create_technician, download_photos;
    rewrite Hs; reflexivity.
Qed.

(** C3, as the code has it: the eight endpoints under [/api] answer a
    request without a logged-in session with 401 and leave the world as it
    was; the token-based invoice form and the dealer's order form are
    public: they never read the session. *)
Theorem login_gate (fuel : nat) (ep : Endpoint) (rq : Request) (w : World) :
  (gated ep = true -> logged_in (session rq) = false ->
   view fuel ep rq w = (Ok _unauthorized_json, w) /\
   status _unauthorized_json = 401) /\
  (gated ep = false ->
   forall s, view fuel ep (with_session s rq) w = view fuel ep rq w).
Proof.
  split.
  - intros Hg Hs. split; [|reflexivity]. now apply unauthorized_view.
  - intros Hg s. destruct ep; try discriminate Hg; reflexivity.
Qed.

(** The same through the [before_request] hook: a gated endpoint never
    changes the world for a request without a session. *)
Lemma handle_request_anonymous (fuel : nat) (ep : Endpoint) (rq : Request) (w : World) :
  gated ep = true -> logged_in (session rq) = false ->
  exists response,
    handle_request fuel ep rq w = (Ok response, w) /\
    (status response = 401 \/ status response = 302).
Proof.
  intros Hg Hs. unfold handle_request, bind, enforce_initial_setup.
  destruct (has_admin_user w).
  - rewrite (unauthorized_view fuel ep rq w Hg Hs).
    eexists. split; [reflexivity|]. now left.
  - eexists. split; [reflexivity|]. now right.
Qed.

(** Once an administrator exists, the hook lets every request through. *)
Lemma handle_request_view (fuel : nat) (ep : Endpoint) (rq : Request) (w : World) :
  has_admin_user w = true -> handle_request fuel ep rq w = view fuel ep rq w.
Proof.
  intros H. unfold handle_request, bind, enforce_initial_setup. now rewrite H.
Qed.

End LoginGate.

Lemma login_gate_witness :
  gated create_order_ep = true /\
  logged_in (session (with_session Sample.anonymous SampleCreation.request)) = false /\
  (@view Sample.lib 1 create_order_ep
     (with_session Sample.anonymous SampleCreation.request) Sample.empty_world
     = (Ok (@_unauthorized_json), Sample.empty_world) /\
   status _unauthorized_json = 401) /\
  gated bayi_create_order_ep = false /\
  (forall s, @view Sample.lib 1 bayi_create_order_ep
               (with_session s SampleDealer.request) Sample.empty_world
             = @view Sample.lib 1 bayi_create_order_ep SampleDealer.request
                 Sample.empty_world).
Proof.
  assert (H1 : gated create_order_ep = true) by reflexivity.
  assert (H2 : logged_in (session (with_session Sample.anonymous SampleCreation.request))
               = false) by reflexivity.
  assert (H3 : gated bayi_create_order_ep = false) by reflexivity.
  split; [exact H1|]. split; [exact H2|].
  split; [exact (proj1 (@login_gate Sample.lib 1 create_order_ep _ Sample.empty_world) H1 H2)|].
  split; [exact H3|].
  exact (proj2 (@login_gate Sample.lib 1 bayi_create_order_ep SampleDealer.request
                  Sample.empty_world) H3).
Defined.

(** C3 as stated fails on the dealer's form: a request without a session
    inserts an order. *)
Lemma dealer_order_without_session :
  let run := @view Sample.lib 1 bayi_create_order_ep SampleDealer.request
               Sample.empty_world in
  logged_in (session SampleDealer.request) = false /\
  orders Sample.empty_world = [] /\
  Sample.status_of run = Some 200 /\
  map job_no (orders (snd run)) = [u "TE-0123"].
Proof.
  vm_compute. repeat split.
Qed.

(** ** Saving and removing photos *)

Lemma advance_rand_photos_dir (n : nat) (w : World) :
  photos_dir (advance_rand n w) = photos_dir w.
Proof. induction n; simpl; [reflexivity|exact IHn]. Qed.

Lemma dir_has_add (n : str) (l : list str) : dir_has n (dir_add n l) = true.
Proof.
  unfold dir_add. destruct (dir_has n l) eqn:E; [exact E|].
  unfold dir_has. cbn [existsb]. now rewrite str_eqb_refl.
Qed.

Section Photos.

Context {L : Lib}.

(** [_save_photo] raises [ValueError] or [OSError] or returns the entry of
    a file it wrote; it leaves the store alone. *)
Lemma _save_photo_cases (job_no : str) (f : FileStorage) (w w' : World)
    (r : result FileEntry) :
  _save_photo job_no f w = (r, w') ->
  orders w' = orders w /\
  ((exists msg, r = Raise (ValueError msg) /\ w' = w) \/
   (exists msg, r = Raise (OSError msg) /\ photos_dir w' = photos_dir w) \/
   (exists entry, r = Ok entry /\
                  dir_has (stored_name entry) (photos_dir w') = true)).
Proof.
  unfold _save_photo.
  destruct (str_empty (secure_filename (filename f))).
  - intros H. injection H as <- <-. split; [reflexivity|]. left. eauto.
  - unfold bind at 1. unfold now at 1.
    unfold bind at 1. rewrite choices_eq.
    unfold bind at 1. unfold save at 1.
    destruct (disk _ _) as [msg|] eqn:Hdisk.
    + intros H. apply pair_equal_spec in H as [<- <-]. split.
      * cbn [orders tick_disk]. rewrite advance_rand_orders. reflexivity.
      * right. left. exists msg. split; [reflexivity|].
        cbn [photos_dir tick_disk]. rewrite advance_rand_photos_dir. reflexivity.
    + unfold bind, now, ret. intros H. apply pair_equal_spec in H as [<- <-]. split.
      * cbn [orders tick_clock with_dir tick_disk]. rewrite advance_rand_orders. reflexivity.
      * right. right. eexists. split; [reflexivity|].
        cbn [stored_name photos_dir tick_clock with_dir].
        apply dir_has_add.
Qed.

(** The loop never raises; it leaves the store alone, and it keeps what
    was saved before. *)
Lemma save_photos_total (job_no : str) (files : list FileStorage)
    (saved : list FileEntry) (w : World) :
  exists saved' exc w',
    save_photos job_no files saved w = (Ok (saved ++ saved', exc), w') /\
    orders w' = orders w.
Proof.
  revert saved w. induction files as [|f files IH]; intros saved w.
  - exists [], None, w. cbn. rewrite app_nil_r. auto.
  - cbn [save_photos].
    destruct (has_filename (Some f)).
    + unfold bind, attempt.
      destruct (_save_photo job_no f w) as [r w1] eqn:Hsave.
      apply _save_photo_cases in Hsave as [Hord [(msg & -> & _)|[(msg & -> & _)|(entry & -> & _)]]].
      * exists [], (Some (ValueError msg)), w1. rewrite app_nil_r. auto.
      * exists [], (Some (OSError msg)), w1. rewrite app_nil_r. auto.
      * destruct (IH (saved ++ [entry]) w1) as (saved' & exc & w' & -> & Hord').
        exists (entry :: saved'), exc, w'. rewrite <- app_assoc. split; [reflexivity|].
        congruence.
    + apply IH.
Qed.

(** Files without a name are skipped. *)
Lemma save_photos_unnamed (job_no : str) (files : list FileStorage)
    (saved : list FileEntry) (w : World) :
  (forall f, In f files -> filename f = []) ->
  save_photos job_no files saved w = (Ok (saved, None), w).
Proof.
  induction files as [|f files IH]; intros H; [reflexivity|].
  cbn [save_photos has_filename].
  rewrite (H f (or_introl eq_refl)). cbn.
  apply IH. intros g Hg. apply H. now right.
Qed.

(** A file whose name [secure_filename] empties stops the loop with a
    [ValueError], unless an earlier file has stopped it. *)
Lemma save_photos_invalid_name (job_no : str) (files : list FileStorage)
    (saved : list FileEntry) (w : World) (f : FileStorage) :
  In f files -> filename f <> [] -> secure_filename (filename f) = [] ->
  exists saved' exc w',
    save_photos job_no files saved w = (Ok (saved', Some exc), w').
Proof.
  revert saved w. induction files as [|g files IH]; intros saved w Hin Hname Hsec;
    [destruct Hin|].
  cbn [save_photos].
  destruct (has_filename (Some g)) eqn:Hg.
  - unfold bind, attempt.
    destruct (_save_photo job_no g w) as [r w1] eqn:Hsave.
    pose proof Hsave as Hcases.
    apply _save_photo_cases in Hcases
      as [_ [(msg & -> & _)|[(msg & -> & _)|(entry & -> & _)]]].
    + unfold ret. eauto.
    + unfold ret. eauto.
    + destruct Hin as [->|Hin]; [|now apply IH].
      unfold _save_photo in Hsave. rewrite Hsec in Hsave. discriminate Hsave.
  - destruct Hin as [->|Hin]; [|now apply IH].
    cbn in Hg. destruct (filename f); [congruence|discriminate].
Qed.

(** [remove_saved] removes the files of the entries from the photos
    directory and nothing else. *)
Lemma remove_saved_spec (saved : list FileEntry) (w : World) :
  exists w',
    remove_saved saved w = (Ok tt, w') /\
    orders w' = orders w /\
    (forall n, dir_has n (photos_dir w') =
               dir_has n (photos_dir w)
               && negb (existsb (fun e => str_eqb n (stored_name e)) saved)).
Proof.
  revert w. induction saved as [|e saved IH]; intros w.
  - exists w. split; [reflexivity|]. split; [reflexivity|].
    intros n. cbn. now rewrite andb_true_r.
  - cbn [remove_saved]. unfold bind.
    destruct (unlink_if_exists_eq PHOTOS_ROOT (stored_name e) w)
      as (w1 & -> & Hord & _ & Hdir).
    destruct (IH w1) as (w' & -> & Hord' & Hdir').
    exists w'. split; [reflexivity|]. split; [congruence|].
    intros n. rewrite Hdir'. cbn [dir_of] in Hdir. rewrite Hdir, dir_has_remove.
    cbn [existsb]. rewrite negb_orb. now rewrite andb_assoc.
Qed.

End Photos.

(** ** Completing an order *)

Section Completion.

Context {L : Lib}.

Lemma save_photos_orders (j : str) (files : list FileStorage) (w w1 : World)
    (r : result (list FileEntry * option exn)) :
  save_photos j files [] w = (r, w1) -> orders w1 = orders w.
Proof.
  destruct (save_photos_total j files [] w) as (saved' & exc & w' & -> & Hord).
  intros H. apply pair_equal_spec in H as [_ <-]. exact Hord.
Qed.

(** [complete_order] for a logged-in request on an existing order with a
    valid mount type, by the outcome of the loop over the photos. *)
Lemma complete_order_run (j : str) (rq : Request) (w w1 : World) (order : Order)
    (saved : list FileEntry) (exc : option exn) :
  logged_in (session rq) = true ->
  find (has_job j) (orders w) = Some order ->
  str_in (requested_mount_type rq) valid_mount_types = true ->
  save_photos j (files_getlist rq (u "photos")) [] w = (Ok (saved, exc), w1) ->
  complete_order j rq w =
  match exc with
  | Some e =>
      bind (remove_saved saved) (fun _ => ret (json_message 400 (exn_message e))) w1
  | None =>
      if is_empty saved
      then (Ok (json_message 400 (u "Lütfen en az bir fotoğraf yükleyin.")), w1)
      else
        let c := completion_of rq order saved (clock w1 (clock_pos w1)) in
        let updated := set_completion c (Some (photos order ++ saved)) order in
        (Ok {| status := 200; body := OrderBody (format_order updated) None |},
         with_orders (update_first j (set_completion c (Some (photos order ++ saved))))
           (tick_clock w1))
  end.
Proof.
  intros Hlog Hfind Hmount Hsave.
  pose proof (save_photos_orders _ _ _ Hsave) as Hord.
  unfold complete_order. rewrite Hlog. cbn [negb].
  unfold bind at 1. unfold find_one at 1. rewrite Hfind.
  fold (requested_mount_type rq). rewrite Hmount. cbn [negb].
  unfold bind at 1. rewrite or_strip_eq.
  unfold completion_of.
  destruct (form_get_text rq (u "note") []) as [s Hs]. rewrite Hs.
  unfold bind at 1. rewrite Hsave.
  destruct exc as [e|]; [reflexivity|].
  destruct saved as [|entry saved]; [reflexivity|].
  cbn [is_empty].
  unfold bind, now, update_one, find_one, ret.
  cbn [orders with_orders tick_clock].
  rewrite (find_update_first j _ (orders w1) (o := order))
    by (rewrite ?Hord; auto).
  reflexivity.
Qed.

Lemma empty_mount_type_valid : str_in [] valid_mount_types = true.
Proof. vm_compute. reflexivity. Qed.

(** A completion that answered 200 went through every check. *)
Lemma complete_order_200 (j : str) (rq : Request) (w w' : World) (resp : Response) :
  complete_order j rq w = (Ok resp, w') ->
  status resp = 200 ->
  exists order saved w1,
    logged_in (session rq) = true /\
    find (has_job j) (orders w) = Some order /\
    str_in (requested_mount_type rq) valid_mount_types = true /\
    save_photos j (files_getlist rq (u "photos")) [] w = (Ok (saved, None), w1) /\
    saved <> [] /\
    w' = with_orders
           (update_first j
              (set_completion (completion_of rq order saved (clock w1 (clock_pos w1)))
                 (Some (photos order ++ saved))))
           (tick_clock w1).
Proof.
  intros H Hstatus.
  destruct (logged_in (session rq)) eqn:Hlog.
  2:{ unfold complete_order in H. rewrite Hlog in H.
      apply pair_equal_spec in H as [H _]. injection H as <-. discriminate Hstatus. }
  destruct (find (has_job j) (orders w)) as [order|] eqn:Hfind.
  2:{ unfold complete_order in H. rewrite Hlog in H. cbn [negb] in H.
      unfold bind, find_one in H. rewrite Hfind in H.
      apply pair_equal_spec in H as [H _]. injection H as <-. discriminate Hstatus. }
  destruct (str_in (requested_mount_type rq) valid_mount_types) eqn:Hmount.
  2:{ unfold complete_order in H. rewrite Hlog in H. cbn [negb] in H.
      unfold bind at 1 in H. unfold find_one at 1 in H. rewrite Hfind in H.
      fold (requested_mount_type rq) in H. rewrite Hmount in H.
      apply pair_equal_spec in H as [H _]. injection H as <-. discriminate Hstatus. }
  destruct (save_photos_total j (files_getlist rq (u "photos")) [] w)
    as (saved & exc & w1 & Hsave & _).
  cbn [app] in Hsave.
  rewrite (complete_order_run j rq w Hlog Hfind Hmount Hsave) in H.
  destruct exc as [e|].
  - unfold bind in H. destruct (remove_saved_spec saved w1) as (w2 & Hrm & _).
    rewrite Hrm in H. apply pair_equal_spec in H as [H _]. injection H as <-.
    discriminate Hstatus.
  - destruct saved as [|entry saved].
    + apply pair_equal_spec in H as [H _]. injection H as <-. discriminate Hstatus.
    + cbn [is_empty] in H. apply pair_equal_spec in H as [_ <-].
      exists order, (entry :: saved), w1. repeat split; try assumption. discriminate.
Qed.



(** C10: a logged-in completion of an existing order in which no uploaded
    file has a name is answered with 400 and changes nothing; with an empty
    mount type it is the photo check that refuses it. *)
Theorem completion_needs_photo (j : str) (rq : Request) (w : World) (order : Order) :
  logged_in (session rq) = true ->
  find (has_job j) (orders w) = Some order ->
  (forall f, In f (files_getlist rq (u "photos")) -> filename f = []) ->
  exists msg,
    complete_order j rq w = (Ok (json_message 400 msg), w) /\
    (requested_mount_type rq = [] -> msg = u "Lütfen en az bir fotoğraf yükleyin.").
Proof.
  intros Hlog Hfind Hfiles.
  destruct (str_in (requested_mount_type rq) valid_mount_types) eqn:Hmount.
  - pose proof (save_photos_unnamed j (files_getlist rq (u "photos")) [] w Hfiles)
      as Hsave.
    rewrite (complete_order_run j rq w Hlog Hfind Hmount Hsave).
    cbn [is_empty]. eexists. split; [reflexivity|]. reflexivity.
  - exists (u "Geçersiz montaj türü."). split.
    + unfold complete_order. rewrite Hlog. cbn [negb].
      unfold bind at 1. unfold find_one at 1. rewrite Hfind.
      fold (requested_mount_type rq). rewrite Hmount. reflexivity.
    + intros Hempty. rewrite Hempty, empty_mount_type_valid in Hmount. discriminate.
Qed.

End Completion.



Lemma completion_needs_photo_witness :
  logged_in (session SampleCompletion.no_photo) = true /\
  find (has_job (u "TE-0123")) (orders Sample.open_world) = Some Sample.open_order /\
  (forall f, In f (files_getlist SampleCompletion.no_photo (u "photos")) ->
             filename f = []) /\
  @requested_mount_type Sample.lib SampleCompletion.no_photo = [] /\
  exists msg,
    @complete_order Sample.lib (u "TE-0123") SampleCompletion.no_photo Sample.open_world
      = (Ok (json_message 400 msg), Sample.open_world) /\
    (@requested_mount_type Sample.lib SampleCompletion.no_photo = [] ->
     msg = u "Lütfen en az bir fotoğraf yükleyin.").
Proof.
  assert (H1 : logged_in (session SampleCompletion.no_photo) = true) by reflexivity.
  assert (H2 : find (has_job (u "TE-0123")) (orders Sample.open_world)
               = Some Sample.open_order) by (vm_compute; reflexivity).
  assert (H3 : forall f, In f (files_getlist SampleCompletion.no_photo (u "photos")) ->
                         filename f = []).
  { vm_compute. intros f [<-|[]]. reflexivity. }
  assert (H4 : @requested_mount_type Sample.lib SampleCompletion.no_photo = [])
    by (vm_compute; reflexivity).
  split; [exact H1|]. split; [exact H2|]. split; [exact H3|]. split; [exact H4|].
  exact (@completion_needs_photo Sample.lib (u "TE-0123") SampleCompletion.no_photo
           Sample.open_world Sample.open_order H1 H2 H3).
Defined.

(** ** Updating an order *)

Lemma collect_fields_eq (data : json) (keys : list str) (w : World) :
  collect_fields data keys w = (collect_of data keys, w).
Proof.
  induction keys as [|key keys IH]; [reflexivity|].
  cbn [collect_fields collect_of]. unfold bind at 1.
  assert (Hc : data_contains data key w = (contains_of data key, w))
    by (destruct data; reflexivity).
  rewrite Hc. destruct (contains_of data key) as [[|]|e]; [|exact IH|reflexivity].
  destruct data as [| b | z | s | l | m]; try reflexivity.
  unfold bind at 1. rewrite data_get_obj.
  unfold bind at 1. rewrite or_strip_eq.
  destruct (text_or (dict_get m key) []) as [s|]; [|reflexivity].
  unfold bind. rewrite IH.
  destruct (collect_of (JObj m) keys); reflexivity.
Qed.

(** Only a dict yields fields to update. *)
Lemma collect_of_dict (data : json) (keys : list str) (l : list (str * str)) :
  collect_of data keys = Ok l -> l <> [] -> exists m, data = JObj m.
Proof.
  revert l. induction keys as [|key keys IH]; intros l H Hne.
  - injection H as <-. congruence.
  - cbn [collect_of] in H.
    destruct (contains_of data key) as [[|]|e]; [|eauto|discriminate].
    destruct data; try discriminate. eauto.
Qed.

Lemma collect_of_keys (data : json) (keys : list str) (l : list (str * str)) :
  collect_of data keys = Ok l -> Forall (fun e => In (fst e) keys) l.
Proof.
  revert l. induction keys as [|key keys IH]; intros l H.
  - injection H as <-. constructor.
  - cbn [collect_of] in H.
    assert (Hmono : forall l', collect_of data keys = Ok l' ->
                               Forall (fun e => In (fst e) (key :: keys)) l').
    { intros l' Hl'. apply IH in Hl'.
      eapply Forall_impl; [|exact Hl']. intros e He. now right. }
    destruct (contains_of data key) as [[|]|e]; [|now apply Hmono|discriminate].
    destruct data; try discriminate.
    destruct (text_or _ _); [|discriminate].
    destruct (collect_of (JObj m) keys) as [rest|]; [|discriminate].
    injection H as <-. constructor; [now left|now apply Hmono].
Qed.

Lemma apply_update_frame (update_doc : list (str * str)) (o : Order) :
  same_frame o (apply_update update_doc o).
Proof.
  unfold apply_update. revert o.
  induction update_doc as [|[key value] l IH]; intros o.
  - repeat split.
  - cbn [fold_left]. destruct (IH (set_field (key, value) o)) as (H1 & H2 & H3 & H4 & H5 & H6 & H7 & H8).
    repeat split; assumption.
Qed.

Lemma apply_update_other_priority (update_doc : list (str * str)) (o : Order) :
  Forall (fun e => str_eqb (fst e) (u "priority") = false) update_doc ->
  priority (apply_update update_doc o) = priority o.
Proof.
  unfold apply_update. revert o.
  induction update_doc as [|[key value] l IH]; intros o H; [reflexivity|].
  inversion H as [|? ? Hk Hl]; subst. cbn [fold_left].
  rewrite (IH _ Hl). cbn [set_field priority]. unfold pick_field.
  cbn [fst] in Hk. now rewrite Hk.
Qed.

Section Update.

Context {L : Lib}.

Lemma normalize_entry_key (e : str * str) : fst (normalize_entry e) = fst e.
Proof.
  destruct e as [key value]. unfold normalize_entry.
  destruct (str_eqb key (u "priority")); [reflexivity|].
  destruct (str_in key text_fields); reflexivity.
Qed.

(** [update_order] for a logged-in request on an existing order. *)
Lemma update_order_run (j : str) (rq : Request) (w : World) (order : Order) :
  logged_in (session rq) = true ->
  find (has_job j) (orders w) = Some order ->
  update_order j rq w =
  match collect_of (payload rq) allowed_fields with
  | Raise e => (Raise e, w)
  | Ok collected =>
      let update_doc := map normalize_entry collected in
      if is_empty update_doc
      then (Ok (json_message 400 (u "Güncellenecek alan bulunamadı.")), w)
      else (Ok {| status := 200;
                  body := OrderBody (format_order (apply_update update_doc order)) None |},
            with_orders (update_first j (apply_update update_doc)) w)
  end.
Proof.
  intros Hlog Hfind. unfold update_order. rewrite Hlog. cbn [negb].
  unfold bind at 1. unfold find_one at 1. rewrite Hfind.
  unfold bind at 1. rewrite collect_fields_eq.
  destruct (collect_of (payload rq) allowed_fields) as [collected|e]; [|reflexivity].
  cbv zeta. destruct (is_empty (map normalize_entry collected)); [reflexivity|].
  unfold bind, update_one, find_one, ret. cbn [orders with_orders].
  rewrite (find_update_first j _ (orders w) (o := order));
    [reflexivity|exact Hfind|apply apply_update_frame].
Qed.

(** An update that answered 200 went through every check. *)
Lemma update_order_200 (j : str) (rq : Request) (w w' : World) (resp : Response) :
  update_order j rq w = (Ok resp, w') ->
  status resp = 200 ->
  exists order collected,
    logged_in (session rq) = true /\
    find (has_job j) (orders w) = Some order /\
    collect_of (payload rq) allowed_fields = Ok collected /\
    collected <> [] /\
    w' = with_orders (update_first j (apply_update (map normalize_entry collected))) w.
Proof.
  intros H Hstatus.
  destruct (logged_in (session rq)) eqn:Hlog.
  2:{ unfold update_order in H. rewrite Hlog in H.
      apply pair_equal_spec in H as [H _]. injection H as <-. discriminate Hstatus. }
  destruct (find (has_job j) (orders w)) as [order|] eqn:Hfind.
  2:{ unfold update_order in H. rewrite Hlog in H. cbn [negb] in H.
      unfold bind, find_one in H. rewrite Hfind in H.
      apply pair_equal_spec in H as [H _]. injection H as <-. discriminate Hstatus. }
  rewrite (update_order_run j rq w Hlog Hfind) in H.
  destruct (collect_of (payload rq) allowed_fields) as [collected|e]; [|discriminate].
  cbv zeta in H. destruct collected as [|c collected].
  - apply pair_equal_spec in H as [H _]. injection H as <-. discriminate Hstatus.
  - cbn [map is_empty] in H. apply pair_equal_spec in H as [_ <-].
    exists order, (c :: collected). repeat split; auto. discriminate.
Qed.

End Update.

Lemma text_field_not_priority (k : str) :
  In k text_fields -> str_eqb k (u "priority") = false.
Proof.
  unfold text_fields. cbn [In].
  intros [<-|[<-|[<-|[<-|[<-|[<-|[]]]]]]]; vm_compute; reflexivity.
Qed.

Section UpdateProperties.

Context {L : Lib}.


(** The priority an update stores, by whether the payload has the key. *)
Lemma update_priority (m : list (str * json)) (collected : list (str * str)) (order : Order) :
  collect_of (JObj m) allowed_fields = Ok collected ->
  (dict_has m (u "priority") = true ->
   exists s, text_or (dict_get m (u "priority")) [] = Some s /\
             priority (apply_update (map normalize_entry collected) order)
             = priority_or_default (upper (strip s))) /\
  (dict_has m (u "priority") = false ->
   priority (apply_update (map normalize_entry collected) order) = priority order).
Proof.
  change allowed_fields with (u "priority" :: text_fields).
  cbn [collect_of contains_of]. intros H.
  assert (Hrest : forall rest, collect_of (JObj m) text_fields = Ok rest ->
            forall o, priority (apply_update (map normalize_entry rest) o) = priority o).
  { intros rest Hr o. apply apply_update_other_priority.
    apply collect_of_keys in Hr. apply Forall_map.
    eapply Forall_impl; [|exact Hr]. intros e He. cbv beta in *.
    rewrite normalize_entry_key. now apply text_field_not_priority. }
  destruct (dict_has m (u "priority")); split; try discriminate.
  - intros _.
    destruct (text_or (dict_get m (u "priority")) []) as [s|]; [|discriminate].
    destruct (collect_of (JObj m) text_fields) as [rest|] eqn:Hr; [|discriminate].
    injection H as <-. exists s. split; [reflexivity|].
    cbn [map]. unfold apply_update. cbn [fold_left].
    fold (apply_update (map normalize_entry rest)
            (set_field (normalize_entry (u "priority", strip s)) order)).
    rewrite (Hrest rest eq_refl).
    unfold normalize_entry. rewrite str_eqb_refl.
    cbn [set_field priority]. unfold pick_field. rewrite str_eqb_refl.
    rewrite normalize_str_eq, strip_idempotent. reflexivity.
  - intros _. now apply Hrest.
Qed.

End UpdateProperties.


(** C7 as stated fails for a missing or empty priority: on creation the
    payload is refused and nothing is stored, and an update without the key
    keeps the stored priority. *)
Lemma priority_missing_not_defaulted :
  (let run := @create_order Sample.lib 1 SampleUpdate.empty_priority Sample.empty_world in
   Sample.status_of run = Some 400 /\
   Sample.message_of run = Some (u "Eksik alanlar: priority") /\
   orders (snd run) = []) /\
  (let run := @update_order Sample.lib (u "TE-0123") SampleUpdate.name_only
                Sample.open_world in
   Sample.status_of run = Some 200 /\
   map priority (orders Sample.open_world) = [u "YÜKSEK"] /\
   map priority (orders (snd run)) = [u "YÜKSEK"] /\
   u "YÜKSEK" <> u "DÜŞÜK").
Proof.
  vm_compute. repeat split. discriminate.
Qed.

(** ** C8: lookup and validation errors *)

Lemma first_empty_dealer (n p mo s a : str) :
  first_empty [ (u "priority", u "ORTA"); (u "name", n); (u "phone", p);
                (u "model", mo); (u "service", s); (u "address", a); (u "rnu", []) ]
  = if str_empty n then Some (u "name")
    else if str_empty p then Some (u "phone")
    else if str_empty mo then Some (u "model")
    else if str_empty s then Some (u "service")
    else if str_empty a then Some (u "address")
    else None.
Proof.
  destruct n, p, mo, s, a; vm_compute; reflexivity.
Qed.

Section Errors.

Context {L : Lib}.

Lemma missing_order_404 (fuel : nat) (ep : Endpoint) (j : str) (rq : Request) (w : World) :
  order_scoped ep = Some j ->
  logged_in (session rq) = true ->
  find (has_job j) (orders w) = None ->
  view fuel ep rq w = (Ok (json_message 404 (u "İşemri bulunamadı.")), w).
Proof.
  intros Hep Hlog Hfind.
  destruct ep; try discriminate Hep; injection Hep as ->; cbn [view];
    unfold upload_invoice, complete_order, update_order, delete_order, download_photos;
    rewrite Hlog; cbn [negb]; unfold bind, find_one; rewrite Hfind; reflexivity.
Qed.

Lemma create_order_missing_fields (fuel : nat) (rq : Request) (w : World)
    (m : list (str * json)) :
  logged_in (session rq) = true ->
  payload rq = JObj m ->
  (forall f, In f required_fields -> textual (dict_get m f) = true) ->
  (exists f, In f required_fields /\ blank (dict_get m f) = true) ->
  filter (fun f => blank (dict_get m f)) required_fields <> [] /\
  create_order fuel rq w =
  (Ok (json_message 400
         (u "Eksik alanlar: "
          ++ join (u ", ") (filter (fun f => blank (dict_get m f)) required_fields))),
   w).
Proof.
  intros Hlog Hpayload Htext (f & Hin & Hblank).
  assert (Hne : filter (fun f => blank (dict_get m f)) required_fields <> []).
  { intros Hnil. rewrite (filter_nil_false _ _ _ Hnil Hin) in Hblank. discriminate. }
  split; [exact Hne|].
  unfold create_order. rewrite Hlog, Hpayload. cbn [negb].
  unfold bind at 1. unfold attempt at 1.
  unfold create_order_from_payload. unfold bind at 1.
  unfold _build_order_document. unfold bind at 1.
  rewrite missing_fields_obj, (missing_of_textual m required_fields Htext).
  destruct (filter (fun f => blank (dict_get m f)) required_fields); [congruence|].
  reflexivity.
Qed.

Lemma bayi_blank_field (fuel : nat) (rq : Request) (w : World) (k : string) :
  In k dealer_fields ->
  normalize_text (form_get rq (u k)) = [] ->
  exists key,
    bayi_create_order fuel rq w = (Ok (json_message 400 (u "Eksik alan: " ++ key)), w).
Proof.
  intros Hin Hblank.
  unfold bayi_create_order. unfold bind at 1. unfold attempt at 1.
  unfold bind at 1. unfold _create_order_from_bayi.
  rewrite first_empty_dealer.
  assert (Hk : forall k', k = k' -> str_empty (normalize_text (form_get rq (u k'))) = true)
    by (intros k' <-; now rewrite Hblank).
  unfold dealer_fields in Hin. cbn [In] in Hin.
  destruct (str_empty (normalize_text (form_get rq (u "name")))) eqn:En;
    [eexists; reflexivity|].
  destruct (str_empty (normalize_text (form_get rq (u "phone")))) eqn:Ep;
    [eexists; reflexivity|].
  destruct (str_empty (normalize_text (form_get rq (u "model")))) eqn:Em;
    [eexists; reflexivity|].
  destruct (str_empty (if str_empty (normalize_text (form_get rq (u "service")))
                       then u "TV KURULUM"
                       else normalize_text (form_get rq (u "service")))) eqn:Es;
    [eexists; reflexivity|].
  destruct (str_empty (normalize_text (form_get rq (u "address")))) eqn:Ea;
    [eexists; reflexivity|].
  exfalso.
  destruct Hin as [H|[H|[H|[H|[]]]]]; symmetry in H; apply Hk in H; congruence.
Qed.

Lemma bayi_payload (rq : Request) (w : World) :
  (forall k, In k dealer_fields -> normalize_text (form_get rq (u k)) <> []) ->
  exists m,
    _create_order_from_bayi rq w = (Ok (JObj m), w) /\
    dict_get m (u "priority") = JStr (u "ORTA") /\
    dict_get m (u "service") =
      JStr (if str_empty (normalize_text (form_get rq (u "service")))
            then u "TV KURULUM"
            else normalize_text (form_get rq (u "service"))).
Proof.
  intros Hfields.
  assert (Hk : forall k, In k dealer_fields ->
                 str_empty (normalize_text (form_get rq (u k))) = false).
  { intros k Hin. specialize (Hfields k Hin).
    destruct (normalize_text (form_get rq (u k))); [congruence|reflexivity]. }
  unfold _create_order_from_bayi. rewrite first_empty_dealer.
  rewrite (Hk "name"%string), (Hk "phone"%string), (Hk "model"%string),
    (Hk "address"%string) by (unfold dealer_fields; cbn [In]; auto).
  assert (Hs : str_empty (if str_empty (normalize_text (form_get rq (u "service")))
                          then u "TV KURULUM"
                          else normalize_text (form_get rq (u "service"))) = false).
  { destruct (str_empty (normalize_text (form_get rq (u "service")))) eqn:E;
      [reflexivity|exact E]. }
  rewrite Hs. unfold bind. rewrite or_strip_eq.
  destruct (form_get_text rq (u "note") []) as [s ->].
  eexists. split; [reflexivity|].
  generalize (normalize_text (form_get rq (u "name"))),
    (normalize_text (form_get rq (u "phone"))),
    (normalize_text (form_get rq (u "model"))),
    (normalize_text (form_get rq (u "address"))),
    (if str_empty (normalize_text (form_get rq (u "service")))
     then u "TV KURULUM" else normalize_text (form_get rq (u "service"))),
    (strip s).
  intros. vm_compute. split; reflexivity.
Qed.

End Errors.

Section ErrorResponses.

Context {L : Lib}.

(** C8, as the code has it: a logged-in request to an order-scoped
    endpoint whose job number matches no stored order is answered with 404;
    a logged-in [POST /api/orders] whose payload is a dict in which every
    required field is missing, falsy or a string, and one of them is
    missing or blank, inserts nothing and is answered with 400 and the list
    of those fields; the dealer's form answers 400 and inserts nothing when
    name, phone, model or address is blank, while it fixes the priority to
    ['ORTA'] and fills a blank service with ['TV KURULUM']. *)
Theorem lookup_and_validation_errors :
  (forall fuel ep j rq w,
     order_scoped ep = Some j ->
     logged_in (session rq) = true ->
     find (has_job j) (orders w) = None ->
     view fuel ep rq w = (Ok (json_message 404 (u "İşemri bulunamadı.")), w)) /\
  (forall fuel rq w m,
     logged_in (session rq) = true ->
     payload rq = JObj m ->
     (forall f, In f required_fields -> textual (dict_get m f) = true) ->
     (exists f, In f required_fields /\ blank (dict_get m f) = true) ->
     exists missing,
       missing = filter (fun f => blank (dict_get m f)) required_fields /\
       missing <> [] /\
       create_order fuel rq w =
       (Ok (json_message 400 (u "Eksik alanlar: " ++ join (u ", ") missing)), w)) /\
  (forall fuel rq w k,
     In k dealer_fields ->
     normalize_text (form_get rq (u k)) = [] ->
     exists key,
       bayi_create_order fuel rq w
       = (Ok (json_message 400 (u "Eksik alan: " ++ key)), w)) /\
  (forall rq w,
     (forall k, In k dealer_fields -> normalize_text (form_get rq (u k)) <> []) ->
     exists m,
       _create_order_from_bayi rq w = (Ok (JObj m), w) /\
       dict_get m (u "priority") = JStr (u "ORTA") /\
       dict_get m (u "service") =
         JStr (if str_empty (normalize_text (form_get rq (u "service")))
               then u "TV KURULUM"
               else normalize_text (form_get rq (u "service")))).
Proof.
  split; [|split; [|split]].
  - intros fuel ep j rq w Hep Hlog Hfind. now apply missing_order_404 with (j := j).
  - intros fuel rq w m Hlog Hpayload Htext Hblank.
    destruct (create_order_missing_fields fuel rq w Hlog Hpayload Htext Hblank)
      as [Hne Hrun].
    eexists. split; [reflexivity|]. split; [exact Hne|exact Hrun].
  - intros fuel rq w k Hin Hblank. now apply bayi_blank_field with (k := k).
  - intros rq w Hfields. now apply bayi_payload.
Qed.

End ErrorResponses.

Lemma lookup_and_validation_errors_witness :
  (order_scoped (delete_order_ep (u "TE-9999")) = Some (u "TE-9999") /\
   logged_in (session SampleErrors.unknown_order) = true /\
   find (has_job (u "TE-9999")) (orders Sample.open_world) = None /\
   @view Sample.lib 0 (delete_order_ep (u "TE-9999")) SampleErrors.unknown_order
     Sample.open_world
   = (Ok (json_message 404 (u "İşemri bulunamadı.")), Sample.open_world)) /\
  (exists m,
     logged_in (session SampleUpdate.empty_priority) = true /\
     payload SampleUpdate.empty_priority = JObj m /\
     (forall f, In f required_fields -> textual (dict_get m f) = true) /\
     (exists f, In f required_fields /\ blank (dict_get m f) = true) /\
     exists missing,
       missing = filter (fun f => blank (dict_get m f)) required_fields /\
       missing <> [] /\
       @create_order Sample.lib 1 SampleUpdate.empty_priority Sample.empty_world =
       (Ok (json_message 400 (u "Eksik alanlar: " ++ join (u ", ") missing)),
        Sample.empty_world)) /\
  (In "name"%string dealer_fields /\
   @normalize_text Sample.lib (form_get SampleErrors.nameless (u "name")) = [] /\
   exists key,
     @bayi_create_order Sample.lib 1 SampleErrors.nameless Sample.empty_world
     = (Ok (json_message 400 (u "Eksik alan: " ++ key)), Sample.empty_world)) /\
  ((forall k, In k dealer_fields ->
      @normalize_text Sample.lib (form_get SampleDealer.request (u k)) <> []) /\
   exists m,
     @_create_order_from_bayi Sample.lib SampleDealer.request Sample.empty_world
     = (Ok (JObj m), Sample.empty_world) /\
     dict_get m (u "priority") = JStr (u "ORTA") /\
     dict_get m (u "service") =
       JStr (if str_empty (@normalize_text Sample.lib
                             (form_get SampleDealer.request (u "service")))
             then u "TV KURULUM"
             else @normalize_text Sample.lib
                    (form_get SampleDealer.request (u "service")))).
Proof.
  pose proof (@lookup_and_validation_errors Sample.lib) as (H404 & Hcreate & Hblank & Hdealer).
  split; [|split; [|split]].
  - assert (H1 : order_scoped (delete_order_ep (u "TE-9999")) = Some (u "TE-9999"))
      by reflexivity.
    assert (H2 : logged_in (session SampleErrors.unknown_order) = true) by reflexivity.
    assert (H3 : find (has_job (u "TE-9999")) (orders Sample.open_world) = None)
      by (vm_compute; reflexivity).
    split; [exact H1|]. split; [exact H2|]. split; [exact H3|].
    exact (H404 0%nat _ _ _ _ H1 H2 H3).
  - assert (Hp : exists m, payload SampleUpdate.empty_priority = JObj m)
      by (eexists; reflexivity).
    destruct Hp as [m Hp].
    assert (H1 : logged_in (session SampleUpdate.empty_priority) = true) by reflexivity.
    assert (H3 : forall f, In f required_fields -> textual (dict_get m f) = true).
    { injection Hp as <-. unfold required_fields. cbn [In].
      intros f [<-|[<-|[<-|[<-|[<-|[<-|[]]]]]]]; vm_compute; reflexivity. }
    assert (H4 : exists f, In f required_fields /\ blank (dict_get m f) = true).
    { injection Hp as <-. exists (u "priority"). split; [now left|].
      vm_compute. reflexivity. }
    exists m. split; [exact H1|]. split; [exact Hp|]. split; [exact H3|].
    split; [exact H4|].
    exact (Hcreate 1%nat _ Sample.empty_world m H1 Hp H3 H4).
  - assert (H1 : In "name"%string dealer_fields) by (now left).
    assert (H2 : @normalize_text Sample.lib (form_get SampleErrors.nameless (u "name")) = [])
      by (vm_compute; reflexivity).
    split; [exact H1|]. split; [exact H2|].
    exact (Hblank 1%nat _ Sample.empty_world _ H1 H2).
  - assert (H1 : forall k, In k dealer_fields ->
                   @normalize_text Sample.lib (form_get SampleDealer.request (u k)) <> []).
    { unfold dealer_fields. cbn [In].
      intros k [<-|[<-|[<-|[<-|[]]]]]; vm_compute; discriminate. }
    split; [exact H1|].
    exact (Hdealer _ Sample.empty_world H1).
Defined.

(** C8 as stated fails on the dealer's form: without a service the order
    is inserted, with the default service. *)
Lemma dealer_blank_service_accepted :
  let run := @bayi_create_order Sample.lib 1 SampleErrors.no_service Sample.empty_world in
  form_get SampleErrors.no_service (u "service") = JNull /\
  orders Sample.empty_world = [] /\
  Sample.status_of run = Some 200 /\
  map service (orders (snd run)) = [u "TV KURULUM"].
Proof.
  vm_compute. repeat split.
Qed.

(** ** Values that are not strings

    [(v or '').strip()] raises [AttributeError] on a truthy value that is
    not a string.  [create_order] catches it and answers 500, also when
    another required field is missing; [update_order] does not catch it, and
    the client gets the 500 page.  Neither changes the store. *)

Lemma numeric_priority_500 :
  let run := @create_order Sample.lib 1 SampleErrors.numeric_priority Sample.empty_world in
  Sample.status_of run = Some 500 /\
  Sample.message_of run = Some (u "Kayıt kaydedilemedi.") /\
  orders (snd run) = [].
Proof.
  vm_compute. repeat split.
Qed.

Lemma numeric_name_500 :
  let run := serve (@update_order Sample.lib (u "TE-0123") SampleErrors.numeric_name)
               Sample.open_world in
  fst run = Some {| status := 500; body := ServerError |} /\
  orders (snd run) = orders Sample.open_world.
Proof.
  vm_compute. repeat split.
Qed.

(** ** Relations that a computation keeps *)

From Stdlib Require Import RelationClasses.

Lemma keeps_ret {A} (P : World -> World -> Prop) `{!Reflexive P} (a : A) :
  keeps P (ret a).
Proof. intros w r w' H. injection H as _ <-. reflexivity. Qed.

Lemma keeps_raise {A} (P : World -> World -> Prop) `{!Reflexive P} (e : exn) :
  keeps P (@raise A e).
Proof. intros w r w' H. injection H as _ <-. reflexivity. Qed.

Lemma keeps_bind {A B} (P : World -> World -> Prop) `{!Transitive P}
    (m : M A) (k : A -> M B) :
  keeps P m -> (forall a, keeps P (k a)) -> keeps P (bind m k).
Proof.
  intros Hm Hk w r w' H. unfold bind in H.
  destruct (m w) as [[a|e] w1] eqn:E.
  - transitivity w1; [exact (Hm _ _ _ E)|exact (Hk a _ _ _ H)].
  - injection H as _ <-. exact (Hm _ _ _ E).
Qed.

Lemma keeps_attempt {A} (P : World -> World -> Prop) (m : M A) :
  keeps P m -> keeps P (attempt m).
Proof.
  intros Hm w r w' H. unfold attempt in H.
  destruct (m w) as [x w1] eqn:E. injection H as _ <-. exact (Hm _ _ _ E).
Qed.

Lemma keeps_weaken {A} (P Q : World -> World -> Prop) (m : M A) :
  (forall w w', P w w' -> Q w w') -> keeps P m -> keeps Q m.
Proof. intros HPQ Hm w r w' H. apply HPQ. exact (Hm _ _ _ H). Qed.

#[export] Instance unchanged_refl : Reflexive unchanged.
Proof. intros w. reflexivity. Qed.

#[export] Instance unchanged_trans : Transitive unchanged.
Proof. intros a b c H1 H2. unfold unchanged in *. congruence. Qed.

#[export] Instance same_store_refl : Reflexive same_store.
Proof. intros w. split; reflexivity. Qed.

#[export] Instance same_store_trans : Transitive same_store.
Proof. intros a b c [H1 H2] [H3 H4]. split; congruence. Qed.

#[export] Instance same_data_refl : Reflexive same_data.
Proof. intros w. repeat split; reflexivity. Qed.

#[export] Instance same_data_trans : Transitive same_data.
Proof.
  intros a b c (H1 & H2 & H3 & H4) (H5 & H6 & H7 & H8). repeat split; congruence.
Qed.

#[export] Instance unique_job_nos_kept_refl : Reflexive unique_job_nos_kept.
Proof. intros w H. exact H. Qed.

#[export] Instance unique_job_nos_kept_trans : Transitive unique_job_nos_kept.
Proof. intros a b c H1 H2 H. apply H2, H1, H. Qed.

#[export] Instance technicians_kept_refl : Reflexive technicians_kept.
Proof. intros w. split; auto. Qed.

#[export] Instance technicians_kept_trans : Transitive technicians_kept.
Proof. intros a b c [H1 H2] [H3 H4]. split; auto. Qed.

Lemma unchanged_same_data (w w' : World) : unchanged w w' -> same_data w w'.
Proof. intros ->. reflexivity. Qed.

Lemma same_data_same_store (w w' : World) : same_data w w' -> same_store w w'.
Proof. intros (H1 & H2 & _). split; assumption. Qed.

Lemma same_store_unique (w w' : World) : same_store w w' -> unique_job_nos_kept w w'.
Proof. intros [H _] Hn. unfold job_nos in *. now rewrite H. Qed.

Lemma same_store_technicians (w w' : World) : same_store w w' -> technicians_kept w w'.
Proof.
  intros [_ H]. unfold technicians_kept, usernames, has_admin_user. rewrite H. auto.
Qed.

(** *** The primitives *)

Lemma keeps_find_one (j : str) : keeps unchanged (find_one j).
Proof. intros w r w' H. injection H as _ <-. reflexivity. Qed.

Lemma keeps_find_sorted : keeps unchanged find_sorted.
Proof. intros w r w' H. injection H as _ <-. reflexivity. Qed.

Lemma keeps_file_exists (d : Dir) (n : str) : keeps unchanged (file_exists d n).
Proof. intros w r w' H. injection H as _ <-. reflexivity. Qed.

Lemma keeps_now : keeps same_data now.
Proof. intros w r w' H. injection H as _ <-. repeat split. Qed.

Lemma keeps_choice (population : str) : keeps same_data (choice population).
Proof. intros w r w' H. injection H as _ <-. repeat split. Qed.

Lemma keeps_choices (population : str) (k : nat) : keeps same_data (choices population k).
Proof.
  induction k as [|k IH]; cbn [choices].
  - apply keeps_ret; typeclasses eauto.
  - apply keeps_bind; [typeclasses eauto|apply keeps_choice|]. intros c.
    apply keeps_bind; [typeclasses eauto|exact IH|]. intros rest.
    apply keeps_ret; typeclasses eauto.
Qed.

Lemma keeps_save (d : Dir) (n : str) : keeps same_store (save d n).
Proof.
  intros w r w' H. unfold save in H.
  destruct (disk w (disk_pos w)); injection H as _ <-; split; reflexivity.
Qed.

Lemma keeps_unlink_if_exists (d : Dir) (n : str) :
  keeps same_store (unlink_if_exists d n).
Proof.
  intros w r w' H.
  destruct (unlink_if_exists_eq d n w) as (w1 & E & Ho & Ht & _).
  rewrite E in H. injection H as _ <-. split; assumption.
Qed.

Lemma keeps_unlink_logged (d : Dir) (n : str) :
  keeps same_store (unlink_logged d n).
Proof.
  intros w r w' H.
  destruct (unlink_logged_world d n w) as (w1 & removed & E & Ho & Ht & _).
  rewrite E in H. injection H as _ <-. split; assumption.
Qed.

Lemma keeps_or_strip (v : json) (d : str) : keeps unchanged (or_strip v d).
Proof.
  intros w r w' H. rewrite or_strip_eq in H. injection H as _ <-. reflexivity.
Qed.

Lemma keeps_data_get (data : json) (k : str) : keeps unchanged (data_get data k).
Proof.
  intros w r w' H. destruct data; injection H as _ <-; reflexivity.
Qed.

#[export] Instance invariants_kept_refl : Reflexive invariants_kept.
Proof. intros w. split; reflexivity. Qed.

#[export] Instance invariants_kept_trans : Transitive invariants_kept.
Proof. intros a b c [H1 H2] [H3 H4]. split; etransitivity; eassumption. Qed.

Lemma same_store_invariants (w w' : World) : same_store w w' -> invariants_kept w w'.
Proof.
  intros H. split; [now apply same_store_unique|now apply same_store_technicians].
Qed.

Lemma keeps_invariants_of_unchanged {A} (m : M A) :
  keeps unchanged m -> keeps invariants_kept m.
Proof.
  apply keeps_weaken. intros w w' H.
  now apply same_store_invariants, same_data_same_store, unchanged_same_data.
Qed.

Lemma keeps_invariants_of_same_data {A} (m : M A) :
  keeps same_data m -> keeps invariants_kept m.
Proof.
  apply keeps_weaken. intros w w' H.
  now apply same_store_invariants, same_data_same_store.
Qed.

Lemma keeps_invariants_of_same_store {A} (m : M A) :
  keeps same_store m -> keeps invariants_kept m.
Proof. apply keeps_weaken. exact same_store_invariants. Qed.

(** *** The store operations *)

Lemma delete_first_incl (j : str) (l : list Order) (o : Order) :
  In o (delete_first j l) -> In o l.
Proof.
  induction l as [|x l IH]; [intros []|]. simpl.
  destruct (has_job j x); [now right|].
  intros [<-|H]; [now left|right; now apply IH].
Qed.

Lemma NoDup_delete_first (j : str) (l : list Order) :
  NoDup (map job_no l) -> NoDup (map job_no (delete_first j l)).
Proof.
  induction l as [|x l IH]; [auto|]. simpl. intros H.
  inversion H as [|? ? Hx Hl]; subst.
  destruct (has_job j x); [exact Hl|].
  simpl. constructor; [|now apply IH].
  intros Hin. apply Hx. apply in_map_iff in Hin as (o & <- & Ho).
  apply in_map. now apply delete_first_incl with (j := j).
Qed.

Lemma NoDup_snoc {A} (l : list A) (x : A) : NoDup l -> ~ In x l -> NoDup (l ++ [x]).
Proof.
  intros Hl Hx. induction Hl as [|y l Hy Hl IH]; simpl.
  - constructor; [intros []|constructor].
  - constructor.
    + intros Hin. apply in_app_or in Hin as [Hin|[->|[]]]; [contradiction|].
      apply Hx. now left.
    + apply IH. intros Hin. apply Hx. now right.
Qed.

Lemma existsb_false_not_in {A} (p : A -> bool) (l : list A) (x : A) :
  existsb p l = false -> In x l -> p x = false.
Proof.
  intros H Hin. destruct (p x) eqn:E; [|reflexivity].
  assert (Ht : existsb p l = true) by (apply existsb_exists; eauto). congruence.
Qed.

Lemma keeps_update_one (j : str) (f : Order -> Order) :
  (forall o, job_no (f o) = job_no o) -> keeps invariants_kept (update_one j f).
Proof.
  intros Hf w r w' H. injection H as _ <-. split.
  - intros Hn. unfold job_nos in *. cbn [orders with_orders].
    now rewrite update_first_job_nos.
  - split; auto.
Qed.

Lemma keeps_insert_one (doc : Order) : keeps invariants_kept (insert_one doc).
Proof.
  intros w r w' H. unfold insert_one in H.
  destruct (existsb (has_job (job_no doc)) (orders w)) eqn:E;
    injection H as _ <-; [reflexivity|].
  split; [|split; auto].
  intros Hn. unfold job_nos in *. cbn [orders with_orders].
  rewrite map_app. apply NoDup_snoc; [exact Hn|].
  intros Hin. apply in_map_iff in Hin as (o & Ho & Hin).
  pose proof (existsb_false_not_in _ _ _ E Hin) as Hfalse.
  unfold has_job in Hfalse. rewrite Ho, str_eqb_refl in Hfalse. discriminate.
Qed.

Lemma keeps_delete_one (j : str) : keeps invariants_kept (delete_one j).
Proof.
  intros w r w' H. injection H as _ <-. split; [|split; auto].
  intros Hn. unfold job_nos in *. cbn [orders with_orders].
  now apply NoDup_delete_first.
Qed.

Lemma keeps_insert_technician (t : Technician) :
  keeps invariants_kept (insert_technician t).
Proof.
  intros w r w' H. unfold insert_technician in H.
  destruct (existsb _ (technicians w)) eqn:E; injection H as _ <-; [reflexivity|].
  split; [intros Hn; exact Hn|]. split.
  - intros Hn. unfold usernames in *. cbn [technicians with_technicians].
    rewrite map_app. apply NoDup_snoc; [exact Hn|].
    intros Hin. apply in_map_iff in Hin as (x & Hx & Hin).
    pose proof (existsb_false_not_in _ _ _ E Hin) as Hfalse.
    cbv beta in Hfalse. rewrite Hx, str_eqb_refl in Hfalse. discriminate.
  - unfold has_admin_user. cbn [technicians with_technicians].
    rewrite existsb_app. intros ->. reflexivity.
Qed.

Create HintDb keeps_unchanged.
Create HintDb keeps_same_data.
Create HintDb keeps_same_store.

#[export] Hint Resolve keeps_find_one keeps_find_sorted keeps_file_exists
  keeps_or_strip keeps_data_get : keeps_unchanged.
#[export] Hint Resolve keeps_now keeps_choice keeps_choices : keeps_same_data.
#[export] Hint Resolve keeps_save keeps_unlink_if_exists keeps_unlink_logged
  : keeps_same_store.

(** One step through a handler: the monad's operations, a case analysis,
    or a primitive. *)
Ltac keeps_primitive :=
  first
    [ apply keeps_invariants_of_unchanged; solve [auto with keeps_unchanged]
    | apply keeps_invariants_of_same_data; solve [auto with keeps_same_data]
    | apply keeps_invariants_of_same_store; solve [auto with keeps_same_store]
    | apply keeps_insert_one
    | apply keeps_delete_one
    | apply keeps_insert_technician ].

Ltac keeps_step :=
  lazymatch goal with
  | |- keeps _ (ret _) => apply keeps_ret; typeclasses eauto
  | |- keeps _ (raise _) => apply keeps_raise; typeclasses eauto
  | |- keeps _ (attempt _) => apply keeps_attempt
  | |- keeps _ (bind _ _) => apply keeps_bind; [typeclasses eauto| |intros ?]
  | |- keeps _ (match ?x with _ => _ end) => destruct x
  | |- keeps _ (let _ := _ in _) => cbv zeta
  end.

Ltac keeps_auto := repeat first [keeps_step | keeps_primitive | assumption].

(** *** The handlers *)

Section HandlersKeep.

Context {L : Lib}.

Lemma keeps_format_found (found : option Order) : keeps unchanged (format_found found).
Proof. destruct found; cbn; [apply keeps_ret|apply keeps_raise]; typeclasses eauto. Qed.

Lemma keeps_missing_fields (data : json) (fields : list str) :
  keeps unchanged (missing_fields data fields).
Proof.
  induction fields as [|f fields IH]; cbn [missing_fields].
  - apply keeps_ret; typeclasses eauto.
  - repeat first [keeps_step | solve [auto with keeps_unchanged] | exact IH].
Qed.

Lemma keeps_data_contains (data : json) (k : str) : keeps unchanged (data_contains data k).
Proof. intros w r w' H. destruct data; injection H as _ <-; reflexivity. Qed.

Lemma keeps_collect_fields (data : json) (keys : list str) :
  keeps unchanged (collect_fields data keys).
Proof.
  induction keys as [|k keys IH]; cbn [collect_fields].
  - apply keeps_ret; typeclasses eauto.
  - apply keeps_bind; [typeclasses eauto|apply keeps_data_contains|]. intros [|].
    + repeat first [keeps_step | solve [auto with keeps_unchanged] | exact IH].
    + exact IH.
Qed.

Lemma keeps_generate_job_no (fuel : nat) : keeps same_data (generate_job_no fuel).
Proof.
  induction fuel as [|fuel IH]; cbn [generate_job_no].
  - apply keeps_raise; typeclasses eauto.
  - apply keeps_bind; [typeclasses eauto|apply keeps_choices|]. intros suffix. cbv zeta.
    apply keeps_bind; [typeclasses eauto| |].
    + eapply keeps_weaken; [exact unchanged_same_data|apply keeps_find_one].
    + intros [o|]; [exact IH|apply keeps_ret; typeclasses eauto].
Qed.

Lemma keeps_zip_members (l : list FileEntry) : keeps unchanged (zip_members l).
Proof.
  induction l as [|photo l IH]; cbn [zip_members].
  - apply keeps_ret; typeclasses eauto.
  - repeat first [keeps_step | solve [auto with keeps_unchanged] | exact IH].
Qed.

Lemma keeps_remove_saved (l : list FileEntry) : keeps same_store (remove_saved l).
Proof.
  induction l as [|e l IH]; cbn [remove_saved].
  - apply keeps_ret; typeclasses eauto.
  - apply keeps_bind; [typeclasses eauto|apply keeps_unlink_if_exists|]. intros _. exact IH.
Qed.

Lemma keeps_remove_photos (l : list FileEntry) : keeps same_store (remove_photos l).
Proof.
  induction l as [|e l IH]; cbn [remove_photos].
  - apply keeps_ret; typeclasses eauto.
  - apply keeps_bind; [typeclasses eauto| |intros _; exact IH].
    destruct (str_empty (stored_name e));
      [apply keeps_ret; typeclasses eauto|apply keeps_unlink_logged].
Qed.

Lemma keeps__save_photo (j : str) (f : FileStorage) : keeps same_store (_save_photo j f).
Proof.
  unfold _save_photo.
  destruct (str_empty (secure_filename (filename f)));
    [apply keeps_raise; typeclasses eauto|].
  apply keeps_bind; [typeclasses eauto| |intros t].
  { eapply keeps_weaken; [exact same_data_same_store|apply keeps_now]. }
  apply keeps_bind; [typeclasses eauto| |intros rp].
  { eapply keeps_weaken; [exact same_data_same_store|apply keeps_choices]. }
  cbv zeta.
  apply keeps_bind; [typeclasses eauto|apply keeps_save|intros _].
  apply keeps_bind; [typeclasses eauto| |intros t2; apply keeps_ret; typeclasses eauto].
  eapply keeps_weaken; [exact same_data_same_store|apply keeps_now].
Qed.

Lemma keeps_save_photos (j : str) (files : list FileStorage) (saved : list FileEntry) :
  keeps same_store (save_photos j files saved).
Proof.
  revert saved. induction files as [|f files IH]; intros saved; cbn [save_photos].
  - apply keeps_ret; typeclasses eauto.
  - destruct (has_filename (Some f)); [|apply IH].
    apply keeps_bind; [typeclasses eauto| |].
    + apply keeps_attempt, keeps__save_photo.
    + intros [entry|[]]; try (apply keeps_ret; typeclasses eauto);
        try (apply keeps_raise; typeclasses eauto). apply IH.
Qed.

End HandlersKeep.

#[export] Hint Resolve keeps_format_found keeps_missing_fields keeps_data_contains
  keeps_collect_fields keeps_zip_members : keeps_unchanged.
#[export] Hint Resolve keeps_generate_job_no : keeps_same_data.
#[export] Hint Resolve keeps_remove_saved keeps_remove_photos keeps__save_photo
  keeps_save_photos : keeps_same_store.

Ltac keeps_update :=
  apply keeps_update_one; intros ?;
  first [reflexivity | apply apply_update_frame].

Ltac keeps_handler := repeat first [keeps_step | keeps_primitive | keeps_update].

Section ViewsKeep.

Context {L : Lib}.

Lemma keeps__build_order_document (fuel : nat) (data : json) :
  keeps invariants_kept (_build_order_document fuel data).
Proof. unfold _build_order_document. keeps_handler. Qed.

Lemma keeps_create_order_from_payload (fuel : nat) (data : json) :
  keeps invariants_kept (create_order_from_payload fuel data).
Proof.
  unfold create_order_from_payload.
  apply keeps_bind; [typeclasses eauto|apply keeps__build_order_document|intros doc].
  keeps_handler.
Qed.

Lemma keeps__store_invoice (j : str) (f : option FileStorage) :
  keeps invariants_kept (_store_invoice j f).
Proof. unfold _store_invoice. keeps_handler. Qed.

Lemma keeps__create_order_from_bayi (rq : Request) :
  keeps invariants_kept (_create_order_from_bayi rq).
Proof. unfold _create_order_from_bayi. keeps_handler. Qed.

(** Whatever the endpoint, the request and the outcome, a handler keeps
    the invariants of the store. *)
Lemma keeps_view (fuel : nat) (ep : Endpoint) (rq : Request) :
  keeps invariants_kept (view fuel ep rq).
Proof.
  destruct ep; cbn [view].
  - unfold list_orders. keeps_handler.
  - unfold create_order.
    destruct (negb (logged_in (session rq))); [apply keeps_ret; typeclasses eauto|].
    cbv zeta. apply keeps_bind; [typeclasses eauto| |intros r; keeps_handler].
    apply keeps_attempt, keeps_create_order_from_payload.
  - unfold upload_invoice.
    destruct (negb (logged_in (session rq))); [apply keeps_ret; typeclasses eauto|].
    apply keeps_bind; [typeclasses eauto|keeps_primitive|intros [o|]]; [|keeps_handler].
    destruct (files_get rq (u "invoice")); [|keeps_handler].
    apply keeps_bind; [typeclasses eauto| |intros r; keeps_handler].
    apply keeps_attempt, keeps__store_invoice.
  - unfold complete_order. keeps_handler.
  - unfold update_order. keeps_handler.
  - unfold delete_order. keeps_handler.
  - unfold create_technician. keeps_handler.
  - unfold download_photos. keeps_handler.
  - unfold upload_invoice_form.
    destruct (token_to_job_no token) as [j|]; [|keeps_handler].
    apply keeps_bind; [typeclasses eauto|keeps_primitive|intros [o|]]; [|keeps_handler].
    destruct (method rq); try solve [keeps_handler].
    apply keeps_bind; [typeclasses eauto| |intros r; keeps_handler].
    apply keeps_attempt, keeps__store_invoice.
  - unfold bayi_create_order.
    apply keeps_bind; [typeclasses eauto| |intros r; keeps_handler].
    apply keeps_attempt.
    apply keeps_bind; [typeclasses eauto|apply keeps__create_order_from_bayi|intros data].
    cbv zeta. destruct (negb (has_filename (files_get rq (u "invoice"))));
      [apply keeps_ret; typeclasses eauto|].
    apply keeps_bind;
      [typeclasses eauto|apply keeps_create_order_from_payload|intros created].
    apply keeps_bind; [typeclasses eauto|apply keeps__store_invoice|intros updated].
    keeps_handler.
Qed.

End ViewsKeep.

(** ** Invariants of the store across requests *)

Section StoreInvariants.

Context {L : Lib}.

Lemma keeps_handle_request (fuel : nat) (ep : Endpoint) (rq : Request) :
  keeps invariants_kept (handle_request fuel ep rq).
Proof.
  unfold handle_request.
  apply keeps_bind; [typeclasses eauto| |intros [response|]].
  - intros w r w' H. unfold enforce_initial_setup in H.
    destruct (has_admin_user w); injection H as _ <-; reflexivity.
  - apply keeps_ret; typeclasses eauto.
  - apply keeps_view.
Qed.

(** X1: job numbers stay unique.  Whatever the endpoint, the request and
    the outcome (an answer or an exception), a request that starts in a
    store whose job numbers are pairwise distinct leaves one. *)
Theorem job_numbers_stay_unique (fuel : nat) (ep : Endpoint) (rq : Request)
    (w w' : World) (r : result Response) :
  handle_request fuel ep rq w = (r, w') ->
  NoDup (job_nos w) ->
  NoDup (job_nos w').
Proof.
  intros H Hn. pose proof (keeps_handle_request fuel ep rq) as K.
  destruct (K _ _ _ H) as [Hu _].
  exact (Hu Hn).
Qed.


End StoreInvariants.

Lemma job_numbers_stay_unique_witness :
  exists r w',
    @handle_request Sample.lib 2 create_order_ep SampleCreation.request Sample.open_world
      = (r, w') /\
    NoDup (job_nos Sample.open_world) /\
    job_nos w' = [u "TE-0123"; u "TE-4567"] /\
    NoDup (job_nos w').
Proof.
  destruct (@handle_request Sample.lib 2 create_order_ep SampleCreation.request
              Sample.open_world) as [r w'] eqn:E.
  exists r, w'.
  assert (Hn : NoDup (job_nos Sample.open_world)).
  { vm_compute. constructor; [intros []|constructor]. }
  split; [reflexivity|]. split; [exact Hn|].
  split.
  - assert (Hj : job_nos (snd (@handle_request Sample.lib 2 create_order_ep
                                SampleCreation.request Sample.open_world))
                 = [u "TE-0123"; u "TE-4567"]) by (vm_compute; reflexivity).
    rewrite E in Hj. exact Hj.
  - exact (@job_numbers_stay_unique Sample.lib 2 create_order_ep SampleCreation.request
             Sample.open_world w' r E Hn).
Defined.


(** ** Endpoints that only read *)

Ltac keeps_read := repeat first [keeps_step | solve [auto with keeps_unchanged]].

Section ReadOnly.

Context {L : Lib}.

(** X3: the order list, the photo archive and the invoice form opened
    with a method other than POST change nothing in the world, whatever
    the request and the outcome. *)
Theorem reading_changes_nothing (fuel : nat) (ep : Endpoint) (rq : Request)
    (w w' : World) (r : result Response) :
  reads_only ep rq = true ->
  view fuel ep rq w = (r, w') ->
  w' = w.
Proof.
  intros Hro H.
  assert (K : keeps unchanged (view fuel ep rq)).
  { destruct ep; try discriminate Hro; cbn [view].
    - unfold list_orders. keeps_read.
    - unfold download_photos. keeps_read.
    - unfold upload_invoice_form. cbn [reads_only] in Hro.
      destruct (method rq); try discriminate Hro; keeps_read. }
  exact (K _ _ _ H).
Qed.

Lemma zip_members_eq (l : list FileEntry) (w : World) :
  zip_members l w =
  (Ok (map member_name
         (filter (fun photo => dir_has (stored_name photo) (photos_dir w)) l)), w).
Proof.
  induction l as [|photo l IH]; [reflexivity|].
  cbn [zip_members filter]. unfold bind at 1. unfold file_exists at 1.
  unfold bind at 1. rewrite IH. cbn [dir_of].
  destruct (dir_has (stored_name photo) (photos_dir w)); reflexivity.
Qed.

(** X4: the photo archive.  For a logged-in request on an existing order
    the answer is 404 when no photo of the order names a stored file, and
    otherwise 200 with the archive [<job_no>-RESIMLER.zip] that holds one
    member for each such photo whose file is in the photos directory; no
    member has an empty name. *)
Theorem photo_archive (j : str) (rq : Request) (w : World) (order : Order) :
  logged_in (session rq) = true ->
  find (has_job j) (orders w) = Some order ->
  (filter has_stored_name (photos order) = [] ->
   download_photos j rq w =
   (Ok (json_message 404 (u "Kaydedilmiş fotoğraf bulunamadı.")), w)) /\
  (filter has_stored_name (photos order) <> [] ->
   download_photos j rq w =
   (Ok {| status := 200;
          body := ZipFile (j ++ u "-RESIMLER.zip") (archive_members order w) |}, w)) /\
  Forall (fun n => n <> []) (archive_members order w).
Proof.
  intros Hlog Hfind.
  assert (Hrun : download_photos j rq w =
    (if is_empty (filter has_stored_name (photos order))
     then (Ok (json_message 404 (u "Kaydedilmiş fotoğraf bulunamadı.")), w)
     else (Ok {| status := 200;
                 body := ZipFile (j ++ u "-RESIMLER.zip") (archive_members order w) |},
           w))).
  { unfold download_photos. rewrite Hlog. cbn [negb].
    unfold bind at 1. unfold find_one at 1. rewrite Hfind. cbv zeta.
    fold has_stored_name.
    destruct (is_empty (filter has_stored_name (photos order))); [reflexivity|].
    unfold bind. rewrite zip_members_eq. reflexivity. }
  split; [|split].
  - intros E. rewrite Hrun, E. reflexivity.
  - intros E. rewrite Hrun.
    destruct (filter has_stored_name (photos order)); [congruence|reflexivity].
  - unfold archive_members. apply Forall_map. apply Forall_forall.
    intros photo Hin. apply filter_In in Hin as [Hin _].
    apply filter_In in Hin as [_ Hname]. unfold has_stored_name in Hname.
    unfold member_name. cbv zeta.
    destruct (str_empty (secure_filename _)) eqn:E.
    + destruct (stored_name photo); [discriminate|discriminate].
    + destruct (secure_filename _); [discriminate|discriminate].
Qed.

End ReadOnly.

Lemma reading_changes_nothing_witness :
  let rq := Sample.json_request Sample.technician GET JNull in
  exists r w',
    reads_only list_orders_ep rq = true /\
    @view Sample.lib 0 list_orders_ep rq Sample.completed_world = (r, w') /\
    Sample.status_of (r, w') = Some 200 /\
    w' = Sample.completed_world.
Proof.
  intros rq.
  destruct (@view Sample.lib 0 list_orders_ep rq Sample.completed_world) as [r w'] eqn:E.
  assert (H1 : reads_only list_orders_ep rq = true) by reflexivity.
  exists r, w'. split; [exact H1|]. split; [reflexivity|].
  split.
  - assert (Hs : Sample.status_of (fst (@view Sample.lib 0 list_orders_ep rq
                                          Sample.completed_world), w') = Some 200)
      by (vm_compute; reflexivity).
    rewrite E in Hs. exact Hs.
  - exact (@reading_changes_nothing Sample.lib 0 list_orders_ep rq
             Sample.completed_world w' r H1 E).
Defined.

Lemma photo_archive_witness :
  let rq := Sample.json_request Sample.technician GET JNull in
  logged_in (session rq) = true /\
  find (has_job (u "TE-0123")) (orders Sample.completed_world)
    = Some Sample.completed_order /\
  filter has_stored_name (photos Sample.completed_order) <> [] /\
  @archive_members Sample.lib Sample.completed_order Sample.completed_world
    = [u "on.jpg"] /\
  @download_photos Sample.lib (u "TE-0123") rq Sample.completed_world =
  (Ok {| status := 200;
         body := ZipFile (u "TE-0123" ++ u "-RESIMLER.zip")
                   (@archive_members Sample.lib Sample.completed_order
                      Sample.completed_world) |},
   Sample.completed_world) /\
  Forall (fun n => n <> [])
    (@archive_members Sample.lib Sample.completed_order Sample.completed_world).
Proof.
  intros rq.
  assert (H1 : logged_in (session rq) = true) by reflexivity.
  assert (H2 : find (has_job (u "TE-0123")) (orders Sample.completed_world)
               = Some Sample.completed_order) by (vm_compute; reflexivity).
  assert (H3 : filter has_stored_name (photos Sample.completed_order) <> [])
    by (vm_compute; discriminate).
  destruct (@photo_archive Sample.lib (u "TE-0123") rq Sample.completed_world
              Sample.completed_order H1 H2) as (_ & Hzip & Hnames).
  split; [exact H1|]. split; [exact H2|]. split; [exact H3|].
  split; [vm_compute; reflexivity|]. split; [exact (Hzip H3)|exact Hnames].
Defined.

(** ** The short link *)

Section ShortLink.

Context {L : Lib}.

Lemma token_to_job_no_eq (t : str) :
  token_to_job_no t =
  match normalize_text (JStr t) with
  | p1 :: p2 :: c :: rest => Some (p1 :: p2 :: 45%N :: c :: rest)
  | _ => None
  end.
Proof.
  unfold token_to_job_no. destruct t as [|a t]; [reflexivity|].
  cbn [str_empty].
  destruct (normalize_text (JStr (a :: t))) as [|p1 [|p2 [|c rest]]]; reflexivity.
Qed.

(** X5: decoding a token.  [token_to_job_no] returns [None] exactly when
    the trimmed, upper-cased token has fewer than three characters;
    otherwise it returns that string with a ['-'] put after its second
    character, and nothing else. *)
Theorem token_decoding (t : str) :
  (token_to_job_no t = None <-> (length (normalize_text (JStr t)) < 3)%nat) /\
  (forall j,
     token_to_job_no t = Some j <->
     exists p1 p2 rest,
       normalize_text (JStr t) = p1 :: p2 :: rest /\ rest <> [] /\
       j = p1 :: p2 :: 45%N :: rest).
Proof.
  rewrite token_to_job_no_eq.
  destruct (normalize_text (JStr t)) as [|p1 [|p2 [|c rest]]]; cbn [length].
  - split; [split; [lia|reflexivity]|].
    intros j. split; [discriminate|]. intros (? & ? & ? & H & _). discriminate H.
  - split; [split; [lia|reflexivity]|].
    intros j. split; [discriminate|]. intros (? & ? & ? & H & _). discriminate H.
  - split; [split; [lia|reflexivity]|].
    intros j. split; [discriminate|].
    intros (? & ? & ? & H & Hne & _). injection H as _ _ <-. congruence.
  - split; [split; [discriminate|lia]|].
    intros j. split.
    + intros H. injection H as <-. exists p1, p2, (c :: rest).
      split; [reflexivity|]. split; [discriminate|reflexivity].
    + intros (q1 & q2 & r & H & _ & ->). injection H as -> -> <-. reflexivity.
Qed.

Lemma te_four_digits_round_trip (j : str) :
  te_four_digits j -> token_to_job_no (job_no_to_token j) = Some j.
Proof.
  intros (d1 & d2 & d3 & d4 & -> & Hd).
  cbn [forallb] in Hd. unfold is_decimal_digit in Hd.
  repeat (apply andb_true_iff in Hd as [? Hd]).
  repeat match goal with
         | H : (_ && _)%bool = true |- _ => apply andb_true_iff in H as [? ?]
         | H : (_ <=? _)%N = true |- _ => apply N.leb_le in H
         end.
  apply generated_job_no_round_trip; lia.
Qed.

(** The invoice form, by what the token decodes to and what the store
    holds. *)
Lemma upload_invoice_form_get (t j : str) (rq : Request) (w : World) (order : Order) :
  token_to_job_no t = Some j ->
  find (has_job j) (orders w) = Some order ->
  method rq <> POST ->
  upload_invoice_form t rq w =
  (Ok {| status := 200; body := Template None None (Some (format_order order)) |}, w).
Proof.
  intros Ht Hfind Hm. unfold upload_invoice_form. rewrite Ht.
  unfold bind, find_one. rewrite Hfind.
  destruct (method rq); try reflexivity. congruence.
Qed.

(** X6: the short link reaches its order.  For a stored order whose job
    number has the generated form, opening the invoice form with the token
    of that job number shows that order (200) and changes nothing. *)
Theorem short_link_opens_order (j : str) (rq : Request) (w : World) (order : Order) :
  te_four_digits j ->
  find (has_job j) (orders w) = Some order ->
  method rq <> POST ->
  upload_invoice_form (job_no_to_token j) rq w =
  (Ok {| status := 200; body := Template None None (Some (format_order order)) |}, w).
Proof.
  intros Hj Hfind Hm.
  apply upload_invoice_form_get with (j := j); [|exact Hfind|exact Hm].
  now apply te_four_digits_round_trip.
Qed.

(** X7: a token that does not decode is answered with 400, and a token
    that decodes to a job number no stored order has with 404, for every
    session and method; neither changes the world. *)
Theorem invoice_form_errors (t : str) (rq : Request) (w : World) :
  (token_to_job_no t = None ->
   upload_invoice_form t rq w =
   (Ok {| status := 400; body := Template (Some (u "Geçersiz bağlantı.")) None None |}, w)) /\
  (forall j,
     token_to_job_no t = Some j ->
     find (has_job j) (orders w) = None ->
     upload_invoice_form t rq w =
     (Ok {| status := 404; body := Template (Some (u "Kayıt bulunamadı.")) None None |}, w)).
Proof.
  split.
  - intros Ht. unfold upload_invoice_form. now rewrite Ht.
  - intros j Ht Hfind. unfold upload_invoice_form. rewrite Ht.
    unfold bind, find_one. now rewrite Hfind.
Qed.

End ShortLink.

Lemma short_link_opens_order_witness :
  let rq := Sample.form_request Sample.anonymous GET [] [] in
  te_four_digits (u "TE-0123") /\
  find (has_job (u "TE-0123")) (orders Sample.open_world) = Some Sample.open_order /\
  method rq <> POST /\
  @job_no_to_token Sample.lib (u "TE-0123") = u "TE0123" /\
  @upload_invoice_form Sample.lib (@job_no_to_token Sample.lib (u "TE-0123")) rq
    Sample.open_world =
  (Ok {| status := 200;
         body := Template None None (Some (@format_order Sample.lib Sample.open_order)) |},
   Sample.open_world).
Proof.
  intros rq.
  assert (H1 : te_four_digits (u "TE-0123")).
  { exists 48%N, 49%N, 50%N, 51%N. split; vm_compute; reflexivity. }
  assert (H2 : find (has_job (u "TE-0123")) (orders Sample.open_world)
               = Some Sample.open_order) by (vm_compute; reflexivity).
  assert (H3 : method rq <> POST) by discriminate.
  split; [exact H1|]. split; [exact H2|]. split; [exact H3|].
  split; [vm_compute; reflexivity|].
  exact (@short_link_opens_order Sample.lib (u "TE-0123") rq Sample.open_world
           Sample.open_order H1 H2 H3).
Defined.

Lemma invoice_form_errors_witness :
  let rq := Sample.form_request Sample.anonymous GET [] [] in
  (@token_to_job_no Sample.lib (u " t ") = None /\
   @upload_invoice_form Sample.lib (u " t ") rq Sample.open_world =
   (Ok {| status := 400; body := Template (Some (u "Geçersiz bağlantı.")) None None |},
    Sample.open_world)) /\
  (@token_to_job_no Sample.lib (u "te9999") = Some (u "TE-9999") /\
   find (has_job (u "TE-9999")) (orders Sample.open_world) = None /\
   @upload_invoice_form Sample.lib (u "te9999") rq Sample.open_world =
   (Ok {| status := 404; body := Template (Some (u "Kayıt bulunamadı.")) None None |},
    Sample.open_world)).
Proof.
  intros rq.
  assert (H1 : @token_to_job_no Sample.lib (u " t ") = None) by (vm_compute; reflexivity).
  assert (H2 : @token_to_job_no Sample.lib (u "te9999") = Some (u "TE-9999"))
    by (vm_compute; reflexivity).
  assert (H3 : find (has_job (u "TE-9999")) (orders Sample.open_world) = None)
    by (vm_compute; reflexivity).
  split.
  - split; [exact H1|].
    exact (proj1 (@invoice_form_errors Sample.lib (u " t ") rq Sample.open_world) H1).
  - split; [exact H2|]. split; [exact H3|].
    exact (proj2 (@invoice_form_errors Sample.lib (u "te9999") rq Sample.open_world)
             _ H2 H3).
Defined.

(** ** Creating an order *)

Lemma keeps_same_data_of_unchanged {A} (m : M A) :
  keeps unchanged m -> keeps same_data m.
Proof. apply keeps_weaken. exact unchanged_same_data. Qed.

Ltac keeps_data :=
  repeat first
    [ keeps_step
    | apply keeps_same_data_of_unchanged; solve [auto with keeps_unchanged]
    | solve [auto with keeps_same_data] ].

Lemma find_app_fresh (j : str) (l : list Order) (doc : Order) :
  (forall o, In o l -> job_no o <> j) ->
  job_no doc = j ->
  find (has_job j) (l ++ [doc]) = Some doc.
Proof.
  intros Hfresh Hj. induction l as [|x l IH]; simpl.
  - unfold has_job. now rewrite Hj, str_eqb_refl.
  - destruct (has_job j x) eqn:E.
    + unfold has_job in E. apply str_eqb_eq in E.
      exfalso. apply (Hfresh x); [now left|exact E].
    + apply IH. intros o Ho. apply Hfresh. now right.
Qed.

Section CreateOrder.

Context {L : Lib}.

Lemma keeps_data__build_order_document (fuel : nat) (data : json) :
  keeps same_data (_build_order_document fuel data).
Proof. unfold _build_order_document. keeps_data. Qed.

(** A payload that was not stored left the collections and the
    directories as they were. *)
Lemma create_order_from_payload_raised (fuel : nat) (data : json) (w w' : World) (e : exn) :
  create_order_from_payload fuel data w = (Raise e, w') -> same_data w w'.
Proof.
  unfold create_order_from_payload. intros H. unfold bind at 1 in H.
  destruct (_build_order_document fuel data w) as [[doc|e0] w1] eqn:Hb.
  - pose proof (keeps_data__build_order_document fuel data) as K.
    specialize (K _ _ _ Hb).
    unfold bind, attempt, insert_one in H.
    destruct (existsb (has_job (job_no doc)) (orders w1)).
    + injection H as _ <-. exact K.
    + discriminate H.
  - injection H as _ <-.
    pose proof (keeps_data__build_order_document fuel data) as K.
    exact (K _ _ _ Hb).
Qed.

(** X8: a created order can be looked up.  When [POST /api/orders]
    answers 201 the store has grown by exactly one document; its job number
    is ['TE-'] and four digits and was in no stored order, [find_one] on it
    returns the new document, which has no invoice, no photo and no
    completion; the answer carries that document, and the technicians and
    the directories are untouched. *)
Theorem created_order_is_stored (fuel : nat) (rq : Request) (w w' : World) (resp : Response) :
  create_order fuel rq w = (Ok resp, w') ->
  status resp = 201 ->
  exists doc,
    orders w' = orders w ++ [doc] /\
    te_four_digits (job_no doc) /\
    (forall o, In o (orders w) -> job_no o <> job_no doc) /\
    find (has_job (job_no doc)) (orders w') = Some doc /\
    invoice doc = None /\ photos doc = [] /\
    montaj_completed doc = false /\ montaj_completion doc = None /\
    body resp = OrderBody (format_order doc) None /\
    technicians w' = technicians w /\
    invoices_dir w' = invoices_dir w /\ photos_dir w' = photos_dir w.
Proof.
  intros H Hstatus. unfold create_order in H.
  destruct (negb (logged_in (session rq))).
  { injection H as <- _. discriminate Hstatus. }
  cbv zeta in H. unfold bind, attempt in H.
  destruct (create_order_from_payload fuel (payload rq) w) as [[oj|e] w1] eqn:Hc.
  2:{ destruct e; cbn in H; try discriminate H;
        injection H as <- _; discriminate Hstatus. }
  injection H as <- <-.
  pose proof Hc as Hc'.
  apply create_order_from_payload_store in Hc
    as (m & doc & sp & sn & _ & _ & Hstore & -> & Hform & Hfresh & _ & _ & _ & _ & _
        & _ & _ & _ & _ & Hinv & Hph & Hmc & Hmn).
  apply create_order_from_payload_ok in Hc' as (doc' & w0 & Hb & -> & Hf).
  pose proof (keeps_data__build_order_document fuel (payload rq)) as K.
  destruct (K _ _ _ Hb) as (_ & Ht & Hi & Hp).
  exists doc. split; [exact Hstore|]. split; [exact Hform|]. split; [exact Hfresh|].
  split; [rewrite Hstore; now apply find_app_fresh|].
  repeat (split; [assumption|]).
  split; [reflexivity|]. cbn. auto.
Qed.

(** X9: an order creation that does not answer 201 stores nothing.
    Whatever [POST /api/orders] answers or raises, unless it is an answer
    with status 201 the collections and the directories are as they
    were. *)
Theorem failed_creation_stores_nothing (fuel : nat) (rq : Request) (w w' : World)
    (r : result Response) :
  create_order fuel rq w = (r, w') ->
  (forall resp, r = Ok resp -> status resp <> 201) ->
  same_data w w'.
Proof.
  intros H Hnot. unfold create_order in H.
  destruct (negb (logged_in (session rq))).
  { injection H as _ <-. reflexivity. }
  cbv zeta in H. unfold bind, attempt in H.
  destruct (create_order_from_payload fuel (payload rq) w) as [[oj|e] w1] eqn:Hc.
  - injection H as <- _. exfalso. now apply (Hnot _ eq_refl).
  - apply create_order_from_payload_raised in Hc.
    destruct e; cbn in H; injection H as _ <-; exact Hc.
Qed.

End CreateOrder.

Lemma created_order_is_stored_witness :
  exists resp w',
    @create_order Sample.lib 2 SampleCreation.request Sample.open_world = (Ok resp, w') /\
    status resp = 201 /\
    map job_no (orders w') = [u "TE-0123"; u "TE-4567"] /\
    exists doc,
      orders w' = orders Sample.open_world ++ [doc] /\
      te_four_digits (job_no doc) /\
      (forall o, In o (orders Sample.open_world) -> job_no o <> job_no doc) /\
      find (has_job (job_no doc)) (orders w') = Some doc /\
      invoice doc = None /\ photos doc = [] /\
      montaj_completed doc = false /\ montaj_completion doc = None /\
      body resp = OrderBody (@format_order Sample.lib doc) None /\
      technicians w' = technicians Sample.open_world /\
      invoices_dir w' = invoices_dir Sample.open_world /\
      photos_dir w' = photos_dir Sample.open_world.
Proof.
  assert (E : exists resp,
             fst (@create_order Sample.lib 2 SampleCreation.request Sample.open_world)
             = Ok resp /\ status resp = 201).
  { vm_compute. eexists. split; reflexivity. }
  destruct E as (resp & E & Hstatus). apply run_ok in E.
  exists resp. eexists. split; [exact E|]. split; [exact Hstatus|].
  split; [vm_compute; reflexivity|].
  exact (@created_order_is_stored Sample.lib 2 SampleCreation.request Sample.open_world
           _ resp E Hstatus).
Defined.

Lemma failed_creation_stores_nothing_witness :
  exists r w',
    @create_order Sample.lib 1 SampleUpdate.empty_priority Sample.open_world = (r, w') /\
    Sample.status_of (r, w') = Some 400 /\
    (forall resp, r = Ok resp -> status resp <> 201) /\
    same_data Sample.open_world w'.
Proof.
  destruct (@create_order Sample.lib 1 SampleUpdate.empty_priority Sample.open_world)
    as [r w'] eqn:E.
  assert (Hs : Sample.status_of
                 (fst (@create_order Sample.lib 1 SampleUpdate.empty_priority
                         Sample.open_world), w') = Some 400) by (vm_compute; reflexivity).
  rewrite E in Hs. cbn [fst] in Hs.
  assert (Hnot : forall resp, r = Ok resp -> status resp <> 201).
  { intros resp ->. cbn in Hs. injection Hs as ->. discriminate. }
  exists r, w'. split; [reflexivity|]. split; [exact Hs|]. split; [exact Hnot|].
  exact (@failed_creation_stores_nothing Sample.lib 1 SampleUpdate.empty_priority
           Sample.open_world w' r E Hnot).
Defined.

(** ** Storing an invoice *)

Lemma dir_has_add_keeps (n x : str) (l : list str) :
  dir_has n l = true -> dir_has n (dir_add x l) = true.
Proof.
  unfold dir_add. destruct (dir_has x l); [auto|].
  intros H. unfold dir_has in *. cbn [existsb]. rewrite H. apply orb_true_r.
Qed.

Section StoreInvoice.

Context {L : Lib}.

(** [_store_invoice], by its outcome. *)
Lemma _store_invoice_cases (j : str) (file : option FileStorage) (w w' : World)
    (r : result (option Order)) :
  _store_invoice j file w = (r, w') ->
  (exists e, r = Raise e /\ same_data w w') \/
  (exists f,
     file = Some f /\ filename f <> [] /\ secure_filename (filename f) <> [] /\
     r = Ok (find (has_job j) (orders w')) /\
     orders w' = update_first j (set_invoice (invoice_entry j f w)) (orders w) /\
     technicians w' = technicians w /\
     photos_dir w' = photos_dir w /\
     invoices_dir w' = dir_add (stored_name (invoice_entry j f w)) (invoices_dir w)).
Proof.
  unfold _store_invoice. intros H.
  destruct file as [f|].
  2:{ injection H as <- <-. left. eexists. split; reflexivity. }
  destruct (str_empty (filename f)) eqn:Ef.
  { injection H as <- <-. left. eexists. split; reflexivity. }
  destruct (str_empty (secure_filename (filename f))) eqn:Es.
  { injection H as <- <-. left. eexists. split; reflexivity. }
  unfold bind at 1 in H. unfold now at 1 in H.
  unfold bind at 1 in H. unfold attempt, save in H.
  cbn [disk disk_pos tick_clock] in H.
  destruct (disk w (disk_pos w)) as [msg|].
  - injection H as <- <-. left. eexists. split; [reflexivity|]. repeat split.
  - unfold bind, now, update_one, find_one in H. injection H as <- <-.
    right. exists f.
    split; [reflexivity|].
    split; [destruct (filename f); [discriminate|discriminate]|].
    split; [destruct (secure_filename (filename f)); [discriminate|discriminate]|].
    repeat split.
Qed.

End StoreInvoice.

Section UploadInvoice.

Context {L : Lib}.

(** [upload_invoice] for a logged-in request on an existing order that
    carries the file field. *)
Lemma upload_invoice_run (j : str) (rq : Request) (w : World) (order : Order)
    (f : FileStorage) :
  logged_in (session rq) = true ->
  find (has_job j) (orders w) = Some order ->
  files_get rq (u "invoice") = Some f ->
  (exists e w', _store_invoice j (Some f) w = (Raise e, w') /\ same_data w w' /\
     exists r, upload_invoice j rq w = (r, w') /\
               forall resp, r = Ok resp -> status resp <> 201) \/
  (exists w',
     _store_invoice j (Some f) w
       = (Ok (Some (set_invoice (invoice_entry j f w) order)), w') /\
     secure_filename (filename f) <> [] /\
     orders w' = update_first j (set_invoice (invoice_entry j f w)) (orders w) /\
     technicians w' = technicians w /\
     photos_dir w' = photos_dir w /\
     invoices_dir w' = dir_add (stored_name (invoice_entry j f w)) (invoices_dir w) /\
     upload_invoice j rq w =
     (Ok {| status := 201;
            body := OrderBody (format_order (set_invoice (invoice_entry j f w) order))
                      (Some (u "Fatura başarıyla yüklendi.")) |}, w')).
Proof.
  intros Hlog Hfind Hfile.
  destruct (_store_invoice j (Some f) w) as [r0 w'] eqn:Hs.
  pose proof Hs as Hcases. apply _store_invoice_cases in Hcases
    as [(e & -> & Hsame)|(f' & Hf' & _ & Hsec & -> & Hord & Ht & Hp & Hi)].
  - left. exists e, w'. split; [reflexivity|]. split; [exact Hsame|].
    unfold upload_invoice. rewrite Hlog. cbn [negb].
    unfold bind at 1. unfold find_one at 1. rewrite Hfind, Hfile.
    unfold bind, attempt. rewrite Hs.
    destruct e; cbn; eexists; (split; [reflexivity|]);
      intros resp Hr; try discriminate Hr; injection Hr as <-; discriminate.
  - right. injection Hf' as <-. exists w'.
    assert (Hnew : find (has_job j) (orders w')
                   = Some (set_invoice (invoice_entry j f w) order)).
    { rewrite Hord. now apply find_update_first. }
    rewrite Hnew. split; [reflexivity|].
    repeat (split; [assumption|]).
    unfold upload_invoice. rewrite Hlog. cbn [negb].
    unfold bind at 1. unfold find_one at 1. rewrite Hfind, Hfile.
    unfold bind, attempt. rewrite Hs, Hnew. reflexivity.
Qed.

(** X10: an uploaded invoice is recorded.  When the invoice upload
    answers 201, the order has the new invoice record (the sanitised file
    name, and a stored name made of the job number, the time stamp and
    that file name) and is otherwise as it was; the file is in the invoices
    directory, no file that was there has gone, and job numbers,
    technicians and photos are untouched. *)
Theorem invoice_upload_recorded (j : str) (rq : Request) (w w' : World) (resp : Response) :
  upload_invoice j rq w = (Ok resp, w') ->
  status resp = 201 ->
  exists order f,
    find (has_job j) (orders w) = Some order /\
    files_get rq (u "invoice") = Some f /\
    secure_filename (filename f) <> [] /\
    find (has_job j) (orders w')
      = Some (set_invoice (invoice_entry j f w) order) /\
    dir_has (stored_name (invoice_entry j f w)) (invoices_dir w') = true /\
    (forall n, dir_has n (invoices_dir w) = true -> dir_has n (invoices_dir w') = true) /\
    job_nos w' = job_nos w /\
    technicians w' = technicians w /\
    photos_dir w' = photos_dir w.
Proof.
  intros H Hstatus.
  destruct (logged_in (session rq)) eqn:Hlog.
  2:{ unfold upload_invoice in H. rewrite Hlog in H.
      injection H as <- _. discriminate Hstatus. }
  destruct (find (has_job j) (orders w)) as [order|] eqn:Hfind.
  2:{ unfold upload_invoice in H. rewrite Hlog in H. cbn [negb] in H.
      unfold bind, find_one in H. rewrite Hfind in H.
      injection H as <- _. discriminate Hstatus. }
  destruct (files_get rq (u "invoice")) as [f|] eqn:Hfile.
  2:{ unfold upload_invoice in H. rewrite Hlog in H. cbn [negb] in H.
      unfold bind, find_one in H. rewrite Hfind, Hfile in H.
      injection H as <- _. discriminate Hstatus. }
  destruct (upload_invoice_run j rq w Hlog Hfind Hfile)
    as [(e & w1 & _ & _ & r & Hrun & Hnot)
       |(w1 & _ & Hsec & Hord & Ht & Hp & Hi & Hrun)].
  - rewrite Hrun in H. injection H as -> _. exfalso. now apply (Hnot resp eq_refl).
  - rewrite Hrun in H. injection H as _ <-.
    exists order, f. split; [reflexivity|]. split; [reflexivity|].
    split; [exact Hsec|].
    split; [rewrite Hord; now apply find_update_first|].
    split; [rewrite Hi; apply dir_has_add|].
    split; [intros n Hn; rewrite Hi; now apply dir_has_add_keeps|].
    split; [unfold job_nos; rewrite Hord; now apply update_first_job_nos|].
    auto.
Qed.

(** X11: a refused invoice upload changes nothing.  When an invoice upload
    is answered with 400, 401 or 404, the orders, the technicians and the
    photos directory are as they were; and when no write fails on the disk
    (a failed write may leave a partial file, which the model of [save]
    does not show), so is the invoices directory. *)
Theorem refused_invoice_upload_changes_nothing (j : str) (rq : Request)
    (w w' : World) (resp : Response) :
  upload_invoice j rq w = (Ok resp, w') ->
  In (status resp) [400; 401; 404] ->
  orders w' = orders w /\ technicians w' = technicians w /\
  photos_dir w' = photos_dir w /\
  ((forall k, disk w k = None) -> invoices_dir w' = invoices_dir w).
Proof.
  intros H Hrefused.
  assert (Hsame : same_data w w' ->
            orders w' = orders w /\ technicians w' = technicians w /\
            photos_dir w' = photos_dir w /\
            ((forall k, disk w k = None) -> invoices_dir w' = invoices_dir w)).
  { intros (Ho & Ht & Hi & Hp). auto. }
  destruct (logged_in (session rq)) eqn:Hlog.
  2:{ unfold upload_invoice in H. rewrite Hlog in H.
      apply pair_equal_spec in H as [_ <-]. apply Hsame. reflexivity. }
  destruct (find (has_job j) (orders w)) as [order|] eqn:Hfind.
  2:{ unfold upload_invoice in H. rewrite Hlog in H. cbn [negb] in H.
      unfold bind, find_one in H. rewrite Hfind in H.
      apply pair_equal_spec in H as [_ <-]. apply Hsame. reflexivity. }
  destruct (files_get rq (u "invoice")) as [f|] eqn:Hfile.
  2:{ unfold upload_invoice in H. rewrite Hlog in H. cbn [negb] in H.
      unfold bind, find_one in H. rewrite Hfind, Hfile in H.
      apply pair_equal_spec in H as [_ <-]. apply Hsame. reflexivity. }
  destruct (upload_invoice_run j rq w Hlog Hfind Hfile)
    as [(e & w1 & _ & Hdata & r1 & Hrun & _)
       |(w1 & _ & _ & _ & _ & _ & _ & Hrun)].
  - rewrite Hrun in H. apply pair_equal_spec in H as [_ <-]. now apply Hsame.
  - rewrite Hrun in H. apply pair_equal_spec in H as [H _]. injection H as <-.
    cbn [status In] in Hrefused.
    destruct Hrefused as [E|[E|[E|[]]]]; discriminate E.
Qed.

End UploadInvoice.

Lemma invoice_upload_recorded_witness :
  exists resp w',
    @upload_invoice Sample.lib (u "TE-0123") SampleInvoice.request Sample.open_world
      = (Ok resp, w') /\
    status resp = 201 /\
    invoices_dir w' = [u "TE-0123-20231114221320-fatura_1.pdf"] /\
    exists order f,
      find (has_job (u "TE-0123")) (orders Sample.open_world) = Some order /\
      files_get SampleInvoice.request (u "invoice") = Some f /\
      @secure_filename Sample.lib (filename f) <> [] /\
      find (has_job (u "TE-0123")) (orders w')
        = Some (set_invoice
                  (@invoice_entry Sample.lib (u "TE-0123") f Sample.open_world) order) /\
      dir_has (stored_name (@invoice_entry Sample.lib (u "TE-0123") f Sample.open_world))
        (invoices_dir w') = true /\
      (forall n, dir_has n (invoices_dir Sample.open_world) = true ->
                 dir_has n (invoices_dir w') = true) /\
      job_nos w' = job_nos Sample.open_world /\
      technicians w' = technicians Sample.open_world /\
      photos_dir w' = photos_dir Sample.open_world.
Proof.
  assert (E : exists resp,
             fst (@upload_invoice Sample.lib (u "TE-0123") SampleInvoice.request
                    Sample.open_world) = Ok resp /\ status resp = 201).
  { vm_compute. eexists. split; reflexivity. }
  destruct E as (resp & E & Hstatus). apply run_ok in E.
  exists resp. eexists. split; [exact E|]. split; [exact Hstatus|].
  split; [vm_compute; reflexivity|].
  exact (@invoice_upload_recorded Sample.lib (u "TE-0123") SampleInvoice.request
           Sample.open_world _ resp E Hstatus).
Defined.

Lemma refused_invoice_upload_witness :
  let run := @upload_invoice Sample.lib (u "TE-0123") SampleInvoice.bad_name
               Sample.open_world in
  exists resp,
    run = (Ok resp, snd run) /\
    status resp = 400 /\
    In (status resp) [400; 401; 404] /\
    (forall k, disk Sample.open_world k = None) /\
    orders (snd run) = orders Sample.open_world /\
    technicians (snd run) = technicians Sample.open_world /\
    photos_dir (snd run) = photos_dir Sample.open_world /\
    ((forall k, disk Sample.open_world k = None) ->
     invoices_dir (snd run) = invoices_dir Sample.open_world).
Proof.
  intros run.
  assert (Hr : exists resp, fst run = Ok resp /\ status resp = 400).
  { eexists. split; [vm_compute; reflexivity|reflexivity]. }
  destruct Hr as (resp & Hr & Hs).
  exists resp. pose proof (run_ok run Hr) as E.
  assert (Hin : In (status resp) [400; 401; 404]) by (rewrite Hs; now left).
  split; [exact E|]. split; [exact Hs|]. split; [exact Hin|].
  split; [intros k; reflexivity|].
  exact (@refused_invoice_upload_changes_nothing Sample.lib (u "TE-0123")
           SampleInvoice.bad_name Sample.open_world (snd run) resp E Hin).
Defined.

(** ** The dealer's form *)

Lemma update_first_app_fresh (j : str) (f : Order -> Order) (l : list Order) (doc : Order) :
  (forall o, In o l -> job_no o <> j) ->
  job_no doc = j ->
  update_first j f (l ++ [doc]) = l ++ [f doc].
Proof.
  intros Hfresh Hj. induction l as [|x l IH]; simpl.
  - unfold has_job. now rewrite Hj, str_eqb_refl.
  - destruct (has_job j x) eqn:E.
    + unfold has_job in E. apply str_eqb_eq in E.
      exfalso. apply (Hfresh x); [now left|exact E].
    + f_equal. apply IH. intros o Ho. apply Hfresh. now right.
Qed.

Section Dealer.

Context {L : Lib}.

Lemma upper_orta : normalize_str (strip (u "ORTA")) = u "ORTA".
Proof.
  rewrite normalize_str_eq, strip_idempotent.
  change (strip (u "ORTA")) with [79; 82; 84; 65]%N.
  unfold upper. cbn [flat_map app].
  rewrite !upper_char_ascii_fixed by lia. reflexivity.
Qed.

(** [_create_order_from_bayi] reads the form only. *)
Lemma _create_order_from_bayi_pure (rq : Request) (w w' : World) (r : result json) :
  _create_order_from_bayi rq w = (r, w') -> w' = w.
Proof.
  unfold _create_order_from_bayi. intros H.
  destruct (first_empty _); [injection H as _ <-; reflexivity|].
  unfold bind in H. rewrite or_strip_eq in H.
  destruct (form_get_text rq (u "note") []) as [s Hs]. rewrite Hs in H.
  injection H as _ <-. reflexivity.
Qed.

(** The dealer's form, once its fields made a payload and an invoice file
    with a name came along, by what creation and storing do. *)
Lemma bayi_create_order_run (fuel : nat) (rq : Request) (w : World) (data : json)
    (f : FileStorage) :
  _create_order_from_bayi rq w = (Ok data, w) ->
  files_get rq (u "invoice") = Some f ->
  filename f <> [] ->
  bayi_create_order fuel rq w =
  match create_order_from_payload fuel data w with
  | (Ok created, w1) =>
      match _store_invoice (oj_job_no created) (Some f) w1 with
      | (Ok (Some updated), w2) =>
          (Ok {| status := 200; body := OrderBody (format_order updated) None |}, w2)
      | (Ok None, w2) => (Ok (json_message 500 (u "Kayıt oluşturulamadı.")), w2)
      | (Raise (ValueError msg), w2) => (Ok (json_message 400 msg), w2)
      | (Raise e, w2) =>
          if is_pymongo_error e || match e with AttributeError => true | _ => false end
          then (Ok (json_message 500 (u "Kayıt oluşturulamadı.")), w2)
          else (Raise e, w2)
      end
  | (Raise (ValueError msg), w1) => (Ok (json_message 400 msg), w1)
  | (Raise e, w1) =>
      if is_pymongo_error e || match e with AttributeError => true | _ => false end
      then (Ok (json_message 500 (u "Kayıt oluşturulamadı.")), w1)
      else (Raise e, w1)
  end.
Proof.
  intros Hdata Hfile Hname.
  unfold bayi_create_order. unfold bind at 1. unfold attempt at 1.
  unfold bind at 1. rewrite Hdata. cbv zeta. rewrite Hfile.
  assert (Hh : has_filename (Some f) = true).
  { cbn. destruct (filename f); [congruence|reflexivity]. }
  rewrite Hh. cbn [negb].
  unfold bind at 1.
  destruct (create_order_from_payload fuel data w) as [[created|e] w1].
  2:{ destruct e; reflexivity. }
  unfold bind at 1.
  destruct (_store_invoice (oj_job_no created) (Some f) w1) as [[[updated|]|e] w2].
  - reflexivity.
  - reflexivity.
  - destruct e; reflexivity.
Qed.

End Dealer.

Section DealerProperties.

Context {L : Lib}.

Lemma bayi_payload_priority (rq : Request) (w w' : World) (data : json) :
  _create_order_from_bayi rq w = (Ok data, w') ->
  exists m, data = JObj m /\ dict_get m (u "priority") = JStr (u "ORTA").
Proof.
  unfold _create_order_from_bayi. intros H.
  destruct (first_empty _); [discriminate H|].
  unfold bind in H. rewrite or_strip_eq in H.
  destruct (form_get_text rq (u "note") []) as [s Hs]. rewrite Hs in H.
  injection H as <- _. eexists. split; [reflexivity|].
  generalize (normalize_text (form_get rq (u "name"))),
    (normalize_text (form_get rq (u "phone"))),
    (normalize_text (form_get rq (u "model"))),
    (normalize_text (form_get rq (u "address"))),
    (if str_empty (normalize_text (form_get rq (u "service")))
     then u "TV KURULUM" else normalize_text (form_get rq (u "service"))),
    (strip s).
  intros. vm_compute. reflexivity.
Qed.

(** X12: the dealer's order outlives a failed invoice.  When the dealer's
    form is complete and its order has been created, but the name of the
    invoice file has no usable character, the answer is 400 and the order
    stays in the store, without an invoice. *)
Theorem dealer_order_outlives_bad_invoice (fuel : nat) (rq : Request) (w w1 : World)
    (data : json) (f : FileStorage) (created : OrderJson) :
  _create_order_from_bayi rq w = (Ok data, w) ->
  files_get rq (u "invoice") = Some f ->
  filename f <> [] ->
  secure_filename (filename f) = [] ->
  create_order_from_payload fuel data w = (Ok created, w1) ->
  bayi_create_order fuel rq w = (Ok (json_message 400 (u "Geçersiz dosya adı.")), w1) /\
  exists doc,
    orders w1 = orders w ++ [doc] /\
    invoice doc = None /\
    find (has_job (job_no doc)) (orders w1) = Some doc.
Proof.
  intros Hdata Hfile Hname Hsec Hcreate. split.
  - rewrite (bayi_create_order_run fuel rq Hdata Hfile Hname), Hcreate.
    unfold _store_invoice.
    destruct (str_empty (filename f)) eqn:E.
    { destruct (filename f); [congruence|discriminate]. }
    rewrite Hsec. reflexivity.
  - apply create_order_from_payload_store in Hcreate
      as (m & doc & sp & sn & _ & _ & Hstore & _ & _ & Hfresh & _ & _ & _ & _ & _
          & _ & _ & _ & _ & Hinv & _).
    exists doc. split; [exact Hstore|]. split; [exact Hinv|].
    rewrite Hstore. now apply find_app_fresh.
Qed.

(** X13: a dealer's order.  When the dealer's form answers 200, the store
    has grown by exactly one order; its job number is fresh and of the
    generated form, its priority is ['ORTA'] whatever the form said, and it
    carries the invoice record of the uploaded file, which is in the
    invoices directory. *)
Theorem dealer_order_created (fuel : nat) (rq : Request) (w w' : World) (resp : Response) :
  bayi_create_order fuel rq w = (Ok resp, w') ->
  status resp = 200 ->
  exists doc f w1,
    files_get rq (u "invoice") = Some f /\
    orders w' = orders w ++ [set_invoice (invoice_entry (job_no doc) f w1) doc] /\
    te_four_digits (job_no doc) /\
    (forall o, In o (orders w) -> job_no o <> job_no doc) /\
    priority doc = u "ORTA" /\
    dir_has (stored_name (invoice_entry (job_no doc) f w1)) (invoices_dir w') = true /\
    body resp = OrderBody (format_order (set_invoice (invoice_entry (job_no doc) f w1) doc))
                  None.
Proof.
  intros H Hstatus.
  destruct (_create_order_from_bayi rq w) as [[data|e] w0] eqn:Hdata.
  2:{ unfold bayi_create_order in H. unfold bind at 1 in H. unfold attempt at 1 in H.
      unfold bind at 1 in H. rewrite Hdata in H.
      destruct e; cbn in H; try discriminate H; injection H as <- _; discriminate Hstatus. }
  pose proof (_create_order_from_bayi_pure rq w Hdata) as ->.
  destruct (files_get rq (u "invoice")) as [f|] eqn:Hfile.
  2:{ unfold bayi_create_order in H. unfold bind at 1 in H. unfold attempt at 1 in H.
      unfold bind at 1 in H. rewrite Hdata in H. cbv zeta in H. rewrite Hfile in H.
      cbn in H. injection H as <- _. discriminate Hstatus. }
  destruct (str_empty (filename f)) eqn:Hname.
  { unfold bayi_create_order in H. unfold bind at 1 in H. unfold attempt at 1 in H.
    unfold bind at 1 in H. rewrite Hdata in H. cbv zeta in H. rewrite Hfile in H.
    cbn [has_filename] in H. rewrite Hname in H.
    cbn in H. injection H as <- _. discriminate Hstatus. }
  assert (Hne : filename f <> []) by (intros E; rewrite E in Hname; discriminate).
  rewrite (bayi_create_order_run fuel rq Hdata Hfile Hne) in H.
  destruct (create_order_from_payload fuel data w) as [[created|e] w1] eqn:Hcreate.
  2:{ destruct e; cbn in H; try discriminate H; injection H as <- _; discriminate Hstatus. }
  destruct (bayi_payload_priority rq w Hdata) as (m0 & Hm0 & Hprio).
  apply create_order_from_payload_store in Hcreate
    as (m & doc & sp & sn & Hm & _ & Hstore & -> & Hform & Hfresh & Hsp & Hp & _).
  rewrite Hm0 in Hm. injection Hm as <-.
  rewrite Hprio in Hsp. vm_compute in Hsp. injection Hsp as <-.
  change (oj_job_no (format_order doc)) with (job_no doc) in H.
  destruct (_store_invoice (job_no doc) (Some f) w1) as [r2 w2] eqn:Hs.
  apply _store_invoice_cases in Hs
    as [(e & -> & _)|(f' & Hf' & _ & _ & -> & Hord & _ & _ & Hi)].
  { destruct e; cbn in H; try discriminate H; injection H as <- _; discriminate Hstatus. }
  injection Hf' as <-.
  assert (Hnew : orders w2
                 = orders w ++ [set_invoice (invoice_entry (job_no doc) f w1) doc]).
  { rewrite Hord, Hstore. now apply update_first_app_fresh. }
  assert (Hfind : find (has_job (job_no doc)) (orders w2)
                  = Some (set_invoice (invoice_entry (job_no doc) f w1) doc)).
  { rewrite Hnew. now apply find_app_fresh. }
  rewrite Hfind in H. injection H as <- <-.
  exists doc, f, w1. split; [reflexivity|]. split; [exact Hnew|].
  split; [exact Hform|]. split; [exact Hfresh|].
  split.
  { rewrite Hp. change (u "ORTA") with [79; 82; 84; 65]%N at 1.
    change [79; 82; 84; 65]%N with (u "ORTA"). rewrite upper_orta. reflexivity. }
  split; [rewrite Hi; apply dir_has_add|reflexivity].
Qed.

End DealerProperties.

Lemma dealer_order_outlives_bad_invoice_witness :
  exists data f created w1,
    @_create_order_from_bayi Sample.lib SampleDealerInvoice.bad_invoice Sample.empty_world
      = (Ok data, Sample.empty_world) /\
    files_get SampleDealerInvoice.bad_invoice (u "invoice") = Some f /\
    filename f <> [] /\
    @secure_filename Sample.lib (filename f) = [] /\
    @create_order_from_payload Sample.lib 1 data Sample.empty_world = (Ok created, w1) /\
    @bayi_create_order Sample.lib 1 SampleDealerInvoice.bad_invoice Sample.empty_world
      = (Ok (json_message 400 (u "Geçersiz dosya adı.")), w1) /\
    map job_no (orders w1) = [u "TE-0123"] /\
    exists doc,
      orders w1 = orders Sample.empty_world ++ [doc] /\
      invoice doc = None /\
      find (has_job (job_no doc)) (orders w1) = Some doc.
Proof.
  assert (E1 : exists data,
             fst (@_create_order_from_bayi Sample.lib SampleDealerInvoice.bad_invoice
                    Sample.empty_world) = Ok data).
  { vm_compute. eexists. reflexivity. }
  destruct E1 as (data & E1). apply run_ok in E1.
  pose proof (_create_order_from_bayi_pure _ _ E1) as Hw. rewrite Hw in E1.
  assert (H2 : files_get SampleDealerInvoice.bad_invoice (u "invoice")
               = Some {| filename := u "???" |}) by (vm_compute; reflexivity).
  assert (H3 : filename {| filename := u "???" |} <> []) by (vm_compute; discriminate).
  assert (H4 : @secure_filename Sample.lib (filename {| filename := u "???" |}) = [])
    by (vm_compute; reflexivity).
  assert (E5 : exists created,
             fst (@create_order_from_payload Sample.lib 1 data Sample.empty_world)
             = Ok created).
  { assert (Hd : Ok data = fst (@_create_order_from_bayi Sample.lib
                                  SampleDealerInvoice.bad_invoice Sample.empty_world))
      by (rewrite E1; reflexivity).
    vm_compute in Hd. injection Hd as ->. vm_compute. eexists. reflexivity. }
  destruct E5 as (created & E5). apply run_ok in E5.
  destruct (@dealer_order_outlives_bad_invoice Sample.lib 1 _ _ _ _ _ _ E1 H2 H3 H4 E5)
    as [Hrun Hdoc].
  exists data, {| filename := u "???" |}, created. eexists.
  split; [exact E1|]. split; [exact H2|]. split; [exact H3|]. split; [exact H4|].
  split; [exact E5|]. split; [exact Hrun|]. split; [|exact Hdoc].
  assert (Hj : map job_no
                 (orders (snd (@bayi_create_order Sample.lib 1
                                 SampleDealerInvoice.bad_invoice Sample.empty_world)))
               = [u "TE-0123"]) by (vm_compute; reflexivity).
  rewrite Hrun in Hj. exact Hj.
Defined.

Lemma dealer_order_created_witness :
  exists resp w',
    @bayi_create_order Sample.lib 1 SampleDealerInvoice.urgent Sample.empty_world
      = (Ok resp, w') /\
    status resp = 200 /\
    map priority (orders w') = [u "ORTA"] /\
    exists doc f w1,
      files_get SampleDealerInvoice.urgent (u "invoice") = Some f /\
      orders w' = orders Sample.empty_world
                  ++ [set_invoice (@invoice_entry Sample.lib (job_no doc) f w1) doc] /\
      te_four_digits (job_no doc) /\
      (forall o, In o (orders Sample.empty_world) -> job_no o <> job_no doc) /\
      priority doc = u "ORTA" /\
      dir_has (stored_name (@invoice_entry Sample.lib (job_no doc) f w1))
        (invoices_dir w') = true /\
      body resp = OrderBody
                    (@format_order Sample.lib
                       (set_invoice (@invoice_entry Sample.lib (job_no doc) f w1) doc))
                    None.
Proof.
  assert (E : exists resp,
             fst (@bayi_create_order Sample.lib 1 SampleDealerInvoice.urgent
                    Sample.empty_world) = Ok resp /\ status resp = 200).
  { vm_compute. eexists. split; reflexivity. }
  destruct E as (resp & E & Hstatus). apply run_ok in E.
  exists resp. eexists. split; [exact E|]. split; [exact Hstatus|].
  split; [vm_compute; reflexivity|].
  exact (@dealer_order_created Sample.lib 1 SampleDealerInvoice.urgent
           Sample.empty_world _ resp E Hstatus).
Defined.

(** ** Deleting an order *)

Lemma find_absent (j : str) (l : list Order) :
  ~ In j (map job_no l) -> find (has_job j) l = None.
Proof.
  intros H. apply find_none_no_collision. intros o Ho E.
  apply H. rewrite <- E. now apply in_map.
Qed.

Lemma find_delete_first (j : str) (l : list Order) :
  NoDup (map job_no l) -> find (has_job j) (delete_first j l) = None.
Proof.
  induction l as [|x l IH]; [reflexivity|]. simpl. intros H.
  inversion H as [|? ? Hx Hl]; subst.
  destruct (has_job j x) eqn:E.
  - unfold has_job in E. apply str_eqb_eq in E. subst j. now apply find_absent.
  - simpl. rewrite E. now apply IH.
Qed.

Lemma delete_first_keeps_others (j : str) (l : list Order) (o : Order) :
  In o l -> job_no o <> j -> In o (delete_first j l).
Proof.
  induction l as [|x l IH]; [intros []|]. simpl. intros [<-|Hin] Hne.
  - destruct (has_job j x) eqn:E.
    + unfold has_job in E. apply str_eqb_eq in E. contradiction.
    + now left.
  - destruct (has_job j x); [exact Hin|]. right. now apply IH.
Qed.

(** What [unlink_if_exists] leaves of the world. *)
Lemma unlink_if_exists_world (d : Dir) (n : str) (w : World) :
  exists w',
    unlink_if_exists d n w = (Ok tt, w') /\
    orders w' = orders w /\ technicians w' = technicians w /\
    invoices_dir w' = match d with
                      | UPLOAD_ROOT => dir_remove n (invoices_dir w)
                      | PHOTOS_ROOT => invoices_dir w
                      end /\
    photos_dir w' = match d with
                    | PHOTOS_ROOT => dir_remove n (photos_dir w)
                    | UPLOAD_ROOT => photos_dir w
                    end.
Proof.
  unfold unlink_if_exists, bind, file_exists.
  destruct (dir_has n (dir_of d w)) eqn:E.
  - eexists. split; [reflexivity|]. destruct d; auto.
  - exists w. split; [reflexivity|].
    destruct d; cbn [dir_of] in E; rewrite dir_remove_absent by exact E; auto.
Qed.

(** [remove_photos] leaves the store and the invoices directory alone; it
    adds no file and removes none but the named files of the entries; on a
    disk without faults it removes every one of them. *)
Lemma remove_photos_spec (l : list FileEntry) (w : World) :
  exists w',
    remove_photos l w = (Ok tt, w') /\
    orders w' = orders w /\ technicians w' = technicians w /\
    invoices_dir w' = invoices_dir w /\ disk w' = disk w /\
    (forall n, dir_has n (photos_dir w') = true -> dir_has n (photos_dir w) = true) /\
    (forall n, names_file n (filter has_stored_name l) = false ->
               dir_has n (photos_dir w') = dir_has n (photos_dir w)) /\
    ((forall i, disk w i = None) ->
     forall n, dir_has n (photos_dir w') =
               dir_has n (photos_dir w)
               && negb (names_file n (filter has_stored_name l))).
Proof.
  revert w. induction l as [|e l IH]; intros w.
  - exists w. split; [reflexivity|]. repeat (split; [reflexivity|]).
    split; [auto|]. split; [auto|].
    intros _ n. cbn. now rewrite andb_true_r.
  - assert (Hs : has_stored_name e = negb (str_empty (stored_name e))) by reflexivity.
    cbn [remove_photos filter]. rewrite Hs. unfold bind.
    destruct (str_empty (stored_name e)) eqn:E; cbn [negb].
    + unfold ret. destruct (IH w) as (w' & -> & H1 & H2 & H3 & H4 & H5 & H6 & H7).
      exists w'. split; [reflexivity|]. auto 10.
    + destruct (unlink_logged_world PHOTOS_ROOT (stored_name e) w)
        as (w1 & removed & -> & Ho & Ht & Hd & Hi & Hp & Hh).
      destruct (IH w1) as (w' & -> & H1 & H2 & H3 & H4 & H5 & H6 & H7).
      exists w'. split; [reflexivity|].
      split; [congruence|]. split; [congruence|]. split; [congruence|].
      split; [congruence|].
      assert (Hless : forall n, dir_has n (photos_dir w1) = true ->
                                dir_has n (photos_dir w) = true).
      { intros n. rewrite Hp. destruct removed; [|auto].
        rewrite dir_has_remove. intros H. now apply andb_true_iff in H. }
      split; [intros n Hn; apply Hless, H5, Hn|].
      split.
      * intros n Hn. unfold names_file in Hn. cbn [existsb] in Hn.
        apply orb_false_iff in Hn as [Hne Hrest].
        rewrite (H6 n Hrest), Hp. destruct removed; [|reflexivity].
        rewrite dir_has_remove, Hne. apply andb_true_r.
      * intros Hw n. rewrite (Hh Hw) in Hp.
        rewrite H7 by (intros i; rewrite Hd; apply Hw).
        rewrite Hp, dir_has_remove. unfold names_file. cbn [existsb].
        rewrite negb_orb. now rewrite andb_assoc.
Qed.

(** The removal of the invoice file, lines 611-619. *)
Lemma remove_invoice_spec (order : Order) (w : World) :
  exists w',
    (match invoice order with
     | Some i => if str_empty (stored_name i) then ret tt
                 else unlink_logged UPLOAD_ROOT (stored_name i)
     | None => ret tt
     end) w = (Ok tt, w') /\
    orders w' = orders w /\ technicians w' = technicians w /\
    photos_dir w' = photos_dir w /\ disk w' = disk w /\
    (forall n, dir_has n (invoices_dir w') = true -> dir_has n (invoices_dir w) = true) /\
    (forall n, (forall i, invoice order = Some i -> stored_name i <> n) ->
               dir_has n (invoices_dir w') = dir_has n (invoices_dir w)) /\
    ((forall k, disk w k = None) ->
     forall i, invoice order = Some i -> stored_name i <> [] ->
               dir_has (stored_name i) (invoices_dir w') = false).
Proof.
  destruct (invoice order) as [i|].
  - destruct (str_empty (stored_name i)) eqn:E.
    + exists w. split; [reflexivity|]. repeat (split; [reflexivity|]).
      split; [auto|]. split; [auto|].
      intros _ i' Hi' Hne. injection Hi' as <-.
      destruct (stored_name i); [congruence|discriminate].
    + destruct (unlink_logged_world UPLOAD_ROOT (stored_name i) w)
        as (w1 & removed & Hrun & Ho & Ht & Hd & Hi & Hp & Hh).
      exists w1. split; [exact Hrun|]. repeat (split; [assumption|]).
      split.
      { intros n. rewrite Hi. destruct removed; [|auto].
        rewrite dir_has_remove. intros H. now apply andb_true_iff in H. }
      split.
      { intros n Hn. rewrite Hi. destruct removed; [|reflexivity].
        rewrite dir_has_remove.
        assert (Hne : str_eqb n (stored_name i) = false).
        { apply str_eqb_neq. intros ->. now apply (Hn i). }
        rewrite Hne. apply andb_true_r. }
      intros Hw i' Hi' _. injection Hi' as <-.
      rewrite Hi, (Hh Hw), dir_has_remove, str_eqb_refl. apply andb_false_r.
  - exists w. split; [reflexivity|]. repeat (split; [reflexivity|]).
    split; [auto|]. split; [auto|]. intros _ i Hi. discriminate Hi.
Qed.

(** X14: deleting an order.  When a delete answers 200, the request was
    logged in and the order existed; the first order with that job number
    is removed (with unique job numbers none is left) and every other
    order stays; the technicians are untouched; no file appears in either
    directory and no file goes but the stored invoice file and the stored
    photo files of the order; and when no removal fails on the disk, these
    files are all gone. *)
Theorem order_deleted (j : str) (rq : Request) (w w' : World) (resp : Response) :
  delete_order j rq w = (Ok resp, w') ->
  status resp = 200 ->
  exists order,
    logged_in (session rq) = true /\
    find (has_job j) (orders w) = Some order /\
    orders w' = delete_first j (orders w) /\
    (NoDup (job_nos w) -> find (has_job j) (orders w') = None) /\
    (forall o, In o (orders w) -> job_no o <> j -> In o (orders w')) /\
    technicians w' = technicians w /\
    (forall n, dir_has n (invoices_dir w') = true -> dir_has n (invoices_dir w) = true) /\
    (forall n, dir_has n (photos_dir w') = true -> dir_has n (photos_dir w) = true) /\
    (forall n, (forall i, invoice order = Some i -> stored_name i <> n) ->
               dir_has n (invoices_dir w') = dir_has n (invoices_dir w)) /\
    (forall n, names_file n (filter has_stored_name (photos order)) = false ->
               dir_has n (photos_dir w') = dir_has n (photos_dir w)) /\
    ((forall k, disk w k = None) ->
     (forall i, invoice order = Some i -> stored_name i <> [] ->
                dir_has (stored_name i) (invoices_dir w') = false) /\
     (forall n, dir_has n (photos_dir w') =
                dir_has n (photos_dir w)
                && negb (names_file n (filter has_stored_name (photos order))))).
Proof.
  intros H Hstatus.
  destruct (logged_in (session rq)) eqn:Hlog.
  2:{ unfold delete_order in H. rewrite Hlog in H.
      apply pair_equal_spec in H as [H _]. injection H as <-. discriminate Hstatus. }
  destruct (find (has_job j) (orders w)) as [order|] eqn:Hfind.
  2:{ unfold delete_order in H. rewrite Hlog in H. cbn [negb] in H.
      unfold bind, find_one in H. rewrite Hfind in H.
      apply pair_equal_spec in H as [H _]. injection H as <-. discriminate Hstatus. }
  unfold delete_order in H. rewrite Hlog in H. cbn [negb] in H.
  unfold bind at 1 in H. unfold find_one at 1 in H. rewrite Hfind in H.
  unfold bind at 1 in H.
  destruct (remove_invoice_spec order w)
    as (w1 & Hrun1 & Ho1 & Ht1 & Hp1 & Hd1 & Hless1 & Hother1 & Hgone1).
  rewrite Hrun1 in H. unfold bind at 1 in H.
  destruct (remove_photos_spec (photos order) w1)
    as (w2 & Hrun2 & Ho2 & Ht2 & Hi2 & Hd2 & Hless2 & Hother2 & Hgone2).
  rewrite Hrun2 in H.
  unfold bind, attempt, delete_one, ret in H.
  apply pair_equal_spec in H as [_ <-].
  exists order. split; [reflexivity|]. split; [reflexivity|].
  cbn [orders with_orders technicians invoices_dir photos_dir].
  split; [congruence|].
  split; [intros Hn; rewrite Ho2, Ho1; now apply find_delete_first|].
  split; [intros o Ho Hne; rewrite Ho2, Ho1; now apply delete_first_keeps_others|].
  split; [congruence|].
  split; [intros n; rewrite Hi2; apply Hless1|].
  split; [intros n Hn; rewrite <- Hp1; now apply Hless2|].
  split; [intros n Hn; rewrite Hi2; now apply Hother1|].
  split; [intros n Hn; rewrite <- Hp1; now apply Hother2|].
  intros Hw. split.
  - intros i Hi Hne. rewrite Hi2. now apply Hgone1.
  - intros n. rewrite <- Hp1. apply Hgone2. intros k. rewrite Hd1. apply Hw.
Qed.

Lemma order_deleted_witness :
  let rq := Sample.json_request Sample.technician DELETE JNull in
  let run := @delete_order (u "TE-0123") rq Sample.completed_world in
  exists resp,
    run = (Ok resp, snd run) /\
    status resp = 200 /\
    (forall k, disk Sample.completed_world k = None) /\
    photos_dir Sample.completed_world = [u "TE-0123-20231114230000-ABCD-on.jpg"] /\
    photos_dir (snd run) = [] /\
    exists order,
      logged_in (session rq) = true /\
      find (has_job (u "TE-0123")) (orders Sample.completed_world) = Some order /\
      orders (snd run) = delete_first (u "TE-0123") (orders Sample.completed_world) /\
      (NoDup (job_nos Sample.completed_world) ->
       find (has_job (u "TE-0123")) (orders (snd run)) = None) /\
      (forall o, In o (orders Sample.completed_world) -> job_no o <> u "TE-0123" ->
                 In o (orders (snd run))) /\
      technicians (snd run) = technicians Sample.completed_world /\
      (forall n, dir_has n (invoices_dir (snd run)) = true ->
                 dir_has n (invoices_dir Sample.completed_world) = true) /\
      (forall n, dir_has n (photos_dir (snd run)) = true ->
                 dir_has n (photos_dir Sample.completed_world) = true) /\
      (forall n, (forall i, invoice order = Some i -> stored_name i <> n) ->
                 dir_has n (invoices_dir (snd run))
                 = dir_has n (invoices_dir Sample.completed_world)) /\
      (forall n, names_file n (filter has_stored_name (photos order)) = false ->
                 dir_has n (photos_dir (snd run))
                 = dir_has n (photos_dir Sample.completed_world)) /\
      ((forall k, disk Sample.completed_world k = None) ->
       (forall i, invoice order = Some i -> stored_name i <> [] ->
                  dir_has (stored_name i) (invoices_dir (snd run)) = false) /\
       (forall n, dir_has n (photos_dir (snd run)) =
                  dir_has n (photos_dir Sample.completed_world)
                  && negb (names_file n (filter has_stored_name (photos order))))).
Proof.
  intros rq run.
  assert (Hr : exists resp, fst run = Ok resp /\ status resp = 200).
  { eexists. split; [vm_compute; reflexivity|reflexivity]. }
  destruct Hr as (resp & Hr & Hs).
  exists resp. pose proof (run_ok run Hr) as E.
  split; [exact E|]. split; [exact Hs|].
  split; [intros k; reflexivity|].
  split; [vm_compute; reflexivity|].
  split; [vm_compute; reflexivity|].
  exact (@order_deleted (u "TE-0123") rq Sample.completed_world (snd run) resp E Hs).
Defined.

(** ** The list of orders *)

Lemma insert_desc_perm (o : Order) (l : list Order) :
  Permutation (insert_desc o l) (o :: l).
Proof.
  induction l as [|x l IH]; [reflexivity|]. simpl.
  destruct (created_at x <? created_at o)%Z; [reflexivity|].
  rewrite IH. apply perm_swap.
Qed.

Lemma insert_desc_sorted (o : Order) (l : list Order) :
  newest_first l -> newest_first (insert_desc o l).
Proof.
  unfold newest_first. induction l as [|x l IH]; intros H; simpl.
  - constructor; constructor.
  - inversion H as [|? ? Hl Hx]; subst.
    destruct (created_at x <? created_at o)%Z eqn:E.
    + apply Z.ltb_lt in E. constructor; [exact H|].
      constructor; [lia|].
      eapply Forall_impl; [|exact Hx]. cbn. intros a Ha. lia.
    + apply Z.ltb_ge in E. constructor; [now apply IH|].
      eapply Permutation_Forall; [symmetry; apply insert_desc_perm|].
      constructor; assumption.
Qed.

Lemma find_sorted_spec (l : list Order) :
  Permutation (fold_right insert_desc [] l) l /\
  newest_first (fold_right insert_desc [] l).
Proof.
  induction l as [|x l [IHp IHs]]; simpl.
  - split; [reflexivity|constructor].
  - split; [|now apply insert_desc_sorted].
    rewrite insert_desc_perm. now constructor.
Qed.

(** X15: the list of orders.  When GET /api/orders answers 200, the
    request was logged in, the answer holds every stored order formatted
    once, from the newest to the oldest by creation time, and nothing has
    changed. *)
Theorem orders_listed_newest_first `{L : Lib} (rq : Request) (w w' : World)
    (resp : Response) :
  list_orders rq w = (Ok resp, w') ->
  status resp = 200 ->
  logged_in (session rq) = true /\
  w' = w /\
  exists documents,
    body resp = OrderList (map format_order documents) /\
    Permutation documents (orders w) /\
    newest_first documents.
Proof.
  unfold list_orders. intros H Hstatus.
  destruct (logged_in (session rq)); cbn [negb] in H.
  2:{ apply pair_equal_spec in H as [H _]. injection H as <-. discriminate Hstatus. }
  unfold bind, attempt, find_sorted, ret in H.
  apply pair_equal_spec in H as [H <-]. injection H as <-.
  split; [reflexivity|]. split; [reflexivity|].
  exists (fold_right insert_desc [] (orders w)).
  split; [reflexivity|apply find_sorted_spec].
Qed.

Lemma orders_listed_newest_first_witness :
  let rq := Sample.json_request Sample.technician GET JNull in
  let run := @list_orders Sample.lib rq SampleListing.world in
  exists resp,
    run = (Ok resp, snd run) /\
    status resp = 200 /\
    logged_in (session rq) = true /\
    snd run = SampleListing.world /\
    exists documents,
      body resp = OrderList (map (@format_order Sample.lib) documents) /\
      Permutation documents (orders SampleListing.world) /\
      newest_first documents.
Proof.
  intros rq run.
  assert (Hr : exists resp, fst run = Ok resp /\ status resp = 200).
  { eexists. split; [vm_compute; reflexivity|reflexivity]. }
  destruct Hr as (resp & Hr & Hs).
  exists resp. pose proof (run_ok run Hr) as E.
  split; [exact E|]. split; [exact Hs|].
  exact (@orders_listed_newest_first Sample.lib rq SampleListing.world (snd run)
           resp E Hs).
Defined.

(** ** The files of a completion *)

#[export] Instance photos_only_refl : Reflexive photos_only.
Proof. intros w. repeat split; reflexivity. Qed.

#[export] Instance photos_only_trans : Transitive photos_only.
Proof. intros a b c (H1 & H2 & H3) (H4 & H5 & H6). repeat split; congruence. Qed.

Lemma dir_has_add_eq (n x : str) (l : list str) :
  dir_has n (dir_add x l) = str_eqb n x || dir_has n l.
Proof.
  unfold dir_add. destruct (dir_has x l) eqn:E; [|reflexivity].
  destruct (str_eqb n x) eqn:F; [|reflexivity].
  apply str_eqb_eq in F. subst n. exact E.
Qed.

Lemma names_file_app (n : str) (l l' : list FileEntry) :
  names_file n (l ++ l') = names_file n l || names_file n l'.
Proof. apply existsb_app. Qed.

Section CompletionFiles.

Context {L : Lib}.

(** What a successful [_save_photo] returns and what it leaves. *)
Lemma _save_photo_ok (j : str) (f : FileStorage) (w w' : World) (e : FileEntry) :
  _save_photo j f w = (Ok e, w') ->
  original_name e = secure_filename (filename f) /\
  (exists rest, stored_name e = j ++ u "-" ++ rest) /\
  photos_dir w' = dir_add (stored_name e) (photos_dir w) /\
  photos_only w w'.
Proof.
  unfold _save_photo.
  destruct (str_empty (secure_filename (filename f))); [discriminate|].
  unfold bind at 1. unfold now at 1.
  unfold bind at 1. rewrite choices_eq.
  unfold bind at 1. unfold save at 1.
  destruct (disk _ _) as [msg|] eqn:Hdisk; [discriminate|].
  unfold bind, now, ret. intros H. apply pair_equal_spec in H as [H <-].
  injection H as <-. cbn [original_name stored_name].
  split; [reflexivity|]. split; [eexists; reflexivity|].
  pose proof (keeps_choices (ascii_uppercase ++ digits) 4) as K.
  specialize (K (tick_clock w) _ _ (choices_eq _ _ _)).
  destruct K as (Ko & Kt & Ki & Kp).
  cbn [photos_dir orders technicians invoices_dir tick_clock with_dir tick_disk] in *.
  split; [now rewrite Kp|]. repeat split; assumption.
Qed.

(** A [_save_photo] that raises has written nothing. *)
Lemma _save_photo_raise (j : str) (f : FileStorage) (w w' : World) (x : exn) :
  _save_photo j f w = (Raise x, w') ->
  photos_dir w' = photos_dir w /\ photos_only w w'.
Proof.
  unfold _save_photo.
  destruct (str_empty (secure_filename (filename f))).
  - intros H. apply pair_equal_spec in H as [_ <-]. split; reflexivity.
  - unfold bind at 1. unfold now at 1.
    unfold bind at 1. rewrite choices_eq.
    unfold bind at 1. unfold save at 1.
    pose proof (keeps_choices (ascii_uppercase ++ digits) 4) as K.
    specialize (K (tick_clock w) _ _ (choices_eq _ _ _)).
    destruct K as (Ko & Kt & Ki & Kp).
    destruct (disk _ _) as [msg|] eqn:Hdisk.
    + intros H. apply pair_equal_spec in H as [_ <-].
      cbn [photos_dir orders technicians invoices_dir tick_clock tick_disk] in *.
      split; [assumption|]. repeat split; assumption.
    + unfold bind, now, ret. discriminate.
Qed.

(** The loop over the photos: the entries it returns are those it had plus
    one for each file it wrote; the photos directory holds what it held
    and the files of the new entries; when no exception stopped it, every
    named file gave one entry. *)
Lemma save_photos_files (j : str) (files : list FileStorage) (saved : list FileEntry)
    (w w1 : World) (saved' : list FileEntry) (exc : option exn) :
  save_photos j files saved w = (Ok (saved', exc), w1) ->
  exists new,
    saved' = saved ++ new /\
    (forall n, dir_has n (photos_dir w1)
               = dir_has n (photos_dir w) || names_file n new) /\
    (forall e, In e new -> exists rest, stored_name e = j ++ u "-" ++ rest) /\
    photos_only w w1 /\
    (exc = None ->
     map original_name new
     = map (fun f => secure_filename (filename f))
           (filter (fun f => has_filename (Some f)) files)).
Proof.
  revert saved w. induction files as [|f files IH]; intros saved w.
  - cbn. intros H. injection H as <- <- <-. exists [].
    rewrite app_nil_r. split; [reflexivity|].
    split; [intros n; cbn; now rewrite orb_false_r|].
    split; [intros e []|]. split; [reflexivity|reflexivity].
  - cbn [save_photos filter].
    destruct (has_filename (Some f)) eqn:Hf; [|apply IH].
    unfold bind at 1. unfold attempt at 1.
    destruct (_save_photo j f w) as [[entry|x] w0] eqn:Hsave.
    + apply _save_photo_ok in Hsave as (Ho & Hs & Hp & Hk).
      intros H. apply IH in H as (new & -> & Hdir & Hnames & Hk' & Hmap).
      exists (entry :: new). rewrite <- app_assoc. split; [reflexivity|].
      split.
      { intros n. rewrite Hdir, Hp, dir_has_add_eq. cbn [names_file existsb].
        fold (names_file n new).
        destruct (str_eqb n (stored_name entry)), (dir_has n (photos_dir w)); reflexivity. }
      split; [intros e [<-|He]; auto|].
      split; [etransitivity; eassumption|].
      intros He. cbn [map]. rewrite Ho, (Hmap He). reflexivity.
    + apply _save_photo_raise in Hsave as (Hp & Hk).
      destruct x; unfold ret, raise; intros H; try discriminate H;
        injection H as <- <- <-; exists []; rewrite app_nil_r;
        (split; [reflexivity|]);
        (split; [intros n; cbn; now rewrite orb_false_r, Hp|]);
        (split; [intros e []|]); (split; [exact Hk|discriminate]).
Qed.

Lemma keeps_photos_only_remove_saved (l : list FileEntry) :
  keeps photos_only (remove_saved l).
Proof.
  induction l as [|e l IH]; cbn [remove_saved].
  - apply keeps_ret; typeclasses eauto.
  - apply keeps_bind; [typeclasses eauto| |intros _; exact IH].
    intros w r w' H.
    destruct (unlink_if_exists_world PHOTOS_ROOT (stored_name e) w)
      as (w1 & E & Ho & Ht & Hi & _).
    rewrite E in H. injection H as _ <-. repeat split; assumption.
Qed.

Lemma update_first_keeps_others (j : str) (f : Order -> Order) (l : list Order)
    (o : Order) :
  In o l -> job_no o <> j -> In o (update_first j f l).
Proof.
  induction l as [|x l IH]; [intros []|]. simpl. intros [<-|Hin] Hne.
  - destruct (has_job j x) eqn:E; [|now left].
    unfold has_job in E. apply str_eqb_eq in E. contradiction.
  - destruct (has_job j x); right; [exact Hin|now apply IH].
Qed.

Lemma update_first_length (j : str) (f : Order -> Order) (l : list Order) :
  length (update_first j f l) = length l.
Proof.
  induction l as [|x l IH]; [reflexivity|]. simpl.
  destruct (has_job j x); simpl; [reflexivity|now rewrite IH].
Qed.

(** X16: the files of a completion.  When a completion answers 200, every
    named file of the request gave one new photo of the order, in the
    order of the request, under its cleaned file name; each new photo is
    stored under a name that starts with the job number; the photos
    directory holds exactly what it held and the new files; the customer
    fields and the invoice of the order, the other orders, the number of
    orders, the invoices directory and the technicians are as they
    were. *)
Theorem completion_files (j : str) (rq : Request) (w w' : World) (resp : Response) :
  complete_order j rq w = (Ok resp, w') ->
  status resp = 200 ->
  exists order updated new,
    find (has_job j) (orders w) = Some order /\
    find (has_job j) (orders w') = Some updated /\
    photos updated = photos order ++ new /\
    map original_name new
    = map (fun f => secure_filename (filename f))
          (filter (fun f => has_filename (Some f)) (files_getlist rq (u "photos"))) /\
    (forall e, In e new -> exists rest, stored_name e = j ++ u "-" ++ rest) /\
    (forall n, dir_has n (photos_dir w')
               = dir_has n (photos_dir w) || names_file n new) /\
    same_order_data order updated /\
    (forall o, In o (orders w) -> job_no o <> j -> In o (orders w')) /\
    length (orders w') = length (orders w) /\
    invoices_dir w' = invoices_dir w /\
    technicians w' = technicians w.
Proof.
  intros H Hstatus.
  destruct (complete_order_200 j rq w H Hstatus)
    as (order & saved & w1 & _ & Hfind & _ & Hsave & _ & ->).
  destruct (save_photos_files _ _ _ _ Hsave)
    as (new & Hnew & Hdir & Hnames & (Ho & Ht & Hi) & Hmap).
  cbn [app] in Hnew. subst saved.
  exists order. eexists. exists new.
  split; [exact Hfind|].
  split.
  { cbn [orders with_orders tick_clock].
    apply find_update_first; [rewrite Ho; exact Hfind|reflexivity]. }
  cbn [photos set_completion].
  split; [reflexivity|]. split; [now apply Hmap|]. split; [exact Hnames|].
  cbn [orders with_orders tick_clock photos_dir invoices_dir technicians].
  split; [exact Hdir|].
  split; [repeat split|].
  split; [intros o Hin Hne; rewrite Ho; now apply update_first_keeps_others|].
  split; [now rewrite update_first_length, Ho|]. split; assumption.
Qed.

(** X17: a refused completion leaves nothing behind.  When a completion is
    answered with 400, 401 or 404, the orders, the technicians and the
    invoices directory are as they were; and when no write fails on the
    disk (a failed write may leave a partial file, which the model of
    [save] does not show), the photos directory holds no file it did not
    hold before. *)
Theorem refused_completion_leaves_nothing (j : str) (rq : Request) (w w' : World)
    (resp : Response) :
  complete_order j rq w = (Ok resp, w') ->
  In (status resp) [400; 401; 404] ->
  photos_only w w' /\
  ((forall k, disk w k = None) ->
   forall n, dir_has n (photos_dir w') = true -> dir_has n (photos_dir w) = true).
Proof.
  intros H Hrefused.
  destruct (logged_in (session rq)) eqn:Hlog.
  2:{ unfold complete_order in H. rewrite Hlog in H.
      apply pair_equal_spec in H as [_ <-]. split; [reflexivity|auto]. }
  destruct (find (has_job j) (orders w)) as [order|] eqn:Hfind.
  2:{ unfold complete_order in H. rewrite Hlog in H. cbn [negb] in H.
      unfold bind, find_one in H. rewrite Hfind in H.
      apply pair_equal_spec in H as [_ <-]. split; [reflexivity|auto]. }
  destruct (str_in (requested_mount_type rq) valid_mount_types) eqn:Hmount.
  2:{ unfold complete_order in H. rewrite Hlog in H. cbn [negb] in H.
      unfold bind at 1 in H. unfold find_one at 1 in H. rewrite Hfind in H.
      fold (requested_mount_type rq) in H. rewrite Hmount in H.
      apply pair_equal_spec in H as [_ <-]. split; [reflexivity|auto]. }
  destruct (save_photos_total j (files_getlist rq (u "photos")) [] w)
    as (saved & exc & w1 & Hsave & _).
  cbn [app] in Hsave.
  rewrite (complete_order_run j rq w Hlog Hfind Hmount Hsave) in H.
  destruct (save_photos_files _ _ _ _ Hsave) as (new & Hnew & Hdir & _ & Hk & _).
  cbn [app] in Hnew. subst saved.
  destruct exc as [e|].
  - unfold bind in H. destruct (remove_saved_spec new w1) as (w2 & Hrm & _ & Hdir2).
    rewrite Hrm in H. apply pair_equal_spec in H as [_ <-].
    split.
    + etransitivity; [exact Hk|].
      exact (keeps_photos_only_remove_saved new _ Hrm).
    + intros _ n. rewrite Hdir2, Hdir. fold (names_file n new).
      destruct (dir_has n (photos_dir w)), (names_file n new); auto.
  - destruct new as [|entry new].
    + cbn [is_empty] in H. apply pair_equal_spec in H as [_ <-].
      split; [exact Hk|]. intros _ n. rewrite Hdir. cbn. now rewrite orb_false_r.
    + cbn [is_empty] in H. apply pair_equal_spec in H as [H _]. injection H as <-.
      cbn [status In] in Hrefused.
      destruct Hrefused as [E|[E|[E|[]]]]; discriminate E.
Qed.

End CompletionFiles.

Lemma refused_completion_leaves_nothing_witness :
  let run := @complete_order Sample.lib (u "TE-0123") SampleCompletion.bad_batch
               Sample.open_world in
  exists resp,
    run = (Ok resp, snd run) /\
    status resp = 400 /\
    In (status resp) [400; 401; 404] /\
    (forall k, disk Sample.open_world k = None) /\
    photos_only Sample.open_world (snd run) /\
    ((forall k, disk Sample.open_world k = None) ->
     forall n, dir_has n (photos_dir (snd run)) = true ->
               dir_has n (photos_dir Sample.open_world) = true).
Proof.
  intros run.
  assert (Hr : exists resp, fst run = Ok resp /\ status resp = 400).
  { eexists. split; [vm_compute; reflexivity|reflexivity]. }
  destruct Hr as (resp & Hr & Hs).
  exists resp. pose proof (run_ok run Hr) as E.
  assert (Hin : In (status resp) [400; 401; 404]) by (rewrite Hs; now left).
  split; [exact E|]. split; [exact Hs|]. split; [exact Hin|].
  split; [intros k; reflexivity|].
  exact (@refused_completion_leaves_nothing Sample.lib (u "TE-0123")
           SampleCompletion.bad_batch Sample.open_world (snd run) resp E Hin).
Defined.

Lemma completion_files_witness :
  let run := @complete_order Sample.lib (u "TE-0123") SampleCompletion.request
               Sample.completed_world in
  exists resp,
    run = (Ok resp, snd run) /\
    status resp = 200 /\
    exists order updated new,
      find (has_job (u "TE-0123")) (orders Sample.completed_world) = Some order /\
      find (has_job (u "TE-0123")) (orders (snd run)) = Some updated /\
      photos updated = photos order ++ new /\
      map original_name new
      = map (fun f => @secure_filename Sample.lib (filename f))
            (filter (fun f => has_filename (Some f))
               (files_getlist SampleCompletion.request (u "photos"))) /\
      (forall e, In e new -> exists rest, stored_name e = u "TE-0123" ++ u "-" ++ rest) /\
      (forall n, dir_has n (photos_dir (snd run))
                 = dir_has n (photos_dir Sample.completed_world) || names_file n new) /\
      same_order_data order updated /\
      (forall o, In o (orders Sample.completed_world) -> job_no o <> u "TE-0123" ->
                 In o (orders (snd run))) /\
      length (orders (snd run)) = length (orders Sample.completed_world) /\
      invoices_dir (snd run) = invoices_dir Sample.completed_world /\
      technicians (snd run) = technicians Sample.completed_world.
Proof.
  intros run.
  assert (Hr : exists resp, fst run = Ok resp /\ status resp = 200).
  { eexists. split; [vm_compute; reflexivity|reflexivity]. }
  destruct Hr as (resp & Hr & Hs).
  exists resp. pose proof (run_ok run Hr) as E.
  split; [exact E|]. split; [exact Hs|].
  exact (@completion_files Sample.lib (u "TE-0123") SampleCompletion.request
           Sample.completed_world (snd run) resp E Hs).
Defined.

(** ** What an update writes *)

Lemma order_field_set_field (k key value : str) (o : Order) :
  In k text_fields ->
  order_field k (set_field (key, value) o)
  = if str_eqb key k then value else order_field k o.
Proof.
  unfold text_fields. cbn [In].
  intros [<-|[<-|[<-|[<-|[<-|[<-|[]]]]]]]; reflexivity.
Qed.

Lemma apply_update_absent (k : str) (l : list (str * str)) (o : Order) :
  In k text_fields ->
  ~ In k (map fst l) ->
  order_field k (apply_update l o) = order_field k o.
Proof.
  intros Hk. unfold apply_update. revert o.
  induction l as [|[key value] l IH]; intros o Hn; [reflexivity|].
  cbn [fold_left]. rewrite IH by (intros H; apply Hn; now right).
  rewrite order_field_set_field by exact Hk.
  destruct (str_eqb key k) eqn:E; [|reflexivity].
  apply str_eqb_eq in E. exfalso. apply Hn. now left.
Qed.

Lemma apply_update_present (k v : str) (l : list (str * str)) (o : Order) :
  In k text_fields ->
  NoDup (map fst l) ->
  In (k, v) l ->
  order_field k (apply_update l o) = v.
Proof.
  intros Hk. revert o.
  induction l as [|[key value] l IH]; intros o Hnd Hin; [destruct Hin|].
  cbn [map fst] in Hnd. inversion Hnd as [|? ? Hfresh Hnd']; subst.
  destruct Hin as [E|Hin].
  - injection E as -> ->.
    change (apply_update ((k, v) :: l) o) with (apply_update l (set_field (k, v) o)).
    rewrite apply_update_absent by assumption.
    rewrite order_field_set_field by exact Hk. now rewrite str_eqb_refl.
  - change (apply_update ((key, value) :: l) o)
      with (apply_update l (set_field (key, value) o)).
    now apply IH.
Qed.

(** The entries [collect_of] gathers from a dict: one for each key of
    [keys] the dict has, with the trimmed text of its value. *)
Lemma collect_of_entries (m : list (str * json)) (keys : list str)
    (collected : list (str * str)) :
  collect_of (JObj m) keys = Ok collected ->
  map fst collected = filter (dict_has m) keys /\
  (forall k, In k keys -> dict_has m k = true ->
     exists s, text_or (dict_get m k) [] = Some s /\ In (k, strip s) collected).
Proof.
  revert collected. induction keys as [|key keys IH]; intros collected H.
  - injection H as <-. split; [reflexivity|intros k []].
  - cbn [collect_of contains_of filter] in H |- *.
    destruct (dict_has m key) eqn:Hhas.
    + destruct (text_or (dict_get m key) []) as [s|] eqn:Hs; [|discriminate].
      destruct (collect_of (JObj m) keys) as [rest|]; [|discriminate].
      injection H as <-. destruct (IH rest eq_refl) as [Hk Hv].
      split; [cbn; now rewrite Hk|].
      intros k [<-|Hin] Hd.
      * exists s. split; [exact Hs|now left].
      * destruct (Hv k Hin Hd) as (s' & Hs' & Hin'). exists s'. split; [exact Hs'|now right].
    + destruct (IH collected H) as [Hk Hv]. split; [exact Hk|].
      intros k [<-|Hin] Hd; [congruence|now apply Hv].
Qed.

Lemma allowed_fields_distinct : NoDup allowed_fields.
Proof.
  unfold allowed_fields.
  repeat (constructor;
          [cbn [In]; intros H;
           repeat (destruct H as [H|H]; [apply str_eqb_eq in H; discriminate H|]);
           exact H|]).
  constructor.
Qed.

Lemma text_field_allowed (k : str) : In k text_fields -> In k allowed_fields.
Proof. intros H. now right. Qed.

Section UpdateWrites.

Context {L : Lib}.

Lemma normalize_entry_text (k v : str) :
  In k text_fields -> normalize_entry (k, v) = (k, upper (strip v)).
Proof.
  intros Hk. unfold normalize_entry.
  rewrite (text_field_not_priority Hk).
  assert (Hin : str_in k text_fields = true).
  { apply existsb_exists. exists k. split; [exact Hk|apply str_eqb_refl]. }
  rewrite Hin. now rewrite normalize_str_eq.
Qed.

(** The text fields of the order after [$set] of the normalised entries
    gathered from the dict [m]. *)
Lemma update_writes_text (m : list (str * json)) (collected : list (str * str))
    (order : Order) (k : str) :
  collect_of (JObj m) allowed_fields = Ok collected ->
  In k text_fields ->
  (dict_has m k = true ->
   exists s, text_or (dict_get m k) [] = Some s /\
             order_field k (apply_update (map normalize_entry collected) order)
             = upper (strip s)) /\
  (dict_has m k = false ->
   order_field k (apply_update (map normalize_entry collected) order)
   = order_field k order).
Proof.
  intros Hc Hk. destruct (collect_of_entries _ _ Hc) as [Hkeys Hvals].
  assert (Hfst : map fst (map normalize_entry collected) = filter (dict_has m) allowed_fields).
  { rewrite map_map, <- Hkeys. apply map_ext. intros e. apply normalize_entry_key. }
  split.
  - intros Hd. destruct (Hvals k (text_field_allowed Hk) Hd) as (s & Hs & Hin).
    exists s. split; [exact Hs|].
    rewrite <- (strip_idempotent s).
    apply apply_update_present; [exact Hk| |].
    + rewrite Hfst. apply NoDup_filter, allowed_fields_distinct.
    + rewrite <- (normalize_entry_text (strip s) Hk). now apply in_map.
  - intros Hd. apply apply_update_absent; [exact Hk|].
    rewrite Hfst. intros Hin. apply filter_In in Hin as [_ Hin]. congruence.
Qed.

(** X18: what an update writes.  When an update answers 200 the payload
    is a dict; each of the text fields name, model, phone, service, rnu
    and address that the payload has is stored trimmed and upper-cased
    (a null or an empty value as the empty string), each one it does not
    have keeps its stored value; the answer carries the updated order;
    every other order, the technicians and both directories are as they
    were. *)
Theorem update_writes (j : str) (rq : Request) (w w' : World) (resp : Response) :
  update_order j rq w = (Ok resp, w') ->
  status resp = 200 ->
  exists m order updated,
    payload rq = JObj m /\
    find (has_job j) (orders w) = Some order /\
    find (has_job j) (orders w') = Some updated /\
    body resp = OrderBody (format_order updated) None /\
    (forall k, In k text_fields ->
       (dict_has m k = true ->
        exists s, text_or (dict_get m k) [] = Some s /\
                  order_field k updated = upper (strip s)) /\
       (dict_has m k = false -> order_field k updated = order_field k order)) /\
    (forall o, In o (orders w) -> job_no o <> j -> In o (orders w')) /\
    technicians w' = technicians w /\
    invoices_dir w' = invoices_dir w /\
    photos_dir w' = photos_dir w.
Proof.
  intros H Hstatus.
  destruct (update_order_200 j rq w H Hstatus)
    as (order & collected & Hlog & Hfind & Hc & Hne & ->).
  destruct (collect_of_dict _ _ Hc Hne) as [m Hm].
  rewrite (update_order_run j rq w Hlog Hfind), Hc in H. cbv zeta in H.
  destruct collected as [|c collected]; [congruence|].
  cbn [map is_empty] in H. apply pair_equal_spec in H as [H _]. injection H as <-.
  exists m, order. eexists.
  split; [exact Hm|]. split; [exact Hfind|].
  split.
  { cbn [orders with_orders]. apply find_update_first; [exact Hfind|].
    apply apply_update_frame. }
  split; [reflexivity|].
  split.
  { intros k Hk. rewrite Hm in Hc.
    exact (update_writes_text m order Hc Hk). }
  split; [intros o Hin Hne'; now apply update_first_keeps_others|].
  repeat split.
Qed.

(** X19: an update needs an allowed key.  A logged-in update of an
    existing order whose payload is a dict with none of the keys priority,
    name, model, phone, service, rnu and address is answered with 400 and
    changes nothing; and whenever an update answers 200 its payload has
    one of these keys. *)
Theorem update_needs_allowed_key (j : str) (rq : Request) (w : World) :
  (forall m order,
     logged_in (session rq) = true ->
     find (has_job j) (orders w) = Some order ->
     payload rq = JObj m ->
     (forall k, In k allowed_fields -> dict_has m k = false) ->
     update_order j rq w
     = (Ok (json_message 400 (u "Güncellenecek alan bulunamadı.")), w)) /\
  (forall resp w',
     update_order j rq w = (Ok resp, w') ->
     status resp = 200 ->
     exists m k, payload rq = JObj m /\ In k allowed_fields /\ dict_has m k = true).
Proof.
  split.
  - intros m order Hlog Hfind Hm Hnone.
    rewrite (update_order_run j rq w Hlog Hfind), Hm.
    assert (Hc : collect_of (JObj m) allowed_fields = Ok []).
    { generalize allowed_fields Hnone. intros keys.
      induction keys as [|key keys IH]; intros Hk; [reflexivity|].
      cbn [collect_of contains_of]. rewrite (Hk key) by now left.
      apply IH. intros k Hin. apply Hk. now right. }
    rewrite Hc. reflexivity.
  - intros resp w' H Hstatus.
    destruct (update_order_200 j rq w H Hstatus)
      as (order & collected & _ & _ & Hc & Hne & _).
    destruct (collect_of_dict _ _ Hc Hne) as [m Hm]. rewrite Hm in Hc.
    destruct (collect_of_entries _ _ Hc) as [Hkeys _].
    destruct collected as [|[k v] collected]; [congruence|].
    assert (Hin : In k (filter (dict_has m) allowed_fields))
      by (rewrite <- Hkeys; now left).
    apply filter_In in Hin as [Hin Hd]. exists m, k. auto.
Qed.

End UpdateWrites.

Lemma update_writes_witness :
  let run := @update_order Sample.lib (u "TE-0123") SampleUpdate.request
               Sample.open_world in
  exists resp,
    run = (Ok resp, snd run) /\
    status resp = 200 /\
    exists m order updated,
      payload SampleUpdate.request = JObj m /\
      find (has_job (u "TE-0123")) (orders Sample.open_world) = Some order /\
      find (has_job (u "TE-0123")) (orders (snd run)) = Some updated /\
      body resp = OrderBody (@format_order Sample.lib updated) None /\
      (forall k, In k text_fields ->
         (dict_has m k = true ->
          exists s, text_or (dict_get m k) [] = Some s /\
                    order_field k updated = @upper Sample.lib (strip s)) /\
         (dict_has m k = false -> order_field k updated = order_field k order)) /\
      (forall o, In o (orders Sample.open_world) -> job_no o <> u "TE-0123" ->
                 In o (orders (snd run))) /\
      technicians (snd run) = technicians Sample.open_world /\
      invoices_dir (snd run) = invoices_dir Sample.open_world /\
      photos_dir (snd run) = photos_dir Sample.open_world.
Proof.
  intros run.
  assert (Hr : exists resp, fst run = Ok resp /\ status resp = 200).
  { eexists. split; [vm_compute; reflexivity|reflexivity]. }
  destruct Hr as (resp & Hr & Hs).
  exists resp. pose proof (run_ok run Hr) as E.
  split; [exact E|]. split; [exact Hs|].
  exact (@update_writes Sample.lib (u "TE-0123") SampleUpdate.request
           Sample.open_world (snd run) resp E Hs).
Defined.

Lemma update_needs_allowed_key_witness :
  (logged_in (session SampleNote.note_only) = true /\
   find (has_job (u "TE-0123")) (orders Sample.open_world) = Some Sample.open_order /\
   (forall k, In k allowed_fields ->
      dict_has (Sample.text_fields_of [("note", "yeni not")]%string) k = false) /\
   @update_order Sample.lib (u "TE-0123") SampleNote.note_only Sample.open_world
   = (Ok (json_message 400 (u "Güncellenecek alan bulunamadı.")), Sample.open_world)) /\
  (let run := @update_order Sample.lib (u "TE-0123") SampleUpdate.request
                Sample.open_world in
   exists resp, run = (Ok resp, snd run) /\ status resp = 200 /\
     exists m k, payload SampleUpdate.request = JObj m /\
                 In k allowed_fields /\ dict_has m k = true).
Proof.
  pose proof (@update_needs_allowed_key Sample.lib (u "TE-0123")) as T.
  assert (H1 : logged_in (session SampleNote.note_only) = true) by reflexivity.
  assert (H2 : find (has_job (u "TE-0123")) (orders Sample.open_world)
               = Some Sample.open_order) by (vm_compute; reflexivity).
  assert (H3 : forall k, In k allowed_fields ->
                 dict_has (Sample.text_fields_of [("note", "yeni not")]%string) k = false).
  { unfold allowed_fields. cbn [In].
    intros k [<-|[<-|[<-|[<-|[<-|[<-|[<-|[]]]]]]]]; vm_compute; reflexivity. }
  split.
  - split; [exact H1|]. split; [exact H2|]. split; [exact H3|].
    exact (proj1 (T SampleNote.note_only Sample.open_world) _ _ H1 H2 eq_refl H3).
  - intros run.
    assert (Hr : exists resp, fst run = Ok resp /\ status resp = 200).
    { eexists. split; [vm_compute; reflexivity|reflexivity]. }
    destruct Hr as (resp & Hr & Hs).
    exists resp. pose proof (run_ok run Hr) as E.
    split; [exact E|]. split; [exact Hs|].
    exact (proj2 (T SampleUpdate.request Sample.open_world) resp (snd run) E Hs).
Defined.

(** ** Creating a technician *)

Section Technicians.

Context {L : Lib}.

Lemma technician_field_string (m : list (str * json)) (f : str) :
  missing_of m technician_fields = Ok [] ->
  In f technician_fields ->
  exists s, dict_get m f = JStr s /\ strip s <> [].
Proof.
  intros H Hin. apply missing_of_ok in H as [Hnil Hall].
  apply not_blank_string.
  - now apply Hall.
  - symmetry in Hnil. exact (filter_nil_false _ _ _ Hnil Hin).
Qed.

(** X20: creating a technician.  Whatever [create_technician] answers,
    the orders and both directories are as they were; unless it answers
    201 the technicians are as they were too.  When it answers 201 the
    payload is a dict whose name, user name, password and level are
    non-blank strings, exactly one technician was added, with these three
    texts trimmed and upper-cased, with the level the text denotes, which
    is 3, 4 or 5 (so never an administrator), and under a user name no
    technician had. *)
Theorem technician_created (rq : Request) (w w' : World) (resp : Response) :
  create_technician rq w = (Ok resp, w') ->
  orders w' = orders w /\ invoices_dir w' = invoices_dir w /\
  photos_dir w' = photos_dir w /\
  (status resp <> 201 -> technicians w' = technicians w) /\
  (status resp = 201 ->
   exists m t s,
     payload rq = JObj m /\
     technicians w' = technicians w ++ [t] /\
     (forall f, In f technician_fields ->
                exists v, dict_get m f = JStr v /\ strip v <> []) /\
     tech_name t = normalize_text (dict_get m (u "name")) /\
     username t = normalize_text (dict_get m (u "username")) /\
     password t = normalize_text (dict_get m (u "password")) /\
     dict_get m (u "level") = JStr s /\ py_int s = Some (level t) /\
     (level t = 3 \/ level t = 4 \/ level t = 5)%Z /\
     (forall x, In x (technicians w) -> username x <> username t)).
Proof.
  assert (Hfail : forall n msg,
            n <> 201 ->
            (Ok (json_message n msg), w) = (Ok resp, w') ->
            orders w' = orders w /\ invoices_dir w' = invoices_dir w /\
            photos_dir w' = photos_dir w /\
            (status resp <> 201 -> technicians w' = technicians w) /\
            (status resp = 201 ->
             exists m t s,
               payload rq = JObj m /\
               technicians w' = technicians w ++ [t] /\
               (forall f, In f technician_fields ->
                          exists v, dict_get m f = JStr v /\ strip v <> []) /\
               tech_name t = normalize_text (dict_get m (u "name")) /\
               username t = normalize_text (dict_get m (u "username")) /\
               password t = normalize_text (dict_get m (u "password")) /\
               dict_get m (u "level") = JStr s /\ py_int s = Some (level t) /\
               (level t = 3 \/ level t = 4 \/ level t = 5)%Z /\
               (forall x, In x (technicians w) -> username x <> username t))).
  { intros n msg Hn H. apply pair_equal_spec in H as [H <-]. injection H as <-.
    repeat (split; [reflexivity|]).
    cbn [status json_message]. intros E. contradiction. }
  unfold create_technician.
  destruct (logged_in (session rq)); cbn [negb];
    [|apply Hfail; discriminate].
  destruct (payload rq) as [| b | z | s0 | l | m] eqn:Hp;
    try (unfold technician_fields; cbn [missing_fields data_get];
         unfold bind, raise; discriminate).
  unfold bind at 1. rewrite missing_fields_obj.
  destruct (missing_of m technician_fields) as [[|f missing]|e] eqn:Hmiss;
    cbn [is_empty negb]; [|apply Hfail; discriminate|discriminate].
  unfold bind at 1. rewrite data_get_obj.
  unfold bind at 1. rewrite data_get_obj.
  unfold bind at 1. rewrite data_get_obj.
  unfold bind at 1. rewrite data_get_obj.
  cbv zeta.
  destruct (technician_field_string m (f := u "level") Hmiss) as (s & Hs & _);
    [right; right; right; now left|].
  rewrite Hs.
  destruct (py_int s) as [lv|] eqn:Hint; [|apply Hfail; discriminate].
  destruct ((lv =? 3) || (lv =? 4) || (lv =? 5))%Z eqn:Hlv;
    [|apply Hfail; discriminate].
  unfold bind at 1. unfold now at 1.
  unfold bind at 1. unfold attempt, insert_technician.
  cbn [technicians tick_clock username].
  destruct (existsb _ (technicians w)) eqn:Hdup.
  - unfold ret. intros H. apply pair_equal_spec in H as [H <-]. injection H as <-.
    repeat (split; [reflexivity|]).
    cbn [status json_message]. discriminate.
  - unfold ret. intros H. apply pair_equal_spec in H as [H <-]. injection H as <-.
    repeat (split; [reflexivity|]). split; [cbn [status]; congruence|].
    intros _. exists m. eexists. exists s.
    split; [reflexivity|].
    cbn [technicians with_technicians tick_clock].
    split; [reflexivity|].
    split; [intros f Hf; now apply technician_field_string|].
    cbn [tech_name username password level].
    repeat (split; [reflexivity|]).
    split; [exact Hs|]. split; [exact Hint|].
    split.
    { apply orb_true_iff in Hlv as [Hlv|Hlv];
        [apply orb_true_iff in Hlv as [Hlv|Hlv]|];
        apply Z.eqb_eq in Hlv; auto. }
    intros x Hx E.
    assert (Hex : existsb (fun x0 => str_eqb (username x0)
                            (normalize_text (dict_get m (u "username"))))
                    (technicians w) = true).
    { apply existsb_exists. exists x. split; [exact Hx|]. now apply str_eqb_eq. }
    congruence.
Qed.

End Technicians.

Lemma technician_created_witness :
  let run := @create_technician Sample.lib SampleTechnician.request Sample.open_world in
  exists resp,
    run = (Ok resp, snd run) /\
    status resp = 201 /\
    orders (snd run) = orders Sample.open_world /\
    invoices_dir (snd run) = invoices_dir Sample.open_world /\
    photos_dir (snd run) = photos_dir Sample.open_world /\
    (status resp <> 201 -> technicians (snd run) = technicians Sample.open_world) /\
    (status resp = 201 ->
     exists m t s,
       payload SampleTechnician.request = JObj m /\
       technicians (snd run) = technicians Sample.open_world ++ [t] /\
       (forall f, In f technician_fields ->
                  exists v, dict_get m f = JStr v /\ strip v <> []) /\
       tech_name t = @normalize_text Sample.lib (dict_get m (u "name")) /\
       username t = @normalize_text Sample.lib (dict_get m (u "username")) /\
       password t = @normalize_text Sample.lib (dict_get m (u "password")) /\
       dict_get m (u "level") = JStr s /\ @py_int Sample.lib s = Some (level t) /\
       (level t = 3 \/ level t = 4 \/ level t = 5)%Z /\
       (forall x, In x (technicians Sample.open_world) -> username x <> username t)).
Proof.
  intros run.
  assert (Hr : exists resp, fst run = Ok resp /\ status resp = 201).
  { eexists. split; [vm_compute; reflexivity|reflexivity]. }
  destruct Hr as (resp & Hr & Hs).
  exists resp. pose proof (run_ok run Hr) as E.
  split; [exact E|]. split; [exact Hs|].
  exact (@technician_created Sample.lib SampleTechnician.request
           Sample.open_world (snd run) resp E).
Defined.

(** ** Signing in and out *)

Lemma find_unique_username (l : list Technician) (t : Technician) :
  NoDup (map username l) -> In t l ->
  find (fun x => str_eqb (username x) (username t)) l = Some t.
Proof.
  induction l as [|x l IH]; intros Hnd Hin; [destruct Hin|].
  cbn [map] in Hnd. inversion Hnd as [|? ? Hfresh Hnd']; subst.
  cbn [find]. destruct (str_eqb (username x) (username t)) eqn:E.
  - destruct Hin as [->|Hin]; [reflexivity|].
    apply str_eqb_eq in E. exfalso. apply Hfresh. rewrite E. now apply in_map.
  - destruct Hin as [->|Hin]; [now rewrite str_eqb_refl in E|]. now apply IH.
Qed.

Lemma not_empty (s : str) : str_empty s = false <-> s <> [].
Proof. destruct s; cbn; split; congruence. Qed.

Section SigningIn.

Context {L : Lib}.

(** [login] never raises and never touches the world; what it writes to
    the session is decided by the first technician with the normalised
    user name. *)
Lemma login_run (rq : Request) (w : World) :
  exists page sw,
    login rq w = (Ok (page, sw), w) /\
    (sw = KeepSession \/
     exists t,
       logged_in (session rq) = false /\ method rq = POST /\
       normalize_str (form_text rq (u "username")) <> [] /\
       find (fun x => str_eqb (username x) (normalize_str (form_text rq (u "username"))))
            (technicians w) = Some t /\
       password t = normalize_str (form_text rq (u "password")) /\
       sw = SignIn (username t) (tech_name t) (level t) /\
       page = RedirectTo (if (level t =? 3)%Z then "montaj_kapama" else "index")) /\
    (forall t,
       logged_in (session rq) = false -> method rq = POST ->
       normalize_str (form_text rq (u "username")) <> [] ->
       find (fun x => str_eqb (username x) (normalize_str (form_text rq (u "username"))))
            (technicians w) = Some t ->
       password t = normalize_str (form_text rq (u "password")) ->
       sw = SignIn (username t) (tech_name t) (level t)).
Proof.
  unfold login.
  destruct (logged_in (session rq)) eqn:Hlog.
  { eexists. eexists. split; [reflexivity|]. split; [now left|]. discriminate. }
  destruct (method rq) eqn:Hm;
    try (eexists; eexists; split; [reflexivity|]; split; [now left|]; discriminate).
  cbv zeta. unfold bind.
  destruct (str_empty (normalize_str (form_text rq (u "username")))) eqn:Hu.
  { unfold ret. eexists. eexists. split; [reflexivity|]. split; [now left|].
    intros t _ _ Hne. apply not_empty in Hne. congruence. }
  unfold find_technician.
  destruct (find _ (technicians w)) as [t|] eqn:Hfind.
  2:{ unfold ret. eexists. eexists. split; [reflexivity|]. split; [now left|].
      intros t _ _ _ Ht. discriminate Ht. }
  destruct (str_eqb (password t) (normalize_str (form_text rq (u "password")))) eqn:Hp.
  - unfold ret. eexists. eexists. split; [reflexivity|].
    apply str_eqb_eq in Hp. apply not_empty in Hu.
    split.
    + right. exists t. repeat split; assumption.
    + intros t' _ _ _ Ht' _. congruence.
  - unfold ret. eexists. eexists. split; [reflexivity|]. split; [now left|].
    intros t' _ _ _ Ht' Hp'. injection Ht' as <-.
    apply str_eqb_neq in Hp. contradiction.
Qed.

(** X21: signing in.  [login] never raises, never changes the world and
    never clears the session.  When it signs a session in, the request
    was an anonymous POST and some technician has the trimmed, upper-cased
    user name of the form, which is not empty, and the trimmed,
    upper-cased password of the form; the session gets that technician's
    user name, name and level, and the redirect goes to the closing page
    for level 3 and to the index otherwise.  Conversely, with unique user
    names, an anonymous POST with the user name and the password of a
    technician (up to case and surrounding blanks) signs that technician
    in. *)
Theorem login_signs_in (rq : Request) (w : World) :
  exists page sw,
    login rq w = (Ok (page, sw), w) /\
    sw <> ClearSession /\
    (forall un nm lv, sw = SignIn un nm lv ->
       logged_in (session rq) = false /\ method rq = POST /\
       exists t,
         In t (technicians w) /\
         username t = normalize_str (form_text rq (u "username")) /\
         username t <> [] /\
         password t = normalize_str (form_text rq (u "password")) /\
         un = username t /\ nm = tech_name t /\ lv = level t /\
         page = RedirectTo (if (level t =? 3)%Z then "montaj_kapama" else "index")) /\
    (forall t,
       logged_in (session rq) = false -> method rq = POST ->
       NoDup (usernames w) -> In t (technicians w) ->
       username t = normalize_str (form_text rq (u "username")) ->
       username t <> [] ->
       password t = normalize_str (form_text rq (u "password")) ->
       sw = SignIn (username t) (tech_name t) (level t)).
Proof.
  destruct (login_run rq w) as (page & sw & Hrun & Hcases & Hcomplete).
  exists page, sw. split; [exact Hrun|].
  split.
  { destruct Hcases as [->|(t & _ & _ & _ & _ & _ & -> & _)]; discriminate. }
  split.
  - intros un nm lv Hsw.
    destruct Hcases as [->|(t & Hlog & Hm & Hne & Hfind & Hp & -> & ->)];
      [discriminate|].
    injection Hsw as <- <- <-.
    split; [exact Hlog|]. split; [exact Hm|]. exists t.
    pose proof (find_some _ _ Hfind) as [Hin Heq]. apply str_eqb_eq in Heq.
    split; [exact Hin|]. split; [exact Heq|]. split; [congruence|].
    split; [exact Hp|]. repeat split.
  - intros t Hlog Hm Hnd Hin Hu Hne Hp.
    apply Hcomplete; try assumption.
    + congruence.
    + rewrite <- Hu. now apply find_unique_username.
Qed.




(** X23: signing out.  Whatever the session was, after [logout] the index
    page redirects to the login page and every endpoint behind the login
    gate answers 401 and changes nothing; after a [login] that signed the
    session in, the session is logged in and the index page leads where
    the login redirect led: to the closing page for level 3 and to the
    index page otherwise. *)
Theorem sign_in_and_out (rq next : Request) (w : World) :
  (forall page un nm lv,
     login rq w = (Ok (page, SignIn un nm lv), w) ->
     logged_in (write_session (SignIn un nm lv) (session rq)) = true /\
     page = RedirectTo (if (lv =? 3)%Z then "montaj_kapama" else "index") /\
     index (with_session (write_session (SignIn un nm lv) (session rq)) next)
     = (if (lv =? 3)%Z then RedirectTo "montaj_kapama" else IndexPage)) /\
  index (with_session (write_session (snd (logout rq)) (session rq)) next)
  = RedirectTo "login" /\
  (forall fuel ep w0,
     gated ep = true ->
     view fuel ep (with_session (write_session (snd (logout rq)) (session rq)) next) w0
     = (Ok _unauthorized_json, w0)).
Proof.
  split; [|split].
  - intros page un nm lv H.
    destruct (login_run rq w) as (page' & sw & Hrun & Hcases & _).
    rewrite Hrun in H. injection H as -> ->.
    destruct Hcases as [E|(t & _ & _ & _ & _ & _ & E & ->)]; [discriminate E|].
    injection E as -> -> ->.
    split; [reflexivity|]. split; [reflexivity|].
    unfold index. cbn [write_session with_session session logged_in technician_level negb].
    destruct (level t) as [|[[p|p|]|p|]|p]; reflexivity.
  - reflexivity.
  - intros fuel ep w0 Hg. now apply unauthorized_view.
Qed.

End SigningIn.

Lemma login_signs_in_witness :
  logged_in (session SampleLogin.request) = false /\
  method SampleLogin.request = POST /\
  NoDup (usernames SampleLogin.world) /\
  In SampleLogin.installer (technicians SampleLogin.world) /\
  exists page sw,
    @login Sample.lib SampleLogin.request SampleLogin.world
      = (Ok (page, sw), SampleLogin.world) /\
    sw = SignIn (u "VELI") (u "VELI USTA") 3 /\
    page = RedirectTo "montaj_kapama".
Proof.
  assert (H1 : logged_in (session SampleLogin.request) = false) by reflexivity.
  assert (H2 : method SampleLogin.request = POST) by reflexivity.
  assert (H3 : NoDup (usernames SampleLogin.world)).
  { vm_compute. repeat constructor; cbn [In]; intuition discriminate. }
  assert (H4 : In SampleLogin.installer (technicians SampleLogin.world))
    by (vm_compute; auto).
  split; [exact H1|]. split; [exact H2|]. split; [exact H3|]. split; [exact H4|].
  destruct (@login_signs_in Sample.lib SampleLogin.request SampleLogin.world)
    as (page & sw & Hrun & _ & Hsound & Hcomplete).
  exists page, sw. split; [exact Hrun|].
  assert (Hsw : sw = SignIn (username SampleLogin.installer)
                       (tech_name SampleLogin.installer) (level SampleLogin.installer)).
  { apply Hcomplete; try assumption; try (vm_compute; reflexivity).
    vm_compute. discriminate. }
  split; [exact Hsw|].
  destruct (Hsound _ _ _ Hsw) as (_ & _ & t & _ & _ & _ & _ & _ & _ & Hlv & ->).
  cbn [level SampleLogin.installer] in Hlv. rewrite <- Hlv. reflexivity.
Defined.


Lemma sign_in_and_out_witness :
  @login Sample.lib SampleLogin.request SampleLogin.world
    = (Ok (RedirectTo "montaj_kapama", SignIn (u "VELI") (u "VELI USTA") 3),
       SampleLogin.world) /\
  index (with_session
           (write_session (SignIn (u "VELI") (u "VELI USTA") 3)
              (session SampleLogin.request))
           SampleLogin.request)
  = RedirectTo "montaj_kapama".
Proof.
  assert (Hr : fst (@login Sample.lib SampleLogin.request SampleLogin.world)
               = Ok (RedirectTo "montaj_kapama", SignIn (u "VELI") (u "VELI USTA") 3))
    by (vm_compute; reflexivity).
  assert (E : @login Sample.lib SampleLogin.request SampleLogin.world
              = (Ok (RedirectTo "montaj_kapama", SignIn (u "VELI") (u "VELI USTA") 3),
                 SampleLogin.world)).
  { destruct (@login_run Sample.lib SampleLogin.request SampleLogin.world)
      as (page & sw & Hrun & _). rewrite Hrun in Hr |- *. cbn [fst] in Hr.
    injection Hr as -> ->. reflexivity. }
  split; [exact E|].
  destruct (@sign_in_and_out Sample.lib SampleLogin.request SampleLogin.request
              SampleLogin.world) as (Hin & _ & _).
  destruct (Hin _ _ _ _ E) as (_ & _ & Hindex). exact Hindex.
Defined.

(** ** The closing page *)

Lemma str_eqb_sym (a b : str) : str_eqb a b = str_eqb b a.
Proof.
  destruct (str_eqb a b) eqn:E, (str_eqb b a) eqn:F; try reflexivity.
  - apply str_eqb_eq in E. apply str_eqb_neq in F. congruence.
  - apply str_eqb_eq in F. apply str_eqb_neq in E. congruence.
Qed.

Lemma str_leb_total (a b : str) : str_leb a b = false -> str_leb b a = true.
Proof.
  revert b. induction a as [|x a IH]; intros [|y b]; cbn; try congruence.
  destruct (N.ltb_spec x y), (N.eqb_spec x y), (N.ltb_spec y x), (N.eqb_spec y x);
    cbn; try lia; try congruence; auto.
Qed.

Lemma str_leb_trans (a b c : str) :
  str_leb a b = true -> str_leb b c = true -> str_leb a c = true.
Proof.
  revert b c. induction a as [|x a IH]; intros [|y b] [|z c]; cbn; try congruence.
  intros H1 H2. apply orb_true_iff in H1, H2. apply orb_true_iff.
  rewrite andb_true_iff, N.ltb_lt, N.eqb_eq in *.
  destruct H1 as [H1|[H1 H1']], H2 as [H2|[H2 H2']]; try (left; lia).
  right. split; [lia|]. now apply IH with (b := b).
Qed.

Lemma str_leb_antisym (a b : str) :
  str_leb a b = true -> str_leb b a = true -> a = b.
Proof.
  revert b. induction a as [|x a IH]; intros [|y b]; cbn; try congruence.
  intros H1 H2. apply orb_true_iff in H1, H2.
  rewrite andb_true_iff, N.ltb_lt, N.eqb_eq in *.
  destruct H1 as [H1|[H1 H1']], H2 as [H2|[H2 H2']]; try lia.
  subst y. f_equal. now apply IH.
Qed.

Lemma montaj_before_total (a b : Order) :
  montaj_before a b = false -> montaj_before b a = true.
Proof.
  unfold montaj_before. rewrite (str_eqb_sym (priority b)).
  destruct (str_eqb (priority a) (priority b)).
  - intros H. apply Z.leb_gt in H. apply Z.leb_le. lia.
  - apply str_leb_total.
Qed.

Lemma montaj_before_trans (a b c : Order) :
  montaj_before a b = true -> montaj_before b c = true -> montaj_before a c = true.
Proof.
  unfold montaj_before.
  destruct (str_eqb (priority a) (priority b)) eqn:Eab.
  - apply str_eqb_eq in Eab. rewrite Eab.
    destruct (str_eqb (priority b) (priority c)); [|auto].
    intros H1 H2. apply Z.leb_le in H1, H2. apply Z.leb_le. lia.
  - destruct (str_eqb (priority b) (priority c)) eqn:Ebc.
    + apply str_eqb_eq in Ebc. rewrite <- Ebc, Eab. auto.
    + intros H1 H2. pose proof (str_leb_trans _ _ _ H2 H1) as H3.
      destruct (str_eqb (priority a) (priority c)) eqn:Eac; [|exact H3].
      apply str_eqb_eq in Eac. rewrite <- Eac in H2.
      apply str_eqb_neq in Eab. exfalso. apply Eab. now apply str_leb_antisym.
Qed.

Lemma insert_montaj_perm (o : Order) (l : list Order) :
  Permutation (insert_montaj o l) (o :: l).
Proof.
  induction l as [|x l IH]; [reflexivity|]. simpl.
  destruct (montaj_before o x); [reflexivity|].
  rewrite IH. apply perm_swap.
Qed.

Lemma insert_montaj_sorted (o : Order) (l : list Order) :
  StronglySorted (fun a b => montaj_before a b = true) l ->
  StronglySorted (fun a b => montaj_before a b = true) (insert_montaj o l).
Proof.
  induction l as [|x l IH]; intros H; simpl.
  - constructor; constructor.
  - inversion H as [|? ? Hl Hx]; subst.
    destruct (montaj_before o x) eqn:E.
    + constructor; [exact H|]. constructor; [exact E|].
      eapply Forall_impl; [|exact Hx]. cbn. intros a Ha.
      now apply montaj_before_trans with (b := x).
    + constructor; [now apply IH|].
      eapply Permutation_Forall; [symmetry; apply insert_montaj_perm|].
      constructor; [now apply montaj_before_total|assumption].
Qed.

Lemma sort_montaj_spec (l : list Order) :
  Permutation (fold_right insert_montaj [] l) l /\
  StronglySorted (fun a b => montaj_before a b = true) (fold_right insert_montaj [] l).
Proof.
  induction l as [|x l [IHp IHs]]; simpl.
  - split; [reflexivity|constructor].
  - split; [|now apply insert_montaj_sorted].
    rewrite insert_montaj_perm. now constructor.
Qed.

Lemma priority_rank_cases (p : str) (r : nat) :
  priority_rank p = Some r ->
  p = u "YÜKSEK" /\ r = 3 \/ p = u "ORTA" /\ r = 2 \/ p = u "DÜŞÜK" /\ r = 1.
Proof.
  unfold priority_rank.
  destruct (str_eqb p (u "YÜKSEK")) eqn:E1;
    [apply str_eqb_eq in E1; intros H; injection H as <-; auto|].
  destruct (str_eqb p (u "ORTA")) eqn:E2;
    [apply str_eqb_eq in E2; intros H; injection H as <-; auto|].
  destruct (str_eqb p (u "DÜŞÜK")) eqn:E3;
    [apply str_eqb_eq in E3; intros H; injection H as <-; auto|].
  discriminate.
Qed.

(** The string order of the three priorities is their order of urgency. *)
Lemma montaj_before_urgent (a b : Order) :
  montaj_before a b = true -> urgent_first a b.
Proof.
  unfold montaj_before. intros H ra rb Ha Hb.
  destruct (str_eqb (priority a) (priority b)) eqn:Eab.
  - apply str_eqb_eq in Eab. rewrite Eab in Ha.
    assert (ra = rb) by congruence. subst rb.
    split; [lia|]. intros _. now apply Z.leb_le.
  - apply priority_rank_cases in Ha, Hb.
    destruct Ha as [[Ea ->]|[[Ea ->]|[Ea ->]]], Hb as [[Eb ->]|[[Eb ->]|[Eb ->]]];
      rewrite Ea, Eb in H, Eab;
      try (vm_compute in Eab; discriminate Eab);
      try (vm_compute in H; discriminate H);
      split; lia.
Qed.

Lemma sorted_urgent_first (l : list Order) :
  StronglySorted (fun a b => montaj_before a b = true) l ->
  StronglySorted urgent_first l.
Proof.
  induction 1 as [|a l Hl IH Ha]; constructor; [exact IH|].
  eapply Forall_impl; [|exact Ha]. intros b. apply montaj_before_urgent.
Qed.

Lemma update_first_in (j : str) (f : Order -> Order) (l : list Order) (o : Order) :
  NoDup (map job_no l) ->
  In o (update_first j f l) ->
  (exists o0, In o0 l /\ job_no o0 = j /\ o = f o0) \/ (In o l /\ job_no o <> j).
Proof.
  induction l as [|x l IH]; intros Hnd Hin; [destruct Hin|].
  cbn [map] in Hnd. inversion Hnd as [|? ? Hfresh Hnd']; subst.
  cbn [update_first] in Hin. destruct (has_job j x) eqn:E.
  - unfold has_job in E. apply str_eqb_eq in E.
    destruct Hin as [<-|Hin].
    + left. exists x. split; [now left|]. split; [exact E|reflexivity].
    + right. split; [now right|]. intros Hj. apply Hfresh.
      rewrite E, <- Hj. now apply in_map.
  - destruct Hin as [<-|Hin].
    + right. split; [now left|]. intros Hj. unfold has_job in E.
      apply str_eqb_neq in E. congruence.
    + destruct (IH Hnd' Hin) as [(o0 & H0 & H1 & H2)|[H0 H1]].
      * left. exists o0. split; [now right|]. auto.
      * right. split; [now right|exact H1].
Qed.

Section ClosingPage.

Context {L : Lib}.

Variable regex_i : str -> str -> bool.
Variable query_fails : World -> bool.

Lemma montaj_kapama_run (rq : Request) (w : World) :
  logged_in (session rq) = true ->
  montaj_kapama regex_i query_fails rq w
  = (Ok (MontajPage
           (map format_order
              (if query_fails w then []
               else fold_right insert_montaj []
                      (filter (open_installation regex_i) (orders w))))),
     w).
Proof.
  intros H. unfold montaj_kapama, find_open_installations. rewrite H. cbn [negb].
  destruct (query_fails w); reflexivity.
Qed.

(** X24: the closing page.  For a logged-in request [montaj_kapama]
    answers with the page and changes nothing.  Every order on the page is
    a stored order whose service matches ['KURULUM'] and that is not
    completed; an order of a more urgent priority (['YÜKSEK'] over
    ['ORTA'] over ['DÜŞÜK']) stands before a less urgent one and, of two
    orders of the same priority, the newer one stands first.  When the
    query fails the page is empty; when it does not, the page shows every
    such order, each one once. *)
Theorem closing_page (rq : Request) (w : World) :
  logged_in (session rq) = true ->
  exists documents,
    montaj_kapama regex_i query_fails rq w
      = (Ok (MontajPage (map format_order documents)), w) /\
    (forall o, In o documents ->
               In o (orders w) /\ regex_i (u "KURULUM") (service o) = true /\
               montaj_completed o = false) /\
    StronglySorted urgent_first documents /\
    (query_fails w = true -> documents = []) /\
    (query_fails w = false ->
     Permutation documents (filter (open_installation regex_i) (orders w)) /\
     forall o, In o (orders w) -> regex_i (u "KURULUM") (service o) = true ->
               montaj_completed o = false -> In o documents).
Proof.
  intros Hlog.
  destruct (sort_montaj_spec (filter (open_installation regex_i) (orders w)))
    as [Hperm Hsorted].
  eexists. split; [now apply montaj_kapama_run|].
  destruct (query_fails w).
  - split; [intros o []|]. split; [constructor|].
    split; [reflexivity|discriminate].
  - split.
    { intros o Hin. apply (Permutation_in _ Hperm) in Hin.
      apply filter_In in Hin as [Hin Hopen]. unfold open_installation in Hopen.
      apply andb_true_iff in Hopen as [Hs Hc].
      split; [exact Hin|]. split; [exact Hs|]. now destruct (montaj_completed o). }
    split; [now apply sorted_urgent_first|].
    split; [discriminate|]. intros _. split; [exact Hperm|].
    intros o Hin Hs Hc.
    apply (Permutation_in _ (Permutation_sym Hperm)).
    apply filter_In. split; [exact Hin|].
    unfold open_installation. now rewrite Hs, Hc.
Qed.

(** X25: a completed order leaves the closing page.  After a completion
    that answered 200, in a store with unique job numbers, the closing
    page shows no order with the job number of the completed one. *)
Theorem completed_order_leaves_closing_page (j : str) (rq next : Request)
    (w w' : World) (resp : Response) :
  complete_order j rq w = (Ok resp, w') ->
  status resp = 200 ->
  NoDup (job_nos w) ->
  logged_in (session next) = true ->
  exists listed,
    montaj_kapama regex_i query_fails next w' = (Ok (MontajPage listed), w') /\
    forall oj, In oj listed -> oj_job_no oj <> j.
Proof.
  intros H Hstatus Hnd Hlog.
  destruct (complete_order_200 j rq w H Hstatus)
    as (order & saved & w1 & _ & Hfind & _ & Hsave & _ & ->).
  pose proof (save_photos_orders _ _ _ Hsave) as Hord.
  eexists. split; [now apply montaj_kapama_run|].
  intros oj Hin. apply in_map_iff in Hin as (o & <- & Hin).
  destruct (query_fails _); [destruct Hin|].
  destruct (sort_montaj_spec
              (filter (open_installation regex_i)
                 (orders (with_orders
                            (update_first j
                               (set_completion
                                  (completion_of rq order saved (clock w1 (clock_pos w1)))
                                  (Some (photos order ++ saved))))
                            (tick_clock w1))))) as [Hperm _].
  apply (Permutation_in _ Hperm) in Hin.
  apply filter_In in Hin as [Hin Hopen].
  cbn [orders with_orders tick_clock] in Hin. rewrite Hord in Hin.
  eapply update_first_in in Hin; [|exact Hnd].
  destruct Hin as [(o0 & _ & _ & ->)|[_ Hne]]; [|exact Hne].
  unfold open_installation in Hopen. cbn [montaj_completed set_completion] in Hopen.
  rewrite andb_false_r in Hopen. discriminate Hopen.
Qed.

End ClosingPage.

Lemma closing_page_witness :
  let rq := Sample.json_request Sample.technician GET JNull in
  let up := fun _ : World => false in
  logged_in (session rq) = true /\
  up SampleClosing.world = false /\
  exists documents,
    @montaj_kapama Sample.lib SampleClosing.regex_i up rq SampleClosing.world
      = (Ok (MontajPage (map (@format_order Sample.lib) documents)), SampleClosing.world) /\
    (forall o, In o documents ->
               In o (orders SampleClosing.world) /\
               SampleClosing.regex_i (u "KURULUM") (service o) = true /\
               montaj_completed o = false) /\
    StronglySorted urgent_first documents /\
    (up SampleClosing.world = true -> documents = []) /\
    (up SampleClosing.world = false ->
     Permutation documents
       (filter (open_installation SampleClosing.regex_i) (orders SampleClosing.world)) /\
     forall o, In o (orders SampleClosing.world) ->
               SampleClosing.regex_i (u "KURULUM") (service o) = true ->
               montaj_completed o = false -> In o documents).
Proof.
  intros rq up.
  assert (H : logged_in (session rq) = true) by reflexivity.
  split; [exact H|]. split; [reflexivity|].
  exact (@closing_page Sample.lib SampleClosing.regex_i up rq SampleClosing.world H).
Defined.

Lemma completed_order_leaves_closing_page_witness :
  let run := @complete_order Sample.lib (u "TE-0123") SampleCompletion.request
               SampleClosing.world in
  let next := Sample.json_request Sample.technician GET JNull in
  let up := fun _ : World => false in
  exists resp,
    run = (Ok resp, snd run) /\
    status resp = 200 /\
    NoDup (job_nos SampleClosing.world) /\
    logged_in (session next) = true /\
    exists listed,
      @montaj_kapama Sample.lib SampleClosing.regex_i up next (snd run)
        = (Ok (MontajPage listed), snd run) /\
      forall oj, In oj listed -> oj_job_no oj <> u "TE-0123".
Proof.
  intros run next up.
  assert (Hr : exists resp, fst run = Ok resp /\ status resp = 200).
  { eexists. split; [vm_compute; reflexivity|reflexivity]. }
  destruct Hr as (resp & Hr & Hs).
  exists resp. pose proof (run_ok run Hr) as E.
  assert (Hnd : NoDup (job_nos SampleClosing.world)).
  { vm_compute. repeat constructor; cbn [In]; intuition discriminate. }
  assert (Hlog : logged_in (session next) = true) by reflexivity.
  split; [exact E|]. split; [exact Hs|]. split; [exact Hnd|]. split; [exact Hlog|].
  exact (@completed_order_leaves_closing_page Sample.lib SampleClosing.regex_i up
           (u "TE-0123") SampleCompletion.request next SampleClosing.world (snd run)
           resp E Hs Hnd Hlog).
Defined.

(** ** The number a text message goes to *)

Section SmsNumber.

Variable isdigit : char -> bool.

(** [str.isdigit] on the ASCII range. *)
Hypothesis isdigit_ascii :
  forall c, (c < 128)%N -> isdigit c = is_decimal_digit c.

Lemma filter_digits (d : str) :
  forallb isdigit d = true -> filter isdigit d = d.
Proof.
  induction d as [|c d IH]; [reflexivity|]. cbn.
  intros H. apply andb_true_iff in H as [Hc Hd]. rewrite Hc, IH; auto.
Qed.

Lemma isdigit_zero : isdigit 48%N = true.
Proof. rewrite isdigit_ascii by lia. reflexivity. Qed.

Lemma isdigit_nine : isdigit 57%N = true.
Proof. rewrite isdigit_ascii by lia. reflexivity. Qed.

Lemma isdigit_plus : isdigit 43%N = false.
Proof. rewrite isdigit_ascii by lia. reflexivity. Qed.

(** X26: the number a text message goes to.  Whatever [_send_sms] posts
    goes to a number that starts with ['+'], carries the trimmed content,
    which is not empty, and a custom id of at most 64 characters; and the
    usual spellings of a national number reach the same subscriber: for a
    string [d] of digits that starts with neither ['0'] nor ['9'], the
    numbers [d], ['0' + d], ['90' + d] and ['+90' + d] are all sent to
    ['+90' + d]. *)
Theorem sms_number_spellings :
  (forall settings phone content custom_id p,
     _send_sms isdigit settings phone content custom_id = Some p ->
     starts_with (u "+") (sms_number p) = true /\
     sms_content p = strip content /\ sms_content p <> [] /\
     (forall c, sms_customID p = Some c -> c <> [] /\ length c <= 64)) /\
  (forall c d,
     forallb isdigit (c :: d) = true -> c <> 48%N -> c <> 57%N ->
     formatted_number isdigit (c :: d) = u "+90" ++ c :: d /\
     formatted_number isdigit (u "0" ++ c :: d) = u "+90" ++ c :: d /\
     formatted_number isdigit (u "90" ++ c :: d) = u "+90" ++ c :: d /\
     formatted_number isdigit (u "+90" ++ c :: d) = u "+90" ++ c :: d).
Proof.
  split.
  - intros settings phone content custom_id p. unfold _send_sms.
    destruct (str_empty (SMS_USER settings)); [discriminate|].
    destruct (str_empty (SMS_PASS settings)); [discriminate|].
    destruct (str_empty (SMS_SENDER settings)); [discriminate|].
    destruct (str_empty (strip phone)) eqn:Hp; [discriminate|].
    destruct (str_empty (strip content)) eqn:Hc; [discriminate|].
    destruct (str_empty (SMS_API_URL settings)); [discriminate|].
    cbn [orb]. intros H.
    apply (f_equal (fun o => match o with Some q => q | None => p end)) in H.
    cbv beta iota in H. subst p.
    cbn [sms_number sms_content sms_customID].
    split.
    { unfold formatted_number.
      destruct (starts_with (u "+") (strip phone)) eqn:E; [exact E|].
      cbv zeta. destruct (negb _); reflexivity. }
    split; [reflexivity|]. split; [now apply not_empty|].
    intros c. destruct (str_empty custom_id) eqn:Hid; [discriminate|].
    intros H. assert (E : c = firstn 64 custom_id) by congruence.
    rewrite E. clear E H. split.
    + apply not_empty in Hid. destruct custom_id; [congruence|discriminate].
    + rewrite length_firstn. lia.
  - intros c d Hd Hc0 Hc9.
    pose proof Hd as Hd'. cbn [forallb] in Hd'.
    apply andb_true_iff in Hd' as [Hc _].
    assert (Hplus : c <> 43%N).
    { intros ->. rewrite isdigit_plus in Hc. discriminate. }
    assert (E0 : char_eqb 48%N c = false).
    { unfold char_eqb. apply N.eqb_neq. congruence. }
    assert (E9 : char_eqb 57%N c = false).
    { unfold char_eqb. apply N.eqb_neq. congruence. }
    assert (Ep : char_eqb 43%N c = false).
    { unfold char_eqb. apply N.eqb_neq. congruence. }
    pose proof (filter_digits _ Hd) as Hf.
    repeat split.
    + unfold formatted_number.
      change (starts_with (u "+") (c :: d)) with (char_eqb 43%N c && true).
      rewrite Ep. cbn [andb]. cbv zeta. rewrite Hf.
      change (starts_with (u "0") (c :: d)) with (char_eqb 48%N c && true).
      rewrite E0. cbn [andb].
      change (starts_with (u "9") (c :: d)) with (char_eqb 57%N c && true).
      rewrite E9. reflexivity.
    + unfold formatted_number.
      change (u "0" ++ c :: d) with (48%N :: c :: d).
      change (starts_with (u "+") (48%N :: c :: d)) with false. cbv zeta.
      change (filter isdigit (48%N :: c :: d))
        with (if isdigit 48%N then 48%N :: filter isdigit (c :: d)
              else filter isdigit (c :: d)).
      rewrite isdigit_zero, Hf.
      change (starts_with (u "0") (48%N :: c :: d)) with true. cbn [tl].
      change (starts_with (u "9") (c :: d)) with (char_eqb 57%N c && true).
      rewrite E9. reflexivity.
    + unfold formatted_number.
      change (u "90" ++ c :: d) with (57%N :: 48%N :: c :: d).
      change (starts_with (u "+") (57%N :: 48%N :: c :: d)) with false. cbv zeta.
      change (filter isdigit (57%N :: 48%N :: c :: d))
        with (if isdigit 57%N
              then 57%N :: (if isdigit 48%N then 48%N :: filter isdigit (c :: d)
                            else filter isdigit (c :: d))
              else (if isdigit 48%N then 48%N :: filter isdigit (c :: d)
                    else filter isdigit (c :: d))).
      rewrite isdigit_zero, isdigit_nine, Hf.
      change (starts_with (u "0") (57%N :: 48%N :: c :: d)) with false.
      change (starts_with (u "9") (57%N :: 48%N :: c :: d)) with true.
      reflexivity.
Qed.

End SmsNumber.

Lemma sms_number_spellings_witness :
  (forall c, (c < 128)%N -> is_decimal_digit c = is_decimal_digit c) /\
  forallb is_decimal_digit (u "5321112233") = true /\
  formatted_number is_decimal_digit (u "5321112233") = u "+905321112233" /\
  formatted_number is_decimal_digit (u "05321112233") = u "+905321112233" /\
  formatted_number is_decimal_digit (u "905321112233") = u "+905321112233" /\
  formatted_number is_decimal_digit (u "+905321112233") = u "+905321112233".
Proof.
  assert (H0 : forall c, (c < 128)%N -> is_decimal_digit c = is_decimal_digit c)
    by reflexivity.
  assert (H1 : forallb is_decimal_digit (u "5321112233") = true) by reflexivity.
  split; [exact H0|]. split; [exact H1|].
  assert (H2 : (53 <> 48)%N) by discriminate.
  assert (H3 : (53 <> 57)%N) by discriminate.
  exact (proj2 (sms_number_spellings is_decimal_digit H0)
           53%N (u "321112233") H1 H2 H3).
Defined.

(** ** C7: the priority allow-list *)

Section PriorityAllowList.

Context {L : Lib}.

(** C7, as the code has it: a creation payload whose priority is missing
    or blank is never stored: [create_order_from_payload] raises and
    leaves the store and the directories as they were, and when every
    required field of the payload is missing, falsy or a string, a
    logged-in POST /api/orders answers 400 with ['priority'] among the
    fields it lists.  An accepted creation payload has a non-blank
    priority, and an update that carries the priority key has its value
    (null and empty included); either is stored trimmed and upper-cased
    when that is in the allow-list and as ['DÜŞÜK'] otherwise.  An update
    without the key keeps the stored priority. *)
Theorem priority_allow_list :
  (forall fuel m w r w',
     blank (dict_get m (u "priority")) = true ->
     create_order_from_payload fuel (JObj m) w = (r, w') ->
     (exists e, r = Raise e) /\ same_data w w') /\
  (forall fuel rq w m,
     logged_in (session rq) = true ->
     payload rq = JObj m ->
     (forall f, In f required_fields -> textual (dict_get m f) = true) ->
     blank (dict_get m (u "priority")) = true ->
     exists missing,
       In (u "priority") missing /\
       create_order fuel rq w =
       (Ok (json_message 400 (u "Eksik alanlar: " ++ join (u ", ") missing)), w)) /\
  (forall fuel data w oj w',
     create_order_from_payload fuel data w = (Ok oj, w') ->
     exists m doc s,
       data = JObj m /\
       orders w' = orders w ++ [doc] /\
       dict_get m (u "priority") = JStr s /\ strip s <> [] /\
       priority doc = priority_or_default (upper (strip s))) /\
  (forall j rq w resp w',
     update_order j rq w = (Ok resp, w') ->
     status resp = 200 ->
     exists m order updated,
       payload rq = JObj m /\
       find (has_job j) (orders w) = Some order /\
       find (has_job j) (orders w') = Some updated /\
       (dict_has m (u "priority") = true ->
        exists s, text_or (dict_get m (u "priority")) [] = Some s /\
                  priority updated = priority_or_default (upper (strip s))) /\
       (dict_has m (u "priority") = false -> priority updated = priority order)) /\
  (forall p,
     (str_in p valid_priorities = true -> priority_or_default p = p) /\
     (str_in p valid_priorities = false -> priority_or_default p = u "DÜŞÜK")).
Proof.
  assert (Hin : In (u "priority") required_fields) by (now left).
  split; [|split; [|split; [|split]]].
  - intros fuel m w r w' Hblank H.
    destruct r as [oj|e].
    + exfalso.
      apply create_order_from_payload_store in H
        as (m0 & doc & sp & sn & Hm & Hmiss & _).
      injection Hm as <-.
      destruct (required_field_string m Hmiss Hin) as (s & Hs & Hne).
      rewrite Hs in Hblank. unfold blank, text_or, py_or in Hblank.
      destruct s as [|c s]; [now apply Hne|].
      cbn [truthy str_empty negb] in Hblank.
      destruct (strip (c :: s)); [now apply Hne|discriminate Hblank].
    + split; [eauto|]. now apply create_order_from_payload_raised in H.
  - intros fuel rq w m Hlog Hpayload Htext Hblank.
    destruct (create_order_missing_fields fuel rq w Hlog Hpayload Htext
                (ex_intro _ (u "priority") (conj Hin Hblank))) as [_ Hrun].
    eexists. split; [|exact Hrun].
    apply filter_In. split; [exact Hin|exact Hblank].
  - intros fuel data w oj w' H.
    apply create_order_from_payload_store in H
      as (m & doc & sp & sn & -> & Hmiss & Hstore & _ & _ & _ & Hsp & Hprio & _).
    destruct (required_field_string m Hmiss Hin) as (s & Hs & Hne).
    exists m, doc, s. split; [reflexivity|]. split; [exact Hstore|].
    split; [exact Hs|]. split; [exact Hne|].
    rewrite Hs in Hsp. unfold text_or, py_or in Hsp. cbn [truthy] in Hsp.
    destruct s as [|c s]; [exfalso; now apply Hne|].
    cbn in Hsp. injection Hsp as <-.
    rewrite Hprio, normalize_str_eq, strip_idempotent. reflexivity.
  - intros j rq w resp w' H Hstatus.
    destruct (update_order_200 j rq w H Hstatus)
      as (order & collected & _ & Hfind & Hcol & Hne & ->).
    destruct (collect_of_dict _ _ Hcol Hne) as [m Hm].
    rewrite Hm in Hcol.
    exists m, order, (apply_update (map normalize_entry collected) order).
    split; [exact Hm|]. split; [exact Hfind|].
    split.
    { cbn [orders with_orders]. apply find_update_first; [exact Hfind|].
      apply apply_update_frame. }
    exact (update_priority m order Hcol).
  - intros p. unfold priority_or_default.
    split; intros ->; reflexivity.
Qed.

End PriorityAllowList.

Lemma priority_allow_list_witness :
  (let m := Sample.text_fields_of
              [("priority", ""); ("name", "ali veli"); ("model", "lg 55");
               ("phone", "0532 111 22 33"); ("service", "tv kurulum");
               ("address", "izmir")]%string in
   blank (dict_get m (u "priority")) = true /\
   (exists r w',
      @create_order_from_payload Sample.lib 1 (JObj m) Sample.empty_world = (r, w') /\
      (exists e, r = Raise e) /\ same_data Sample.empty_world w') /\
   logged_in (session SampleUpdate.empty_priority) = true /\
   payload SampleUpdate.empty_priority = JObj m /\
   (forall f, In f required_fields -> textual (dict_get m f) = true) /\
   exists missing,
     In (u "priority") missing /\
     @create_order Sample.lib 1 SampleUpdate.empty_priority Sample.empty_world =
     (Ok (json_message 400 (u "Eksik alanlar: " ++ join (u ", ") missing)),
      Sample.empty_world)) /\
  (exists oj w',
     @create_order_from_payload Sample.lib 1 SampleCreation.payload Sample.empty_world
       = (Ok oj, w') /\
     map priority (orders w') = [u "ORTA"] /\
     exists m doc s,
       SampleCreation.payload = JObj m /\
       orders w' = orders Sample.empty_world ++ [doc] /\
       dict_get m (u "priority") = JStr s /\ strip s <> [] /\
       priority doc = priority_or_default (@upper Sample.lib (strip s))) /\
  (exists resp w',
     @update_order Sample.lib (u "TE-0123") SampleUpdate.request Sample.open_world
       = (Ok resp, w') /\
     status resp = 200 /\
     map priority (orders w') = [u "DÜŞÜK"] /\
     exists m order updated,
       @payload SampleUpdate.request = JObj m /\
       find (has_job (u "TE-0123")) (orders Sample.open_world) = Some order /\
       find (has_job (u "TE-0123")) (orders w') = Some updated /\
       (dict_has m (u "priority") = true ->
        exists s, text_or (dict_get m (u "priority")) [] = Some s /\
                  priority updated = priority_or_default (@upper Sample.lib (strip s))) /\
       (dict_has m (u "priority") = false -> priority updated = priority order)) /\
  (str_in (u "ORTA") valid_priorities = true /\
   priority_or_default (u "ORTA") = u "ORTA") /\
  (str_in (u "ACIL") valid_priorities = false /\
   priority_or_default (u "ACIL") = u "DÜŞÜK").
Proof.
  pose proof (@priority_allow_list Sample.lib)
    as (Hblank & Hrefused & Hcreate & Hupdate & Hdefault).
  assert (E1 : exists oj,
             fst (@create_order_from_payload Sample.lib 1 SampleCreation.payload
                    Sample.empty_world) = Ok oj).
  { vm_compute. eexists. reflexivity. }
  destruct E1 as (oj & E1). apply run_ok in E1.
  assert (E2 : exists resp,
             fst (@update_order Sample.lib (u "TE-0123") SampleUpdate.request
                    Sample.open_world) = Ok resp /\ status resp = 200).
  { vm_compute. eexists. split; reflexivity. }
  destruct E2 as (resp & E2 & Hstatus). apply run_ok in E2.
  assert (H3 : str_in (u "ORTA") valid_priorities = true) by (vm_compute; reflexivity).
  assert (H4 : str_in (u "ACIL") valid_priorities = false) by (vm_compute; reflexivity).
  split; [|split; [|split; [|split]]].
  - intros m.
    assert (B : blank (dict_get m (u "priority")) = true) by (vm_compute; reflexivity).
    assert (G : logged_in (session SampleUpdate.empty_priority) = true) by reflexivity.
    assert (P : payload SampleUpdate.empty_priority = JObj m) by reflexivity.
    assert (T : forall f, In f required_fields -> textual (dict_get m f) = true).
    { unfold required_fields. cbn [In].
      intros f [<-|[<-|[<-|[<-|[<-|[<-|[]]]]]]]; vm_compute; reflexivity. }
    split; [exact B|]. split.
    { destruct (@create_order_from_payload Sample.lib 1 (JObj m) Sample.empty_world)
        as [r w'] eqn:E.
      exists r, w'. split; [reflexivity|]. exact (Hblank 1 m _ _ _ B E). }
    split; [exact G|]. split; [exact P|]. split; [exact T|].
    exact (Hrefused 1 SampleUpdate.empty_priority Sample.empty_world m G P T B).
  - exists oj. eexists. split; [exact E1|]. split; [vm_compute; reflexivity|].
    exact (Hcreate _ _ _ _ _ E1).
  - exists resp. eexists. split; [exact E2|]. split; [exact Hstatus|].
    split; [vm_compute; reflexivity|].
    exact (Hupdate _ _ _ _ _ E2 Hstatus).
  - split; [exact H3|]. exact (proj1 (Hdefault (u "ORTA")) H3).
  - split; [exact H4|]. exact (proj2 (Hdefault (u "ACIL")) H4).
Defined.
